(** * KeePassXC core database: persistence and key lifecycle

    Shallow embedding of [src/core/Database.cpp].  The [Database] object is a
    record of its members; its methods are computations in a small
    state-and-failure monad over the object together with the pieces of the
    process it touches (the static UUID registry, the disk, the random
    generator, the clock).  Collaborators whose code is not part of
    [Database.cpp] (hash, KDF transform, container codec, path resolution)
    are the fields of one record, [Collaborators], over which the model is
    parametric. *)

From Stdlib Require Import ZArith NArith List String Ascii Bool Lia.
From Stdlib.Strings Require Import Byte.
From stdpp Require Import base option list gmap strings.

Local Open Scope string_scope.

(** ** Qt value types *)

Abbreviation QByteArray := (list byte).
Abbreviation QString := string.
(** A [QUuid] is a 128-bit value; [0] is the null UUID. *)
Abbreviation QUuid := N.
(** Identity of a live [Database] object (the [this] pointer). *)
Abbreviation Addr := nat.
(** The verdict of a call that reports failures, and what it stored through
    its [error] argument, if anything. *)
Abbreviation Verdict := (bool * option QString)%type.

#[global] Instance byte_eq_dec : EqDecision byte := Byte.byte_eq_dec.

Definition nibbleToAscii (n : N) : ascii :=
  if (n <? 10)%N then ascii_of_N (48 + n) else ascii_of_N (87 + n).

(** [QByteArray::toHex]: two lower-case hexadecimal digits per byte. *)
Fixpoint toHex (b : QByteArray) : QString :=
  match b with
  | [] => EmptyString
  | x :: rest =>
      let n := Byte.to_N x in
      String (nibbleToAscii (n / 16)) (String (nibbleToAscii (n mod 16)) (toHex rest))
  end.

(** ** Key material *)

(** Modelled from the spec: [PasswordKey] (keys/PasswordKey.cpp is not part of
    the sources) is the KeyMaterial component, a holder of raw key bytes; a
    freshly constructed one holds no bytes, and [setRawKey] replaces them. *)
Record PasswordKey := { rawKey : QByteArray }.

Definition newPasswordKey : PasswordKey := {| rawKey := [] |}.
Definition setRawKey (data : QByteArray) (_ : PasswordKey) : PasswordKey :=
  {| rawKey := data |}.

(** Modelled from the spec: [CompositeKey] combines key factors; it is empty
    when it has none. *)
Record CompositeKey := { factors : list QByteArray }.

Definition CompositeKey_create : CompositeKey := {| factors := [] |}.
Definition isEmpty (k : CompositeKey) : bool :=
  match factors k with [] => true | _ => false end.

(** Modelled from the spec: a KDF descriptor is its parameters and its seed. *)
Record Kdf := { kdf_uuid : QUuid; kdf_rounds : Z; kdf_seed : QByteArray }.

Inductive TransformResult :=
| TransformOk (out : QByteArray)
| TransformFailed (err : QString).

(** ** The database's data *)

Inductive CompressionAlgorithm := CompressionNone | CompressionGZip.

Record DatabaseData := {
  formatVersion : Z;
  filePath : QString;
  cipher : QUuid;
  compressionAlgorithm : CompressionAlgorithm;
  masterSeed : PasswordKey;
  transformedDatabaseKey : PasswordKey;
  challengeResponseKey : PasswordKey;
  key : option CompositeKey;
  kdf : Kdf;
  publicCustomData : gmap string QByteArray
}.

Record Metadata := {
  customData : gmap string QString;
  databaseKeyChanged : Z
}.

Record Group := { g_uuid : QUuid; g_name : QString }.

Record DeletedObject := { deleted_uuid : QUuid; deletionTime : Z }.

(** Modelled from the spec: the file-change observer is an external
    collaborator; the model keeps the path it is started on (none when
    stopped) and whether it is paused. *)
Record FileWatcher := {
  fw_path : option QString;
  fw_cadence : Z * Z;
  fw_paused : bool
}.

Inductive Signal :=
| databaseOpened
| databaseSaved
| databaseDiscarded
| databaseNonDataChanged
| modified
| tagListUpdated
| emitModifiedChanged (value : bool)
| filePathChanged (oldPath newPath : QString)
| databaseFileChanged (external : bool).

(** What observers of the object see, most recent first: a signal emitted
    synchronously, or one posted through a queued connection. *)
Inductive Event :=
| Emitted (s : Signal)
| Posted (s : Signal).

Record Database := {
  m_metadata : Metadata;
  m_data : DatabaseData;
  m_rootGroup : option Group;
  m_fileWatcher : FileWatcher;
  m_uuid : QUuid;
  m_modified : bool;
  m_hasNonDataChange : bool;
  m_emitModified : bool;
  m_modifiedTimer : option Z;
  m_saveMutex : bool;
  m_fileBlockHash : QByteArray;
  m_ignoreFileChangesUntilSaved : bool;
  m_keyError : QString;
  m_deletedObjects : list DeletedObject;
  m_commonUsernames : list QString;
  m_tagList : list QString;
  m_isTemporaryDatabase : bool;
  signals : list Event
}.

(** ** The process around the object *)

(** A file on disk: its bytes, its permissions (the flags of
    [QFile::Permissions]), and, when reads are cut short by a fault, after
    how many bytes. *)
Record File := {
  f_data : QByteArray;
  f_fault : option nat;
  f_permissions : N
}.

(** [QFile::ReadUser] and [QFile::WriteUser]: the file is readable,
    respectively writable, by the user. *)
Definition ReadUser : N := 0x0400.
Definition WriteUser : N := 0x0200.

Definition hasPermission (flag perms : N) : bool :=
  negb (N.land perms flag =? 0)%N.

(** Whether [open(QIODevice::ReadOnly)] succeeds on the file: whether its
    permissions let the user read it. *)
Definition f_readable (f : File) : bool := hasPermission ReadUser (f_permissions f).

Definition file_size (f : File) : nat := length (f_data f).

(** [QIODevice::read] and [QIODevice::peek] of at most [n] bytes from the
    start of the file. *)
Definition file_read (n : nat) (f : File) : QByteArray :=
  match f_fault f with
  | Some k => firstn (Nat.min n k) (f_data f)
  | None => firstn n (f_data f)
  end.


(** Modelled from the spec: the random generator (crypto/Random.cpp is not
    part of the sources) is a process singleton.  The model is an entropy
    source read at a cursor; [randomUIntRange lo hi] takes one word of it and
    yields a value of the closed interval from [lo] to [hi], every value of
    which is the image of the residues of the word in equal number;
    [randomArray len] yields [len] bytes. *)
Record Random := { entropy : nat -> N; cursor : nat }.

Definition draw (r : Random) : N * Random :=
  (entropy r (cursor r), {| entropy := entropy r; cursor := S (cursor r) |}).

Definition randomUIntRange (lo hi : N) (r : Random) : N * Random :=
  let (x, r') := draw r in ((lo + x mod (hi - lo + 1))%N, r').

Definition byteOfN (n : N) : byte := default x00 (Byte.of_N (n mod 256)).

Definition randomArray (len : nat) (r : Random) : QByteArray * Random :=
  (map (fun i => byteOfN (entropy r (cursor r + i))) (seq 0 len),
   {| entropy := entropy r; cursor := cursor r + len |}).

(** [QUuid::createUuid]: a random UUID, never the null one. *)
Definition createUuid (r : Random) : QUuid * Random :=
  let (x, r') := draw r in ((1 + x mod (2 ^ 128 - 1))%N, r').

(** What the operating system answers to the write-side file operations of
    one save; [io_readFault] is whether later reads of a file that the save
    has written are cut short, and after how many bytes. *)
Record IoOutcome := {
  io_openWrite : bool;
  io_hashingOpen : bool;
  io_commit : bool;
  io_rename : bool;
  io_backupDir : bool;
  io_copy : bool;
  io_newFilePermissions : N;
  io_errorString : QString;
  io_tempFileName : QString;
  io_readFault : option nat
}.

Record Process := {
  s_uuidMap : gmap QUuid Addr;
  disk : gmap string File;
  random : Random;
  clock : Z;
  io : IoOutcome
}.

(** The state a method runs in: the object, its address, the process. *)
Record Sys := { self : Database; this : Addr; proc : Process }.

(** Member-wise assignment. *)
Definition set_formatVersion (v : Z) (r : DatabaseData) : DatabaseData :=
  Build_DatabaseData v (filePath r) (cipher r) (compressionAlgorithm r) (masterSeed r) (transformedDatabaseKey r) (challengeResponseKey r) (key r) (kdf r) (publicCustomData r).
Definition set_filePath (v : QString) (r : DatabaseData) : DatabaseData :=
  Build_DatabaseData (formatVersion r) v (cipher r) (compressionAlgorithm r) (masterSeed r) (transformedDatabaseKey r) (challengeResponseKey r) (key r) (kdf r) (publicCustomData r).
Definition set_cipher (v : QUuid) (r : DatabaseData) : DatabaseData :=
  Build_DatabaseData (formatVersion r) (filePath r) v (compressionAlgorithm r) (masterSeed r) (transformedDatabaseKey r) (challengeResponseKey r) (key r) (kdf r) (publicCustomData r).
Definition set_compressionAlgorithm (v : CompressionAlgorithm) (r : DatabaseData) : DatabaseData :=
  Build_DatabaseData (formatVersion r) (filePath r) (cipher r) v (masterSeed r) (transformedDatabaseKey r) (challengeResponseKey r) (key r) (kdf r) (publicCustomData r).
Definition set_masterSeed (v : PasswordKey) (r : DatabaseData) : DatabaseData :=
  Build_DatabaseData (formatVersion r) (filePath r) (cipher r) (compressionAlgorithm r) v (transformedDatabaseKey r) (challengeResponseKey r) (key r) (kdf r) (publicCustomData r).
Definition set_transformedDatabaseKey (v : PasswordKey) (r : DatabaseData) : DatabaseData :=
  Build_DatabaseData (formatVersion r) (filePath r) (cipher r) (compressionAlgorithm r) (masterSeed r) v (challengeResponseKey r) (key r) (kdf r) (publicCustomData r).
Definition set_challengeResponseKey (v : PasswordKey) (r : DatabaseData) : DatabaseData :=
  Build_DatabaseData (formatVersion r) (filePath r) (cipher r) (compressionAlgorithm r) (masterSeed r) (transformedDatabaseKey r) v (key r) (kdf r) (publicCustomData r).
Definition set_key (v : option CompositeKey) (r : DatabaseData) : DatabaseData :=
  Build_DatabaseData (formatVersion r) (filePath r) (cipher r) (compressionAlgorithm r) (masterSeed r) (transformedDatabaseKey r) (challengeResponseKey r) v (kdf r) (publicCustomData r).
Definition set_kdf (v : Kdf) (r : DatabaseData) : DatabaseData :=
  Build_DatabaseData (formatVersion r) (filePath r) (cipher r) (compressionAlgorithm r) (masterSeed r) (transformedDatabaseKey r) (challengeResponseKey r) (key r) v (publicCustomData r).
Definition set_publicCustomData (v : gmap string QByteArray) (r : DatabaseData) : DatabaseData :=
  Build_DatabaseData (formatVersion r) (filePath r) (cipher r) (compressionAlgorithm r) (masterSeed r) (transformedDatabaseKey r) (challengeResponseKey r) (key r) (kdf r) v.

Definition set_m_metadata (v : Metadata) (r : Database) : Database :=
  Build_Database v (m_data r) (m_rootGroup r) (m_fileWatcher r) (m_uuid r) (m_modified r) (m_hasNonDataChange r) (m_emitModified r) (m_modifiedTimer r) (m_saveMutex r) (m_fileBlockHash r) (m_ignoreFileChangesUntilSaved r) (m_keyError r) (m_deletedObjects r) (m_commonUsernames r) (m_tagList r) (m_isTemporaryDatabase r) (signals r).
Definition set_m_data (v : DatabaseData) (r : Database) : Database :=
  Build_Database (m_metadata r) v (m_rootGroup r) (m_fileWatcher r) (m_uuid r) (m_modified r) (m_hasNonDataChange r) (m_emitModified r) (m_modifiedTimer r) (m_saveMutex r) (m_fileBlockHash r) (m_ignoreFileChangesUntilSaved r) (m_keyError r) (m_deletedObjects r) (m_commonUsernames r) (m_tagList r) (m_isTemporaryDatabase r) (signals r).
Definition set_m_rootGroup (v : option Group) (r : Database) : Database :=
  Build_Database (m_metadata r) (m_data r) v (m_fileWatcher r) (m_uuid r) (m_modified r) (m_hasNonDataChange r) (m_emitModified r) (m_modifiedTimer r) (m_saveMutex r) (m_fileBlockHash r) (m_ignoreFileChangesUntilSaved r) (m_keyError r) (m_deletedObjects r) (m_commonUsernames r) (m_tagList r) (m_isTemporaryDatabase r) (signals r).
Definition set_m_fileWatcher (v : FileWatcher) (r : Database) : Database :=
  Build_Database (m_metadata r) (m_data r) (m_rootGroup r) v (m_uuid r) (m_modified r) (m_hasNonDataChange r) (m_emitModified r) (m_modifiedTimer r) (m_saveMutex r) (m_fileBlockHash r) (m_ignoreFileChangesUntilSaved r) (m_keyError r) (m_deletedObjects r) (m_commonUsernames r) (m_tagList r) (m_isTemporaryDatabase r) (signals r).
Definition set_m_uuid (v : QUuid) (r : Database) : Database :=
  Build_Database (m_metadata r) (m_data r) (m_rootGroup r) (m_fileWatcher r) v (m_modified r) (m_hasNonDataChange r) (m_emitModified r) (m_modifiedTimer r) (m_saveMutex r) (m_fileBlockHash r) (m_ignoreFileChangesUntilSaved r) (m_keyError r) (m_deletedObjects r) (m_commonUsernames r) (m_tagList r) (m_isTemporaryDatabase r) (signals r).
Definition set_m_modified (v : bool) (r : Database) : Database :=
  Build_Database (m_metadata r) (m_data r) (m_rootGroup r) (m_fileWatcher r) (m_uuid r) v (m_hasNonDataChange r) (m_emitModified r) (m_modifiedTimer r) (m_saveMutex r) (m_fileBlockHash r) (m_ignoreFileChangesUntilSaved r) (m_keyError r) (m_deletedObjects r) (m_commonUsernames r) (m_tagList r) (m_isTemporaryDatabase r) (signals r).
Definition set_m_hasNonDataChange (v : bool) (r : Database) : Database :=
  Build_Database (m_metadata r) (m_data r) (m_rootGroup r) (m_fileWatcher r) (m_uuid r) (m_modified r) v (m_emitModified r) (m_modifiedTimer r) (m_saveMutex r) (m_fileBlockHash r) (m_ignoreFileChangesUntilSaved r) (m_keyError r) (m_deletedObjects r) (m_commonUsernames r) (m_tagList r) (m_isTemporaryDatabase r) (signals r).
Definition set_m_emitModified (v : bool) (r : Database) : Database :=
  Build_Database (m_metadata r) (m_data r) (m_rootGroup r) (m_fileWatcher r) (m_uuid r) (m_modified r) (m_hasNonDataChange r) v (m_modifiedTimer r) (m_saveMutex r) (m_fileBlockHash r) (m_ignoreFileChangesUntilSaved r) (m_keyError r) (m_deletedObjects r) (m_commonUsernames r) (m_tagList r) (m_isTemporaryDatabase r) (signals r).
Definition set_m_modifiedTimer (v : option Z) (r : Database) : Database :=
  Build_Database (m_metadata r) (m_data r) (m_rootGroup r) (m_fileWatcher r) (m_uuid r) (m_modified r) (m_hasNonDataChange r) (m_emitModified r) v (m_saveMutex r) (m_fileBlockHash r) (m_ignoreFileChangesUntilSaved r) (m_keyError r) (m_deletedObjects r) (m_commonUsernames r) (m_tagList r) (m_isTemporaryDatabase r) (signals r).
Definition set_m_saveMutex (v : bool) (r : Database) : Database :=
  Build_Database (m_metadata r) (m_data r) (m_rootGroup r) (m_fileWatcher r) (m_uuid r) (m_modified r) (m_hasNonDataChange r) (m_emitModified r) (m_modifiedTimer r) v (m_fileBlockHash r) (m_ignoreFileChangesUntilSaved r) (m_keyError r) (m_deletedObjects r) (m_commonUsernames r) (m_tagList r) (m_isTemporaryDatabase r) (signals r).
Definition set_m_fileBlockHash (v : QByteArray) (r : Database) : Database :=
  Build_Database (m_metadata r) (m_data r) (m_rootGroup r) (m_fileWatcher r) (m_uuid r) (m_modified r) (m_hasNonDataChange r) (m_emitModified r) (m_modifiedTimer r) (m_saveMutex r) v (m_ignoreFileChangesUntilSaved r) (m_keyError r) (m_deletedObjects r) (m_commonUsernames r) (m_tagList r) (m_isTemporaryDatabase r) (signals r).
Definition set_m_ignoreFileChangesUntilSaved (v : bool) (r : Database) : Database :=
  Build_Database (m_metadata r) (m_data r) (m_rootGroup r) (m_fileWatcher r) (m_uuid r) (m_modified r) (m_hasNonDataChange r) (m_emitModified r) (m_modifiedTimer r) (m_saveMutex r) (m_fileBlockHash r) v (m_keyError r) (m_deletedObjects r) (m_commonUsernames r) (m_tagList r) (m_isTemporaryDatabase r) (signals r).
Definition set_m_keyError (v : QString) (r : Database) : Database :=
  Build_Database (m_metadata r) (m_data r) (m_rootGroup r) (m_fileWatcher r) (m_uuid r) (m_modified r) (m_hasNonDataChange r) (m_emitModified r) (m_modifiedTimer r) (m_saveMutex r) (m_fileBlockHash r) (m_ignoreFileChangesUntilSaved r) v (m_deletedObjects r) (m_commonUsernames r) (m_tagList r) (m_isTemporaryDatabase r) (signals r).
Definition set_m_deletedObjects (v : list DeletedObject) (r : Database) : Database :=
  Build_Database (m_metadata r) (m_data r) (m_rootGroup r) (m_fileWatcher r) (m_uuid r) (m_modified r) (m_hasNonDataChange r) (m_emitModified r) (m_modifiedTimer r) (m_saveMutex r) (m_fileBlockHash r) (m_ignoreFileChangesUntilSaved r) (m_keyError r) v (m_commonUsernames r) (m_tagList r) (m_isTemporaryDatabase r) (signals r).
Definition set_m_commonUsernames (v : list QString) (r : Database) : Database :=
  Build_Database (m_metadata r) (m_data r) (m_rootGroup r) (m_fileWatcher r) (m_uuid r) (m_modified r) (m_hasNonDataChange r) (m_emitModified r) (m_modifiedTimer r) (m_saveMutex r) (m_fileBlockHash r) (m_ignoreFileChangesUntilSaved r) (m_keyError r) (m_deletedObjects r) v (m_tagList r) (m_isTemporaryDatabase r) (signals r).
Definition set_m_tagList (v : list QString) (r : Database) : Database :=
  Build_Database (m_metadata r) (m_data r) (m_rootGroup r) (m_fileWatcher r) (m_uuid r) (m_modified r) (m_hasNonDataChange r) (m_emitModified r) (m_modifiedTimer r) (m_saveMutex r) (m_fileBlockHash r) (m_ignoreFileChangesUntilSaved r) (m_keyError r) (m_deletedObjects r) (m_commonUsernames r) v (m_isTemporaryDatabase r) (signals r).
Definition set_m_isTemporaryDatabase (v : bool) (r : Database) : Database :=
  Build_Database (m_metadata r) (m_data r) (m_rootGroup r) (m_fileWatcher r) (m_uuid r) (m_modified r) (m_hasNonDataChange r) (m_emitModified r) (m_modifiedTimer r) (m_saveMutex r) (m_fileBlockHash r) (m_ignoreFileChangesUntilSaved r) (m_keyError r) (m_deletedObjects r) (m_commonUsernames r) (m_tagList r) v (signals r).
Definition set_signals (v : list Event) (r : Database) : Database :=
  Build_Database (m_metadata r) (m_data r) (m_rootGroup r) (m_fileWatcher r) (m_uuid r) (m_modified r) (m_hasNonDataChange r) (m_emitModified r) (m_modifiedTimer r) (m_saveMutex r) (m_fileBlockHash r) (m_ignoreFileChangesUntilSaved r) (m_keyError r) (m_deletedObjects r) (m_commonUsernames r) (m_tagList r) (m_isTemporaryDatabase r) v.

Definition set_s_uuidMap (v : gmap QUuid Addr) (r : Process) : Process :=
  Build_Process v (disk r) (random r) (clock r) (io r).
Definition set_disk (v : gmap string File) (r : Process) : Process :=
  Build_Process (s_uuidMap r) v (random r) (clock r) (io r).
Definition set_random (v : Random) (r : Process) : Process :=
  Build_Process (s_uuidMap r) (disk r) v (clock r) (io r).
Definition set_clock (v : Z) (r : Process) : Process :=
  Build_Process (s_uuidMap r) (disk r) (random r) v (io r).
Definition set_io (v : IoOutcome) (r : Process) : Process :=
  Build_Process (s_uuidMap r) (disk r) (random r) (clock r) v.

Definition set_self (v : Database) (r : Sys) : Sys :=
  Build_Sys v (this r) (proc r).
Definition set_this (v : Addr) (r : Sys) : Sys :=
  Build_Sys (self r) v (proc r).
Definition set_proc (v : Process) (r : Sys) : Sys :=
  Build_Sys (self r) (this r) v.

(** Assignments unfold under simplification. *)
#[global] Arguments set_formatVersion _ _ /.
#[global] Arguments set_filePath _ _ /.
#[global] Arguments set_cipher _ _ /.
#[global] Arguments set_compressionAlgorithm _ _ /.
#[global] Arguments set_masterSeed _ _ /.
#[global] Arguments set_transformedDatabaseKey _ _ /.
#[global] Arguments set_challengeResponseKey _ _ /.
#[global] Arguments set_key _ _ /.
#[global] Arguments set_kdf _ _ /.
#[global] Arguments set_publicCustomData _ _ /.
#[global] Arguments set_m_metadata _ _ /.
#[global] Arguments set_m_data _ _ /.
#[global] Arguments set_m_rootGroup _ _ /.
#[global] Arguments set_m_fileWatcher _ _ /.
#[global] Arguments set_m_uuid _ _ /.
#[global] Arguments set_m_modified _ _ /.
#[global] Arguments set_m_hasNonDataChange _ _ /.
#[global] Arguments set_m_emitModified _ _ /.
#[global] Arguments set_m_modifiedTimer _ _ /.
#[global] Arguments set_m_saveMutex _ _ /.
#[global] Arguments set_m_fileBlockHash _ _ /.
#[global] Arguments set_m_ignoreFileChangesUntilSaved _ _ /.
#[global] Arguments set_m_keyError _ _ /.
#[global] Arguments set_m_deletedObjects _ _ /.
#[global] Arguments set_m_commonUsernames _ _ /.
#[global] Arguments set_m_tagList _ _ /.
#[global] Arguments set_m_isTemporaryDatabase _ _ /.
#[global] Arguments set_signals _ _ /.
#[global] Arguments set_s_uuidMap _ _ /.
#[global] Arguments set_disk _ _ /.
#[global] Arguments set_random _ _ /.
#[global] Arguments set_clock _ _ /.
#[global] Arguments set_io _ _ /.
#[global] Arguments set_self _ _ /.
#[global] Arguments set_this _ _ /.
#[global] Arguments set_proc _ _ /.

(** ** Collaborators *)

(** What [KeePass2Writer::writeDatabase] does to the device and, through the
    database's public interface, to the database: the bytes it wrote, its
    error if any, the data it left, whether it marked the database modified,
    and the random generator after its draws. *)
Record WriterResult := {
  wr_output : QByteArray;
  wr_error : option QString;
  wr_data : DatabaseData;
  wr_markedModified : bool;
  wr_random : Random
}.

(** What [KeePass2Reader::readDatabase] populates. *)
Record ReaderResult := {
  rr_error : option QString;
  rr_data : DatabaseData;
  rr_metadata : Metadata;
  rr_rootGroup : Group;
  rr_deletedObjects : list DeletedObject;
  rr_markedModified : bool
}.

Record Collaborators := {
  (** [kFileBlockToHashSizeBytes], declared in Database.h. *)
  kFileBlockToHashSizeBytes : nat;
  (** [KeePass2::CIPHER_AES256] and the KDF a new database starts with. *)
  CIPHER_AES256 : QUuid;
  defaultKdf : Kdf;
  (** [QCryptographicHash::hash(_, QCryptographicHash::Md5)]. *)
  md5 : QByteArray -> QByteArray;
  (** [CompositeKey::transform]. *)
  transform : CompositeKey -> Kdf -> TransformResult;
  KeePass2Writer_writeDatabase : Database -> Random -> WriterResult;
  KeePass2Reader_readDatabase :
    QByteArray -> option CompositeKey -> Database -> ReaderResult;
  (** [KeePass2Writer::kdbxVersionRequired(db, ignoreCurrent, ignoreKdf)]. *)
  kdbxVersionRequired : Database -> bool -> bool -> Z;
  (** [QFileInfo::canonicalFilePath] and [QFileInfo::absoluteFilePath]. *)
  canonicalFilePathOf : QString -> QString;
  absoluteFilePathOf : QString -> QString;
  (** [Group::usernamesRecursive]. *)
  usernamesRecursive : Group -> Z -> list QString;
  (** The sorted, duplicate-free tags of the entries below a group that are
      not recycled. *)
  tagsRecursive : Group -> list QString
}.

(** ** The monad of methods *)

(** A method either returns a value and the next state, or does not return
    (a null pointer is dereferenced, or a held mutex is waited for). *)
Definition M (A : Type) : Type := Sys -> option (A * Sys).

Definition ret {A} (a : A) : M A := fun s => Some (a, s).
Definition bind {A B} (m : M A) (f : A -> M B) : M B :=
  fun s => match m s with Some (a, s') => f a s' | None => None end.
Definition stuck {A} : M A := fun _ => None.
Definition gets {A} (f : Sys -> A) : M A := fun s => Some (f s, s).
Definition modify (f : Sys -> Sys) : M unit := fun s => Some (tt, f s).

Declare Scope method_scope.
Delimit Scope method_scope with method.
Notation "x <- c1 ;; c2" := (bind c1 (fun x => c2))
  (at level 100, c1 at next level, right associativity) : method_scope.
Notation "c1 ;; c2" := (bind c1 (fun _ => c2))
  (at level 100, right associativity) : method_scope.
Local Open Scope method_scope.

Definition getDb {A} (f : Database -> A) : M A := gets (fun s => f (self s)).
Definition modDb (f : Database -> Database) : M unit :=
  modify (fun s => set_self (f (self s)) s).
Definition getData {A} (f : DatabaseData -> A) : M A :=
  getDb (fun d => f (m_data d)).
Definition modData (f : DatabaseData -> DatabaseData) : M unit :=
  modDb (fun d => set_m_data (f (m_data d)) d).
Definition getProc {A} (f : Process -> A) : M A := gets (fun s => f (proc s)).
Definition modProc (f : Process -> Process) : M unit :=
  modify (fun s => set_proc (f (proc s)) s).
Definition when (b : bool) (m : M unit) : M unit := if b then m else ret tt.

(** Run a draw of the process's random generator. *)
Definition withRandom {A} (f : Random -> A * Random) : M A :=
  r <- getProc random ;;
  modProc (set_random (snd (f r))) ;; ret (fst (f r)).

(** Record a signal as emitted, or as posted through a queued connection. *)
Definition notify (sg : Signal) : M unit :=
  modDb (fun d => set_signals (Emitted sg :: signals d) d).
Definition post (sg : Signal) : M unit :=
  modDb (fun d => set_signals (Posted sg :: signals d) d).

(** ** The file watcher *)

Definition fileWatcher_start (path : QString) (interval size : Z) : M unit :=
  modDb (set_m_fileWatcher
           {| fw_path := Some path; fw_cadence := (interval, size); fw_paused := false |}).
Definition fileWatcher_stop : M unit :=
  modDb (fun d => set_m_fileWatcher
                    {| fw_path := None; fw_cadence := fw_cadence (m_fileWatcher d);
                       fw_paused := false |} d).
Definition setPaused (b : bool) (w : FileWatcher) : FileWatcher :=
  {| fw_path := fw_path w; fw_cadence := fw_cadence w; fw_paused := b |}.
Definition fileWatcher_pause : M unit :=
  modDb (fun d => set_m_fileWatcher (setPaused true (m_fileWatcher d)) d).
Definition fileWatcher_resume : M unit :=
  modDb (fun d => set_m_fileWatcher (setPaused false (m_fileWatcher d)) d).

Section Model.

Context (E : Collaborators).

(** ** Modification tracker *)

(** The single-shot timer is [Some] of its interval in milliseconds while it
    is armed.  The database is started and stopped on the thread that owns
    it, where [QMetaObject::invokeMethod] calls the timer directly. *)
Definition startModifiedTimer : M unit := modDb (set_m_modifiedTimer (Some 150%Z)).
Definition stopModifiedTimer : M unit := modDb (set_m_modifiedTimer None).

Definition timerIsActive (d : Database) : bool :=
  match m_modifiedTimer d with Some _ => true | None => false end.

(** The database has no modifiable parent, so its signal is enabled exactly
    when its own flag is. *)
Definition modifiedSignalEnabled : M bool := getDb m_emitModified.

(** Modelled from the spec: [ModifiableObject::setEmitModified] (not part of
    the sources) switches the flag and announces the change; the constructor
    connects the announcement to a hook that stops the timer when signalling
    is turned off. *)
Definition setEmitModified (value : bool) : M unit :=
  cur <- getDb m_emitModified ;;
  if Bool.eqb cur value then ret tt
  else
    modDb (set_m_emitModified value) ;;
    notify (emitModifiedChanged value) ;;
    when (negb value) stopModifiedTimer.

Definition updateCommonUsernames (topN : Z) : M unit :=
  modDb (set_m_commonUsernames []) ;;
  root <- getDb m_rootGroup ;;
  match root with
  | None => stuck
  | Some g =>
      modDb (fun d => set_m_commonUsernames
                        (m_commonUsernames d ++ usernamesRecursive E g topN) d)
  end.

Definition updateTagList : M unit :=
  modDb (set_m_tagList []) ;;
  root <- getDb m_rootGroup ;;
  match root with
  | None => notify tagListUpdated
  | Some g => modDb (set_m_tagList (tagsRecursive E g)) ;; notify tagListUpdated
  end.

(** Emissions of the signals that the constructor connects to slots of the
    database itself run those slots. *)
Definition emit_databaseOpened : M unit :=
  notify databaseOpened ;; updateCommonUsernames 10 ;; updateTagList.
Definition emit_databaseSaved : M unit :=
  notify databaseSaved ;; updateCommonUsernames 10.
Definition emit_modified : M unit :=
  notify modified ;; updateTagList.

Definition markAsModified : M unit :=
  modDb (set_m_modified true) ;;
  enabled <- modifiedSignalEnabled ;;
  active <- getDb timerIsActive ;;
  when (enabled && negb active) startModifiedTimer.

Definition markAsClean : M unit :=
  emitSignal <- getDb m_modified ;;
  modDb (set_m_modified false) ;;
  stopModifiedTimer ;;
  modDb (set_m_hasNonDataChange false) ;;
  when emitSignal emit_databaseSaved.

Definition markNonDataChange : M unit :=
  modDb (set_m_hasNonDataChange true) ;;
  notify databaseNonDataChanged.

(** The timer's expiry runs [ModifiableObject::emitModified]. *)
Definition modifiedTimer_timeout : M unit :=
  stopModifiedTimer ;;
  enabled <- modifiedSignalEnabled ;;
  when enabled emit_modified.

(** A collaborator that belongs to the database (metadata, custom data, a
    group) reports a change of its own; the report reaches [markAsModified]
    only while signalling is enabled. *)
Definition childModified : M unit :=
  enabled <- modifiedSignalEnabled ;;
  when enabled markAsModified.

(** ** Key-derived state *)

(** Modelled from the spec: [DatabaseData::resetKeys] and
    [DatabaseData::clear] (declared in Database.h, not part of the sources)
    zero all key-derived state; [clear] also forgets the path and the public
    custom data. *)
Definition resetKeys (d : DatabaseData) : DatabaseData :=
  set_key None
    (set_challengeResponseKey newPasswordKey
       (set_transformedDatabaseKey newPasswordKey
          (set_masterSeed newPasswordKey d))).

Definition DatabaseData_clear (d : DatabaseData) : DatabaseData :=
  set_publicCustomData ∅ (set_filePath "" (resetKeys d)).

(** Modelled from the spec: [Kdf::randomizeSeed] draws a fresh seed of the
    descriptor's seed length. *)
Definition randomizeSeed (k : Kdf) (r : Random) : Kdf * Random :=
  let (seed, r') := randomArray (length (kdf_seed k)) r in
  ({| kdf_uuid := kdf_uuid k; kdf_rounds := kdf_rounds k; kdf_seed := seed |}, r').

Definition isNil (b : QByteArray) : bool :=
  match b with [] => true | _ => false end.

Definition isInitialized (d : Database) : bool :=
  match key (m_data d), m_rootGroup d with
  | Some k, Some _ => negb (isEmpty k)
  | _, _ => false
  end.

Definition setFormatVersion (version : Z) : M unit :=
  modData (set_formatVersion version).

(** A [QSharedPointer<Kdf>] as a caller passes it: it points to the object
    the database itself holds in [m_data.kdf] (as [db->kdf()] does), or to
    another object, given by its state.  What is done to the object through
    the first is done to the database's KDF.  An object that is not the
    database's lives with the caller; once [setKdf] has installed it, it is
    the database's own, and a pointer to it is [installedKdf]. *)
Inductive KdfPtr :=
| installedKdf
| distinctKdf (k : Kdf).

Definition pointee (p : KdfPtr) (d : DatabaseData) : Kdf :=
  match p with
  | installedKdf => kdf d
  | distinctKdf k => k
  end.

(** [kdf->randomizeSeed()] through a pointer: the object is changed in
    place, so that the database's KDF has the new seed at once when the
    pointer is its own.  The new state of the object is returned. *)
Definition randomizeSeedAt (p : KdfPtr) : M Kdf :=
  cur <- getData (pointee p) ;;
  fresh <- withRandom (randomizeSeed cur) ;;
  match p with
  | installedKdf => modData (set_kdf fresh)
  | distinctKdf _ => ret tt
  end ;;
  ret fresh.

(** [setKdf(kdf)]: the database holds the object from now on; [k] is its
    state. *)
Definition setKdf (k : Kdf) : M unit :=
  modData (set_kdf k) ;;
  d <- getDb id ;;
  setFormatVersion (kdbxVersionRequired E d true false).

Definition setTransformedDatabaseKey (data : QByteArray) : M unit :=
  modData (fun d => set_transformedDatabaseKey
                      (setRawKey data (transformedDatabaseKey d)) d).

(** Modelled from the spec: [Metadata::setDatabaseKeyChanged] writes the
    time of the key change. *)
Definition setDatabaseKeyChanged (t : Z) : M unit :=
  modDb (fun d => set_m_metadata
                    {| customData := customData (m_metadata d);
                       databaseKeyChanged := t |} d).

Definition setKey (k : option CompositeKey)
    (updateChangedTime updateTransformSalt transformKey : bool) : M bool :=
  modDb (set_m_keyError "") ;;
  match k with
  | None => modData resetKeys ;; ret true
  | Some newKey =>
      when updateTransformSalt
        (cur <- getData kdf ;;
         fresh <- withRandom (randomizeSeed cur) ;;
         modData (set_kdf fresh)) ;;
      oldKey <- getData key ;;
      stored <- getData transformedDatabaseKey ;;
      let oldTransformedDatabaseKey :=
        match oldKey with
        | Some c =>
            if negb (isEmpty c) then setRawKey (rawKey stored) newPasswordKey
            else newPasswordKey
        | None => newPasswordKey
        end in
      kd <- getData kdf ;;
      transformed <-
        (if negb transformKey then ret (Some (rawKey oldTransformedDatabaseKey))
         else match transform E newKey kd with
              | TransformOk out => ret (Some out)
              | TransformFailed err => modDb (set_m_keyError err) ;; ret None
              end) ;;
      match transformed with
      | None => ret false
      | Some transformedKey =>
          modData (set_key (Some newKey)) ;;
          when (negb (isNil transformedKey))
            (setTransformedDatabaseKey transformedKey) ;;
          when updateChangedTime
            (now <- getProc clock ;; setDatabaseKeyChanged now) ;;
          installed <- getData transformedDatabaseKey ;;
          when (negb (bool_decide (rawKey oldTransformedDatabaseKey = rawKey installed)))
            markAsModified ;;
          ret true
      end
  end.

(** [changeKdf(kdf)]: the seed of the object passed is randomized in place
    before anything else, so that a failed call has changed it all the
    same. *)
Definition changeKdf (p : KdfPtr) : M bool :=
  fresh <- randomizeSeedAt p ;;
  cur <- getData key ;;
  ck <- match cur with
        | None => modData (set_key (Some CompositeKey_create)) ;;
                  ret CompositeKey_create
        | Some c => ret c
        end ;;
  match transform E ck fresh with
  | TransformFailed _ => ret false
  | TransformOk transformedKey =>
      setKdf fresh ;;
      setTransformedDatabaseKey transformedKey ;;
      markAsModified ;;
      ret true
  end.

(** ** Path, sentinel and root group *)

Definition setFilePath (path : QString) : M unit :=
  oldPath <- getData filePath ;;
  if String.eqb path oldPath then ret tt
  else
    modData (set_filePath path) ;;
    fileWatcher_stop ;;
    modDb (set_m_ignoreFileChangesUntilSaved false) ;;
    notify (filePathChanged oldPath path).

Definition canonicalFilePath : M QString :=
  path <- getData filePath ;; ret (canonicalFilePathOf E path).

Definition setIgnoreFileChangesUntilSaved (ignore : bool) : M unit :=
  cur <- getDb m_ignoreFileChangesUntilSaved ;;
  if Bool.eqb cur ignore then ret tt
  else
    modDb (set_m_ignoreFileChangesUntilSaved ignore) ;;
    if ignore then fileWatcher_pause else fileWatcher_resume.

(** [new Group()]: no UUID yet, no name. *)
Definition newGroup : Group := {| g_uuid := 0%N; g_name := "" |}.

Definition setRootGroup (group : Group) : M (option Group) :=
  d <- getDb id ;;
  when (isInitialized d && m_modified d) (notify databaseDiscarded) ;;
  oldRoot <- getDb m_rootGroup ;;
  modDb (set_m_rootGroup (Some group)) ;;
  (if (g_uuid group =? 0)%N then
     uuid <- withRandom createUuid ;;
     modDb (set_m_rootGroup (Some {| g_uuid := uuid; g_name := g_name group |})) ;;
     childModified ;;
     modDb (set_m_rootGroup (Some {| g_uuid := uuid; g_name := "Passwords" |})) ;;
     childModified
   else ret tt) ;;
  ret oldRoot.

(** Modelled from the spec: [Metadata::clear] and [CustomData::set] (not part
    of the sources) empty the metadata, respectively store a value under a
    key of the custom data, and report the change to the database. *)
Definition Metadata_clear : M unit :=
  modDb (set_m_metadata {| customData := ∅; databaseKeyChanged := 0 |}) ;;
  childModified.

Definition CustomData_set (name value : QString) : M unit :=
  modDb (fun d => set_m_metadata
                    {| customData := <[name := value]> (customData (m_metadata d));
                       databaseKeyChanged := databaseKeyChanged (m_metadata d) |} d) ;;
  childModified.

(** [CustomData::RandomSlug], the reserved key of the random padding. *)
Definition RandomSlug : QString := "KPXC_RANDOM_SLUG".

(** ** The registry *)

Definition databaseByUuid (uuid : QUuid) (p : Process) : option Addr :=
  s_uuidMap p !! uuid.

(** ** Files *)

Definition QFile_exists (path : QString) : M bool :=
  f <- getProc (fun p => disk p !! path) ;;
  ret (match f with Some _ => true | None => false end).

Definition QFile_permissions (path : QString) : M N :=
  f <- getProc (fun p => disk p !! path) ;;
  ret (match f with Some x => f_permissions x | None => 0%N end).

Definition withPermissions (perms : N) (f : File) : File :=
  {| f_data := f_data f; f_fault := f_fault f; f_permissions := perms |}.

Definition QFile_setPermissions (path : QString) (perms : N) : M bool :=
  ex <- QFile_exists path ;;
  modProc (fun p => set_disk (alter (withPermissions perms) path (disk p)) p) ;;
  ret ex.

Definition QFile_remove (path : QString) : M unit :=
  modProc (fun p => set_disk (delete path (disk p)) p).

Definition QFile_copy (source target : QString) : M bool :=
  src <- getProc (fun p => disk p !! source) ;;
  dst <- getProc (fun p => disk p !! target) ;;
  allowed <- getProc (fun p => io_copy (io p)) ;;
  match src, dst with
  | Some f, None =>
      if allowed then
        modProc (fun p => set_disk (<[target := f]> (disk p)) p) ;; ret true
      else ret false
  | _, _ => ret false
  end.

(** The bytes that reach a file when a write to it is completed: an existing
    file keeps its permissions, a new one gets the platform's.  Whether the
    file then opens for reading follows from those permissions; whether
    reads of it are cut short is the system's answer. *)
Definition storeFile (path : QString) (data : QByteArray) : M unit :=
  perms <- getProc (fun p => match disk p !! path with
                             | Some f => f_permissions f
                             | None => io_newFilePermissions (io p)
                             end) ;;
  fault <- getProc (fun p => io_readFault (io p)) ;;
  modProc (fun p => set_disk
                      (<[path := {| f_data := data; f_fault := fault;
                                    f_permissions := perms |}]>
                         (disk p)) p).

(** [QFile::ReadUser | QFile::WriteUser]. *)
Definition ownerReadWrite : N := 0x0600%N.

Definition backupDatabase (path destinationFilePath : QString) : M bool :=
  dirReady <- getProc (fun p => io_backupDir (io p)) ;;
  if negb dirReady then ret false
  else
    perms <- QFile_permissions path ;;
    QFile_remove destinationFilePath ;;
    res <- QFile_copy path destinationFilePath ;;
    QFile_setPermissions destinationFilePath perms ;;
    ret res.

Definition restoreDatabase (path fromBackupFilePath : QString) : M bool :=
  perms <- QFile_permissions path ;;
  present <- QFile_exists fromBackupFilePath ;;
  if present then
    QFile_remove path ;;
    copied <- QFile_copy fromBackupFilePath path ;;
    if copied then QFile_setPermissions path perms else ret false
  else ret false.

(** ** Persistence engine *)

Inductive SaveAction := Atomic | TempFile | DirectWrite.

Definition newline : QString := String (ascii_of_nat 10) EmptyString.

(** Modelled from the spec: the digest a [HashingStream] (not part of the
    sources) reports is that of the first [kFileBlockToHashSizeBytes] bytes
    that passed through it. *)
Definition hashingResult (written : QByteArray) : QByteArray :=
  md5 E (firstn (kFileBlockToHashSizeBytes E) written).

(** The codec acts on the database through its public interface: it leaves
    new data and may have marked the database modified. *)
Definition applyWriter (w : WriterResult) : M unit :=
  modData (fun _ => wr_data w) ;;
  modProc (set_random (wr_random w)) ;;
  when (wr_markedModified w) markAsModified.

Definition applyReader (r : ReaderResult) : M unit :=
  modData (fun _ => rr_data r) ;;
  modDb (set_m_metadata (rr_metadata r)) ;;
  modDb (set_m_rootGroup (Some (rr_rootGroup r))) ;;
  modDb (set_m_deletedObjects (rr_deletedObjects r)) ;;
  when (rr_markedModified r) markAsModified.

(** [writeDatabase(device, error)]; the bytes written to the device are
    returned with the verdict. *)
Definition writeDatabase : M (Verdict * QByteArray) :=
  k <- getData key ;;
  match k with
  | None => stuck
  | Some ck =>
      stored <- getData transformedDatabaseKey ;;
      let oldTransformedKey :=
        if isEmpty ck then setRawKey (rawKey stored) newPasswordKey
        else newPasswordKey in
      setEmitModified false ;;
      d <- getDb id ;;
      r <- getProc random ;;
      let w := KeePass2Writer_writeDatabase E d r in
      applyWriter w ;;
      setEmitModified true ;;
      match wr_error w with
      | Some err => ret ((false, Some err), wr_output w)
      | None =>
          newKey <- getData (fun x => rawKey (transformedDatabaseKey x)) ;;
          if isNil newKey || bool_decide (newKey = rawKey oldTransformedKey) then
            ret ((false,
                  Some "Key not transformed. This is a bug, please report it to the developers."),
                 wr_output w)
          else ret ((true, None), wr_output w)
      end
  end.

Definition optIsEmpty (s : option QString) : bool :=
  match s with
  | None => true
  | Some x => String.eqb x ""
  end.

Definition performSave (path : QString) (action : SaveAction)
    (backupFilePath : option QString) : M Verdict :=
  match backupFilePath with
  | Some b => backupDatabase path b ;; ret tt
  | None => ret tt
  end ;;
  o <- getProc io ;;
  match action with
  | Atomic =>
      if io_openWrite o then
        if negb (io_hashingOpen o) then ret (false, None)
        else
          w <- writeDatabase ;;
          if negb (fst (fst w)) then ret (false, snd (fst w))
          else if io_commit o then
            storeFile path (snd w) ;;
            modDb (set_m_fileBlockHash (hashingResult (snd w))) ;;
            ret (true, None)
          else ret (false, Some (io_errorString o))
      else ret (false, Some (io_errorString o))
  | TempFile =>
      if io_openWrite o then
        if negb (io_hashingOpen o) then ret (false, None)
        else
          w <- writeDatabase ;;
          if negb (fst (fst w)) then ret (false, snd (fst w))
          else
            perms <- QFile_permissions path ;;
            QFile_remove path ;;
            if io_rename o then
              storeFile path (snd w) ;;
              QFile_setPermissions path perms ;;
              modDb (set_m_fileBlockHash (hashingResult (snd w))) ;;
              ret (true, None)
            else
              restored <- (if optIsEmpty backupFilePath then ret false
                           else restoreDatabase path (default "" backupFilePath)) ;;
              if optIsEmpty backupFilePath || negb restored then
                ret (false,
                     Some (io_errorString o ++ newline
                           ++ "Backup database located at " ++ io_tempFileName o))
              else ret (false, Some (io_errorString o))
      else ret (false, Some (io_errorString o))
  | DirectWrite =>
      if io_openWrite o then
        storeFile path [] ;;
        if negb (io_hashingOpen o) then ret (false, None)
        else
          w <- writeDatabase ;;
          storeFile path (snd w) ;;
          if negb (fst (fst w)) then ret (false, snd (fst w))
          else
            modDb (set_m_fileBlockHash (hashingResult (snd w))) ;;
            ret (true, None)
      else ret (false, Some (io_errorString o))
  end.

(** [tryLock] succeeds, and is undone at once, exactly when the mutex is
    free. *)
Definition isSaving : M bool := getDb m_saveMutex.

(** The guard of [saveAs] against overwriting external modifications: the
    error it refuses with, if it refuses. *)
Definition externalChangeCheck (path : QString) : M (option QString) :=
  d <- getDb id ;;
  if negb (m_ignoreFileChangesUntilSaved d) && negb (isNil (m_fileBlockHash d))
     && String.eqb path (filePath (m_data d)) then
    dbFile <- getProc (fun p => disk p !! path) ;;
    match dbFile with
    | Some f =>
        if negb (f_readable f) then
          ret (Some ("Unable to open file " ++ path ++ "."))
        else
          let fileBlockData := file_read (kFileBlockToHashSizeBytes E) f in
          if (length fileBlockData =? kFileBlockToHashSizeBytes E)%nat then
            if negb (bool_decide (m_fileBlockHash d = md5 E fileBlockData)) then
              post (databaseFileChanged true) ;;
              ret (Some "Database file has unmerged changes.")
            else ret None
          else if (kFileBlockToHashSizeBytes E <=? file_size f)%nat then
            ret (Some "Database file read error.")
          else ret None
    | None => ret None
    end
  else ret None.

(** Stop the watcher and add the random padding. *)
Definition saveAs_prepare : M unit :=
  fileWatcher_stop ;;
  len <- withRandom (randomUIntRange 64 512) ;;
  slug <- withRandom (randomArray (N.to_nat len)) ;;
  CustomData_set RandomSlug (toHex slug).

(** The write under the save mutex and what follows from its verdict. *)
Definition saveAs_write (path : QString) (action : SaveAction)
    (backupFilePath : option QString) : M Verdict :=
  modDb (set_m_saveMutex true) ;;
  present <- QFile_exists path ;;
  let realFilePath :=
    if present then canonicalFilePathOf E path else absoluteFilePathOf E path in
  realPresent <- QFile_exists realFilePath ;;
  let isNewFile := negb realPresent in
  r <- performSave realFilePath action backupFilePath ;;
  (if fst r then
     setFilePath path ;;
     markAsClean ;;
     when isNewFile (QFile_setPermissions realFilePath ownerReadWrite ;; ret tt) ;;
     modDb (set_m_ignoreFileChangesUntilSaved false) ;;
     fileWatcher_start realFilePath 30 1
   else markAsModified) ;;
  modDb (set_m_saveMutex false) ;;
  ret r.

Definition saveAs (path : QString) (action : SaveAction)
    (backupFilePath : option QString) : M Verdict :=
  saving <- isSaving ;;
  if saving then ret (false, Some "Database save is already in progress.")
  else
    initialized <- getDb isInitialized ;;
    if negb initialized then
      ret (false, Some "Could not save, database has not been initialized!")
    else
      refusal <- externalChangeCheck path ;;
      match refusal with
      | Some err => ret (false, Some err)
      | None => saveAs_prepare ;; saveAs_write path action backupFilePath
      end.

Definition save (action : SaveAction) (backupFilePath : option QString) : M Verdict :=
  path <- getData filePath ;;
  if String.eqb path "" then
    ret (false, Some "Could not save, database does not point to a valid file.")
  else saveAs path action backupFilePath.

(** The part of [open] after the sentinel is taken: the codec reads the
    file, then the database is bound to it. *)
Definition open_load (path : QString) (k : option CompositeKey) (f : File) : M Verdict :=
  d <- getDb id ;;
  let r := KeePass2Reader_readDatabase E (f_data f) k d in
  applyReader r ;;
  match rr_error r with
  | Some err => ret (false, Some ("Error while reading the database: " ++ err))
  | None =>
      setFilePath path ;;
      markAsClean ;;
      emit_databaseOpened ;;
      watched <- canonicalFilePath ;;
      fileWatcher_start watched 30 1 ;;
      setEmitModified true ;;
      ret (true, None)
  end.

Definition open (path : QString) (k : option CompositeKey) : M Verdict :=
  dbFile <- getProc (fun p => disk p !! path) ;;
  match dbFile with
  | None => ret (false, Some ("File " ++ path ++ " does not exist."))
  | Some f =>
      if negb (f_readable f) then
        ret (false, Some ("Unable to open file " ++ path ++ "."))
      else
        setEmitModified false ;;
        modDb (set_m_fileBlockHash []) ;;
        let fileBlockData := file_read (kFileBlockToHashSizeBytes E) f in
        if negb (length fileBlockData =? kFileBlockToHashSizeBytes E)%nat then
          if (kFileBlockToHashSizeBytes E <=? file_size f)%nat then
            ret (false, Some "Database file read error.")
          else open_load path k f
        else
          modDb (set_m_fileBlockHash (md5 E fileBlockData)) ;;
          open_load path k f
  end.

(** [open(key, error)]: open the file the database is bound to. *)
Definition open_bound (k : option CompositeKey) : M Verdict :=
  path <- getData filePath ;;
  if String.eqb path "" then ret (false, None) else open path k.

(** [releaseData] waits for the save mutex: while a save holds it, the call
    does not return. *)
Definition releaseData : M unit :=
  saving <- isSaving ;;
  if saving then stuck
  else
    modDb (set_m_saveMutex true) ;;
    wasModified <- getDb m_modified ;;
    when wasModified (notify databaseDiscarded) ;;
    setEmitModified false ;;
    modDb (set_m_modified false) ;;
    uuid <- getDb m_uuid ;;
    modProc (fun p => set_s_uuidMap (delete uuid (s_uuidMap p)) p) ;;
    modDb (set_m_uuid 0%N) ;;
    modData DatabaseData_clear ;;
    Metadata_clear ;;
    setRootGroup newGroup ;;
    fileWatcher_stop ;;
    modDb (set_m_deletedObjects []) ;;
    modDb (set_m_commonUsernames []) ;;
    modDb (set_m_tagList []) ;;
    modDb (set_m_fileBlockHash []) ;;
    modDb (set_m_ignoreFileChangesUntilSaved false) ;;
    modDb (set_m_saveMutex false).

(** ** Construction *)

Definition initialData (k : Kdf) : DatabaseData :=
  {| formatVersion := 0; filePath := ""; cipher := CIPHER_AES256 E;
     compressionAlgorithm := CompressionGZip;
     masterSeed := newPasswordKey; transformedDatabaseKey := newPasswordKey;
     challengeResponseKey := newPasswordKey; key := None; kdf := k;
     publicCustomData := ∅ |}.

Definition initialDatabase (uuid : QUuid) (k : Kdf) : Database :=
  {| m_metadata := {| customData := ∅; databaseKeyChanged := 0 |};
     m_data := initialData k; m_rootGroup := None;
     m_fileWatcher := {| fw_path := None; fw_cadence := (0, 0)%Z; fw_paused := false |};
     m_uuid := uuid; m_modified := false; m_hasNonDataChange := false;
     m_emitModified := true; m_modifiedTimer := None; m_saveMutex := false;
     m_fileBlockHash := []; m_ignoreFileChangesUntilSaved := false;
     m_keyError := ""; m_deletedObjects := []; m_commonUsernames := [];
     m_tagList := []; m_isTemporaryDatabase := false; signals := [] |}.

(** [Database::Database()]: the object constructed at address [addr]. *)
Definition Database_new (addr : Addr) (p : Process) : option Sys :=
  let (k, r1) := randomizeSeed (defaultKdf E) (random p) in
  let (uuid, r2) := createUuid r1 in
  let s0 := {| self := initialDatabase uuid k; this := addr;
               proc := set_random r2 p |} in
  snd <$> (modProc (fun q => set_s_uuidMap (<[uuid := addr]> (s_uuidMap q)) q) ;;
           setEmitModified false ;;
           setRootGroup newGroup ;;
           modDb (set_m_modified false) ;;
           setEmitModified true) s0.

End Model.

(** ** Sample collaborators and states

    Concrete stand-ins on which the model runs: a four-byte sentinel block,
    a tagging digest, a KDF that concatenates factors and seed, and two
    codecs, one that derives a new transformed key on every write and one
    that does not. *)

Module Sample.

Definition digest (b : QByteArray) : QByteArray := x4d :: b.

Definition derive (k : CompositeKey) (kd : Kdf) : TransformResult :=
  TransformOk (concat (factors k) ++ kdf_seed kd).

Definition payload : QByteArray := [x03; xd9; xa2; x9a; x67; xfb; x4b; xb5].

Definition keepingWriter (d : Database) (r : Random) : WriterResult :=
  {| wr_output := payload; wr_error := None; wr_data := m_data d;
     wr_markedModified := false; wr_random := r |}.

Definition rotatingWriter (d : Database) (r : Random) : WriterResult :=
  let (seed, r1) := randomArray 2 r in
  let (derived, r2) := randomArray 2 r1 in
  {| wr_output := payload ++ seed; wr_error := None;
     wr_data := set_transformedDatabaseKey (setRawKey derived newPasswordKey)
                  (set_masterSeed (setRawKey seed newPasswordKey) (m_data d));
     wr_markedModified := true; wr_random := r2 |}.

Definition failingWriter (d : Database) (r : Random) : WriterResult :=
  {| wr_output := []; wr_error := Some "Invalid cipher"; wr_data := m_data d;
     wr_markedModified := false; wr_random := r |}.

Definition reader (bytes : QByteArray) (k : option CompositeKey) (d : Database)
    : ReaderResult :=
  {| rr_error := None;
     rr_data := set_transformedDatabaseKey (setRawKey [x0a; x0b] newPasswordKey)
                  (set_key k (m_data d));
     rr_metadata := m_metadata d;
     rr_rootGroup := {| g_uuid := 7%N; g_name := "Root" |};
     rr_deletedObjects := []; rr_markedModified := false |}.

Definition aesKdf : Kdf := {| kdf_uuid := 1%N; kdf_rounds := 100000; kdf_seed := [x00; x00] |}.
Definition argon2 : Kdf := {| kdf_uuid := 2%N; kdf_rounds := 10; kdf_seed := [x00; x00; x00] |}.

Definition versionRequired (d : Database) (ignoreCurrent ignoreKdf : bool) : Z :=
  if ignoreKdf || (kdf_uuid (kdf (m_data d)) =? 1)%N then 0x00030001%Z
  else 0x00040000%Z.

Definition env (writer : Database -> Random -> WriterResult) : Collaborators :=
  {| kFileBlockToHashSizeBytes := 4;
     CIPHER_AES256 := 0x31c1f2e6bf714350be5805216afc5aff%N;
     defaultKdf := aesKdf;
     md5 := digest;
     transform := derive;
     KeePass2Writer_writeDatabase := writer;
     KeePass2Reader_readDatabase := reader;
     kdbxVersionRequired := versionRequired;
     canonicalFilePathOf := fun p => p;
     absoluteFilePathOf := fun p => p;
     usernamesRecursive := fun _ _ => [];
     tagsRecursive := fun _ => [] |}.

Definition dice : Random := {| entropy := fun i => N.of_nat (7 * i + 3); cursor := 0 |}.

Definition obliging : IoOutcome :=
  {| io_openWrite := true; io_hashingOpen := true; io_commit := true;
     io_rename := true; io_backupDir := true; io_copy := true;
     io_newFilePermissions := 0x6644%N; io_errorString := "";
     io_tempFileName := "/tmp/keepassxc.XXXXXX"; io_readFault := None |}.

Definition path : QString := "/tmp/a.kdbx".

Definition fileOf (data : QByteArray) (fault : option nat) : File :=
  {| f_data := data; f_fault := fault; f_permissions := 0x6600%N |}.

Definition processWith (files : gmap string File) : Process :=
  {| s_uuidMap := {[ 42%N := 1 ]}; disk := files; random := dice;
     clock := 1700000000; io := obliging |}.

Definition password : CompositeKey := {| factors := [[x61; x62; x63]] |}.

(** An initialized database bound to [path], as it is after an open that saw
    four zero bytes at the start of the file. *)
Definition keyed : Database :=
  set_m_fileBlockHash (digest [x00; x00; x00; x00])
    (set_m_rootGroup (Some {| g_uuid := 7%N; g_name := "Root" |})
       (set_m_data
          (set_filePath path
             (set_key (Some password)
                (set_transformedDatabaseKey (setRawKey [x01; x02] newPasswordKey)
                   {| formatVersion := 0x00040000; filePath := "";
                      cipher := 0x31c1f2e6bf714350be5805216afc5aff%N;
                      compressionAlgorithm := CompressionGZip;
                      masterSeed := newPasswordKey;
                      transformedDatabaseKey := newPasswordKey;
                      challengeResponseKey := newPasswordKey; key := None;
                      kdf := aesKdf; publicCustomData := ∅ |})))
          {| m_metadata := {| customData := ∅; databaseKeyChanged := 0 |};
             m_data := {| formatVersion := 0; filePath := ""; cipher := 0%N;
                          compressionAlgorithm := CompressionGZip;
                          masterSeed := newPasswordKey;
                          transformedDatabaseKey := newPasswordKey;
                          challengeResponseKey := newPasswordKey; key := None;
                          kdf := aesKdf; publicCustomData := ∅ |};
             m_rootGroup := None;
             m_fileWatcher := {| fw_path := Some path; fw_cadence := (30, 1)%Z;
                                 fw_paused := false |};
             m_uuid := 42%N; m_modified := true; m_hasNonDataChange := false;
             m_emitModified := true; m_modifiedTimer := None;
             m_saveMutex := false; m_fileBlockHash := [];
             m_ignoreFileChangesUntilSaved := false; m_keyError := "";
             m_deletedObjects := []; m_commonUsernames := []; m_tagList := [];
             m_isTemporaryDatabase := false; signals := [] |})).

Definition stateWith (files : gmap string File) : Sys :=
  {| self := keyed; this := 1; proc := processWith files |}.

(** The file as it was opened, the file after another program rewrote it,
    the file when reads of it are cut short, and no file. *)
Definition unchanged : Sys := stateWith {[ path := fileOf [x00; x00; x00; x00; x10] None ]}.
Definition rewritten : Sys := stateWith {[ path := fileOf payload None ]}.
Definition faulty : Sys := stateWith {[ path := fileOf payload (Some 2) ]}.
Definition short : Sys := stateWith {[ path := fileOf [x03; xd9] None ]}.
Definition gone : Sys := stateWith ∅.
(** The same database with no change pending. *)
Definition pristine : Sys :=
  {| self := set_m_modified false keyed; this := 1;
     proc := processWith {[ path := fileOf [x00; x00; x00; x00; x10] None ]} |}.

(** A new database whose KDF is changed and which is then marked clean: its
    key is the empty composite key that [changeKdf] installs, and its
    transformed key is not empty. *)
Definition rekeyed : option Sys :=
  match Database_new (env rotatingWriter) 1 (processWith ∅) with
  | Some s0 =>
      match changeKdf (env rotatingWriter) (distinctKdf argon2) s0 with
      | Some (true, s1) => snd <$> markAsClean (env rotatingWriter) s1
      | _ => None
      end
  | None => None
  end.

End Sample.

(** * Further operations of the database *)

(** [QUuid::toRfc4122] and [QUuid::fromRfc4122]: the sixteen bytes of the
    UUID, most significant first; bytes that are not sixteen give the null
    UUID. *)
Fixpoint bytesBE (n : nat) (u : N) : QByteArray :=
  match n with
  | 0 => []
  | S k => byteOfN (u / 256 ^ N.of_nat k) :: bytesBE k u
  end.

Definition toRfc4122 (u : QUuid) : QByteArray := bytesBE 16 u.

Definition fromBytesBE (b : QByteArray) : N :=
  fold_left (fun acc x => (acc * 256 + Byte.to_N x)%N) b 0%N.

Definition fromRfc4122 (b : QByteArray) : QUuid :=
  if (length b =? 16)%nat then fromBytesBE b else 0%N.

(** What [CompositeKey::challenge] answers: whether it succeeded, the
    response, and the error it stored, if any. *)
Record ChallengeResult := {
  ch_ok : bool;
  ch_response : QByteArray;
  ch_error : option QString
}.

(** The loop of both [containsDeletedObject]: is there a deleted object with
    the UUID? *)
Fixpoint containsUuid (uuid : QUuid) (objects : list DeletedObject) : bool :=
  match objects with
  | [] => false
  | currentObject :: rest =>
      if (deleted_uuid currentObject =? uuid)%N then true
      else containsUuid uuid rest
  end.

(** A method run a number of times in a row. *)
Fixpoint times (n : nat) (m : M unit) : M unit :=
  match n with
  | 0 => ret tt
  | S k => m ;; times k m
  end.

Section Further.

Context (E : Collaborators).
(** [CompositeKey::challenge], [KeePass2::FILE_VERSION_4],
    [QCryptographicHash] with [Sha256], and [QString::toUtf8]. *)
Context (challenge : CompositeKey -> QByteArray -> ChallengeResult).
Context (FILE_VERSION_4 : Z).
Context (sha256 : QByteArray -> QByteArray).
Context (toUtf8 : QString -> QByteArray).

(** ** Deleted objects *)

Definition containsDeletedObject (uuid : QUuid) : M bool :=
  objects <- getDb m_deletedObjects ;; ret (containsUuid uuid objects).

Definition containsDeletedObject_object (object : DeletedObject) : M bool :=
  objects <- getDb m_deletedObjects ;;
  ret (containsUuid (deleted_uuid object) objects).

Definition addDeletedObject (delObj : DeletedObject) : M unit :=
  modDb (fun d => set_m_deletedObjects (m_deletedObjects d ++ [delObj]) d).

Definition addDeletedObject_uuid (uuid : QUuid) : M unit :=
  now <- getProc clock ;;
  addDeletedObject {| deleted_uuid := uuid; deletionTime := now |}.

(** ** Challenge-response *)

Definition challengeMasterSeed (seed : QByteArray) : M bool :=
  modDb (set_m_keyError "") ;;
  k <- getData key ;;
  match k with
  | Some ck =>
      modData (fun d => set_masterSeed (setRawKey seed (masterSeed d)) d) ;;
      let answer := challenge ck seed in
      match ch_error answer with
      | Some err => modDb (set_m_keyError err)
      | None => ret tt
      end ;;
      (if ch_ok answer && negb (isNil (ch_response answer)) then
         modData (fun d => set_challengeResponseKey
                             (setRawKey (ch_response answer)
                                (challengeResponseKey d)) d)
       else if ch_ok answer && isNil (ch_response answer) then
         modData (set_challengeResponseKey newPasswordKey)
       else ret tt) ;;
      ret (ch_ok answer)
  | None => ret false
  end.

(** ** Public UUID *)

Definition KPXC_PUBLIC_UUID : QString := "KPXC_PUBLIC_UUID".

Definition publicUuid : M QUuid :=
  version <- getData formatVersion ;;
  if (version <? FILE_VERSION_4)%Z then
    path <- getData filePath ;;
    ret (fromRfc4122 (firstn 16 (sha256 (toUtf8 path))))
  else
    stored <- getData (fun d => publicCustomData d !! KPXC_PUBLIC_UUID) ;;
    match stored with
    | Some _ => ret tt
    | None =>
        uuid <- withRandom createUuid ;;
        modData (fun d => set_publicCustomData
                            (<[KPXC_PUBLIC_UUID := toRfc4122 uuid]>
                               (publicCustomData d)) d) ;;
        markAsModified
    end ;;
    value <- getData (fun d => publicCustomData d !! KPXC_PUBLIC_UUID) ;;
    ret (fromRfc4122 (default [] value)).

End Further.

(** Further sample collaborators: a token that answers a challenge with the
    seed reversed, one that has no response, one that fails. *)
Module Fixtures.

Definition token (k : CompositeKey) (seed : QByteArray) : ChallengeResult :=
  {| ch_ok := true; ch_response := rev seed; ch_error := None |}.

Definition noToken (k : CompositeKey) (seed : QByteArray) : ChallengeResult :=
  {| ch_ok := true; ch_response := []; ch_error := None |}.

Definition unplugged (k : CompositeKey) (seed : QByteArray) : ChallengeResult :=
  {| ch_ok := false; ch_response := []; ch_error := Some "No hardware key" |}.

Definition hash32 (b : QByteArray) : QByteArray :=
  b ++ repeat x00 (32 - length b).

Definition latin1 (s : QString) : QByteArray :=
  map (fun c => byteOfN (N_of_ascii c)) (list_ascii_of_string s).

Definition FILE_VERSION_4 : Z := 0x00040000.

(** A key derivation that fails, and the collaborators with it. *)
Definition exhausted (k : CompositeKey) (kd : Kdf) : TransformResult :=
  TransformFailed "Out of memory".

Definition strained : Collaborators :=
  {| kFileBlockToHashSizeBytes := 4;
     CIPHER_AES256 := 0x31c1f2e6bf714350be5805216afc5aff%N;
     defaultKdf := Sample.aesKdf;
     md5 := Sample.digest;
     transform := exhausted;
     KeePass2Writer_writeDatabase := Sample.keepingWriter;
     KeePass2Reader_readDatabase := Sample.reader;
     kdbxVersionRequired := Sample.versionRequired;
     canonicalFilePathOf := fun p => p;
     absoluteFilePathOf := fun p => p;
     usernamesRecursive := fun _ _ => [];
     tagsRecursive := fun _ => [] |}.

(** A system that refuses to rename files, and the sample database on it. *)
Definition stubborn : IoOutcome :=
  {| io_openWrite := true; io_hashingOpen := true; io_commit := true;
     io_rename := false; io_backupDir := true; io_copy := true;
     io_newFilePermissions := 0x6644%N; io_errorString := "Permission denied";
     io_tempFileName := "/tmp/keepassxc.XXXXXX"; io_readFault := None |}.

Definition cornered : Sys :=
  set_proc (set_io stubborn (proc Sample.unchanged)) Sample.unchanged.

Definition backupPath : QString := "/tmp/a.kdbx.bak".

(** The sample database told to ignore file changes, over a file that the
    user may write but not read. *)
Definition writeOnly : Sys :=
  {| self := set_m_ignoreFileChangesUntilSaved true Sample.keyed; this := 1;
     proc := Sample.processWith
               {[ Sample.path := {| f_data := Sample.payload; f_fault := None;
                                    f_permissions := WriteUser |} ]} |}.

(** A codec that writes databases encrypted with AES-256 and refuses the
    others, and the sample database with another cipher. *)
Definition pickyWriter (d : Database) (r : Random) : WriterResult :=
  if (cipher (m_data d) =? 0x31c1f2e6bf714350be5805216afc5aff)%N
  then Sample.rotatingWriter d r
  else Sample.failingWriter d r.

Definition exotic : Sys :=
  set_self (set_m_data (set_cipher 7%N (m_data (self Sample.pristine)))
              (self Sample.pristine)) Sample.pristine.

(** The sample database while a save holds the mutex. *)
Definition busy : Sys :=
  set_self (set_m_saveMutex true (self Sample.unchanged)) Sample.unchanged.

End Fixtures.

(** * Reasoning about methods *)

(** Total correctness: from a state satisfying [P] the method returns, with
    a result and a state satisfying [Q]. *)
Definition spec {A} (P : Sys -> Prop) (m : M A) (Q : A -> Sys -> Prop) : Prop :=
  forall s, P s -> exists a s', m s = Some (a, s') /\ Q a s'.

(** A method that leaves the database object alone keeps every property of
    it. *)
Definition keepsSelf {A} (m : M A) : Prop :=
  forall (P : Database -> Prop),
    spec (fun s => P (self s)) m (fun _ s' => P (self s')).

(** A property of the object alone, read on a state. *)
Definition onSelf (P : Database -> Prop) : Sys -> Prop := fun s => P (self s).

(** What a write leaves of the object whatever its verdict. *)
Definition untouchedByWrite (d d' : Database) : Prop :=
  m_rootGroup d' = m_rootGroup d /\
  m_fileWatcher d' = m_fileWatcher d /\
  m_metadata d' = m_metadata d /\
  m_saveMutex d' = m_saveMutex d /\
  m_ignoreFileChangesUntilSaved d' = m_ignoreFileChangesUntilSaved d.

(** * Properties *)

(** ** Rules of the monad *)

Lemma spec_ret {A} (P : Sys -> Prop) (Q : A -> Sys -> Prop) (a : A) :
  (forall s, P s -> Q a s) -> spec P (ret a) Q.
Proof. intros H s Hs. exists a, s. split; [reflexivity | auto]. Qed.

Lemma spec_bind {A B} (P : Sys -> Prop) (R : A -> Sys -> Prop)
    (Q : B -> Sys -> Prop) (m : M A) (f : A -> M B) :
  spec P m R -> (forall a, spec (R a) (f a) Q) -> spec P (bind m f) Q.
Proof.
  intros Hm Hf s Hs. destruct (Hm s Hs) as (a & s1 & Hrun & Hr).
  destruct (Hf a s1 Hr) as (b & s2 & Hrun2 & Hq).
  exists b, s2. unfold bind. rewrite Hrun. auto.
Qed.

Lemma spec_gets {A} (P : Sys -> Prop) (Q : A -> Sys -> Prop) (f : Sys -> A) :
  (forall s, P s -> Q (f s) s) -> spec P (gets f) Q.
Proof. intros H s Hs. exists (f s), s. split; [reflexivity | auto]. Qed.

Lemma spec_modify (P : Sys -> Prop) (Q : unit -> Sys -> Prop) (f : Sys -> Sys) :
  (forall s, P s -> Q tt (f s)) -> spec P (modify f) Q.
Proof. intros H s Hs. exists tt, (f s). split; [reflexivity | auto]. Qed.

(** ** File operations leave the object alone *)

Lemma keepsSelf_ret {A} (a : A) : keepsSelf (ret a).
Proof. intros P. apply spec_ret. auto. Qed.

Lemma keepsSelf_bind {A B} (m : M A) (f : A -> M B) :
  keepsSelf m -> (forall a, keepsSelf (f a)) -> keepsSelf (bind m f).
Proof. intros Hm Hf P. eapply spec_bind; [apply Hm | intros a; apply Hf]. Qed.

Lemma keepsSelf_getProc {A} (f : Process -> A) : keepsSelf (getProc f).
Proof. intros P. apply spec_gets. auto. Qed.

Lemma keepsSelf_modProc (f : Process -> Process) : keepsSelf (modProc f).
Proof. intros P. apply spec_modify. intros [d a p]; cbn. auto. Qed.

Create HintDb keeps.
#[local] Hint Resolve keepsSelf_ret keepsSelf_getProc keepsSelf_modProc : keeps.

Ltac keeps_step :=
  lazymatch goal with
  | |- keepsSelf (bind _ _) => apply keepsSelf_bind; [| intros ?]
  | |- keepsSelf (if ?b then _ else _) => destruct b
  | |- keepsSelf (match ?x with _ => _ end) => destruct x
  | |- keepsSelf (match ?x with _ => _ end _) => destruct x; cbn beta
  | |- keepsSelf _ => solve [auto with keeps]
  end.

Lemma keepsSelf_QFile_exists path : keepsSelf (QFile_exists path).
Proof. unfold QFile_exists. repeat keeps_step. Qed.

Lemma keepsSelf_QFile_permissions path : keepsSelf (QFile_permissions path).
Proof. unfold QFile_permissions. repeat keeps_step. Qed.

Lemma keepsSelf_QFile_remove path : keepsSelf (QFile_remove path).
Proof. unfold QFile_remove. repeat keeps_step. Qed.

#[local] Hint Resolve keepsSelf_QFile_exists keepsSelf_QFile_permissions
  keepsSelf_QFile_remove : keeps.

Lemma keepsSelf_QFile_setPermissions path perms :
  keepsSelf (QFile_setPermissions path perms).
Proof. unfold QFile_setPermissions. repeat keeps_step. Qed.

Lemma keepsSelf_QFile_copy source target : keepsSelf (QFile_copy source target).
Proof. unfold QFile_copy. repeat keeps_step. Qed.

Lemma keepsSelf_storeFile path data : keepsSelf (storeFile path data).
Proof. unfold storeFile. repeat keeps_step. Qed.

#[local] Hint Resolve keepsSelf_QFile_setPermissions keepsSelf_QFile_copy
  keepsSelf_storeFile : keeps.

Lemma keepsSelf_backupDatabase path dest : keepsSelf (backupDatabase path dest).
Proof. unfold backupDatabase. repeat keeps_step. Qed.

Lemma keepsSelf_restoreDatabase path from : keepsSelf (restoreDatabase path from).
Proof. unfold restoreDatabase. repeat keeps_step. Qed.

#[local] Hint Resolve keepsSelf_backupDatabase keepsSelf_restoreDatabase : keeps.

(** ** What a write keeps of the object *)

Lemma untouchedByWrite_refl d : untouchedByWrite d d.
Proof. repeat split. Qed.

Ltac branch :=
  match goal with
  | |- context [if ?b then _ else _] => destruct b eqn:?
  | |- context [match ?x with Some _ => _ | None => _ end] => destruct x eqn:?
  end.

Lemma spec_bind_keeps {A B} (P : Database -> Prop) (Q : B -> Sys -> Prop)
    (m : M A) (f : A -> M B) :
  keepsSelf m -> (forall a, spec (onSelf P) (f a) Q) ->
  spec (onSelf P) (bind m f) Q.
Proof. intros Hm Hf. eapply spec_bind; [apply (Hm P) | exact Hf]. Qed.

Lemma spec_ret_onSelf {A} (P Q : Database -> Prop) (a : A) :
  (forall x, P x -> Q x) -> spec (onSelf P) (ret a) (fun _ => onSelf Q).
Proof. intros H. apply spec_ret. intros s. apply H. Qed.

Lemma spec_bind_modDb {B} (P P' : Database -> Prop) (Q : B -> Sys -> Prop)
    (f : Database -> Database) (k : unit -> M B) :
  (forall x, P x -> P' (f x)) -> spec (onSelf P') (k tt) Q ->
  spec (onSelf P) (bind (modDb f) k) Q.
Proof.
  intros Hf Hk. eapply spec_bind.
  - apply spec_modify with (Q := fun _ => onSelf P').
    intros [d a p] Hp. apply Hf, Hp.
  - intros []. exact Hk.
Qed.

(** [writeDatabase] returns as soon as there is a key to dereference, and
    then so does [performSave]; neither touches the root group, the watcher,
    the metadata, the mutex or the ignore flag. *)
Lemma writeDatabase_spec (E : Collaborators) (d : Database) :
  spec (onSelf (fun x => x = d /\ is_Some (key (m_data x))))
       (writeDatabase E)
       (fun _ => onSelf (untouchedByWrite d)).
Proof.
  intros [d0 a p] [Hd [ck Hk]]. unfold onSelf. cbn in Hd, Hk. subst d0.
  unfold writeDatabase, setEmitModified, applyWriter, markAsModified,
    modifiedSignalEnabled, startModifiedTimer, stopModifiedTimer, notify,
    getData, modData, getDb, modDb, getProc, modProc, when, bind, gets, modify, ret.
  cbn. rewrite Hk.
  repeat (branch; cbn); eexists _, _; (split; [reflexivity|]); cbn; repeat split.
Qed.

Lemma untouchedByWrite_hash d x h :
  untouchedByWrite d x -> untouchedByWrite d (set_m_fileBlockHash h x).
Proof. intros H. exact H. Qed.

Ltac save_step d :=
  lazymatch goal with
  | |- spec _ (if ?b then _ else _) _ => destruct b; cbn [negb fst snd]
  | |- spec _ (ret _) _ =>
      let H := fresh in
      apply spec_ret_onSelf; intros ? H;
      first [exact H | destruct H as [-> _]; apply untouchedByWrite_refl]
  | |- spec _ (bind (writeDatabase _) _) _ =>
      eapply spec_bind; [apply (writeDatabase_spec _ d) | intros ?]
  | |- spec _ (bind (modDb _) _) _ =>
      apply (spec_bind_modDb _ (untouchedByWrite d));
      [intros ? ?; apply untouchedByWrite_hash; assumption |]
  | |- spec _ (bind _ _) _ =>
      apply spec_bind_keeps; [solve [repeat keeps_step] | intros ?]
  end.

Lemma performSave_spec (E : Collaborators) (d : Database) path action backup :
  spec (onSelf (fun x => x = d /\ is_Some (key (m_data x))))
       (performSave E path action backup)
       (fun _ => onSelf (untouchedByWrite d)).
Proof.
  unfold performSave.
  apply spec_bind_keeps; [destruct backup; repeat keeps_step | intros _].
  apply spec_bind_keeps; [auto with keeps | intros o].
  destruct action; repeat save_step d.
Qed.

(** ** Modification tracker *)

#[local] Arguments createUuid : simpl never.
#[local] Arguments randomArray : simpl never.
#[local] Arguments randomUIntRange : simpl never.
#[local] Arguments randomizeSeed : simpl never.

Ltac fields s :=
  destruct s as [[md dd rg fw u mo hn em tm mx hash ig ke del cu tl tmp sg] a p].

Ltac unfold_methods :=
  unfold setEmitModified, markAsClean, childModified,
    emit_databaseSaved, emit_databaseOpened, updateCommonUsernames,
    updateTagList, modifiedSignalEnabled, startModifiedTimer,
    stopModifiedTimer, notify, post, setFormatVersion,
    setTransformedDatabaseKey, setDatabaseKeyChanged, withRandom,
    fileWatcher_start, fileWatcher_stop, getData, modData, getDb, modDb,
    getProc, modProc, when, bind, gets, modify, ret, stuck in *.

Lemma markAsModified_eq (s : Sys) :
  markAsModified s =
  Some (tt, set_self
              (set_m_modifiedTimer
                 (if m_emitModified (self s) && negb (timerIsActive (self s))
                  then Some 150%Z else m_modifiedTimer (self s))
                 (set_m_modified true (self s))) s).
Proof.
  fields s. unfold markAsModified. unfold_methods. cbn.
  destruct em, tm; reflexivity.
Qed.

(** C8. [markAsClean] returns whenever a modified database has its root
    group, and every call that returns leaves [modified] false, the debounce
    timer cancelled and [hasNonDataChange] false, and has emitted
    [databaseSaved] exactly when [modified] was true before the call. *)
Theorem markAsClean_effect (E : Collaborators) (s : Sys) :
  ((m_modified (self s) = true -> is_Some (m_rootGroup (self s))) ->
     exists s', markAsClean E s = Some (tt, s')) /\
  (forall s', markAsClean E s = Some (tt, s') ->
     m_modified (self s') = false /\
     m_modifiedTimer (self s') = None /\
     m_hasNonDataChange (self s') = false /\
     signals (self s') =
       (if m_modified (self s) then Emitted databaseSaved :: signals (self s)
        else signals (self s))).
Proof.
  destruct s as [d a p]. unfold_methods. cbn.
  destruct (m_modified d) eqn:Hm; cbn.
  - destruct (m_rootGroup d) eqn:Hr; cbn.
    + split; [eauto |]. intros s' H. inversion H; subst; cbn. auto.
    + split; [| discriminate]. intros H. destruct (H eq_refl); discriminate.
  - split; [eauto |]. intros s' H; inversion H; subst; cbn; auto.
Qed.

Lemma markAsClean_effect_witness :
  exists s', markAsClean (Sample.env Sample.keepingWriter) Sample.unchanged = Some (tt, s') /\
             m_modified (self s') = false /\
             signals (self s') = [Emitted databaseSaved].
Proof.
  destruct (markAsClean_effect (Sample.env Sample.keepingWriter) Sample.unchanged)
    as [Hret Hpost].
  destruct Hret as [s' Hs'].
  - intros _. exists {| g_uuid := 7%N; g_name := "Root" |}. reflexivity.
  - exists s'. destruct (Hpost s' Hs') as (H1 & _ & _ & H4).
    split; [exact Hs' |]. split; [exact H1 | exact H4].
Defined.

(** ** Registry and release *)

(** C9. When no save holds the mutex, [releaseData] completes; afterwards a
    lookup of the database's previous UUID in the registry is absent,
    [modified] is false, and [fileBlockHash] and
    [ignoreFileChangesUntilSaved] are cleared. *)
Theorem releaseData_effect (s : Sys) :
  m_saveMutex (self s) = false ->
  exists s', releaseData s = Some (tt, s') /\
    databaseByUuid (m_uuid (self s)) (proc s') = None /\
    m_modified (self s') = false /\
    m_fileBlockHash (self s') = [] /\
    m_ignoreFileChangesUntilSaved (self s') = false.
Proof.
  fields s. cbn. intros ->.
  unfold releaseData, isSaving, Metadata_clear, setRootGroup, databaseByUuid.
  unfold_methods. cbn.
  destruct mo, em; cbn -[lookup delete];
    (eexists; split; [reflexivity |]); cbn -[lookup delete];
    (split; [apply lookup_delete_eq | auto]).
Qed.

Lemma releaseData_effect_witness :
  exists s', releaseData Sample.unchanged = Some (tt, s') /\
    databaseByUuid 42%N (proc s') = None /\
    m_modified (self s') = false /\
    m_fileBlockHash (self s') = [] /\
    m_ignoreFileChangesUntilSaved (self s') = false.
Proof.
  apply (releaseData_effect Sample.unchanged).
  reflexivity.
Defined.

(** ** Key lifecycle *)

(** A successful [setKey] with a key installs the key, calls
    [markAsModified] exactly when the transformed key it leaves differs from
    the bytes it took as the old transformed key, and keeps the transformed
    key when it does not run the KDF. *)
Lemma setKey_run (E : Collaborators) (s : Sys) (k : CompositeKey)
    (updateChangedTime updateTransformSalt transformKey : bool) (s' : Sys) :
  setKey E (Some k) updateChangedTime updateTransformSalt transformKey s
    = Some (true, s') ->
  let before := rawKey (transformedDatabaseKey (m_data (self s))) in
  let after := rawKey (transformedDatabaseKey (m_data (self s'))) in
  let reference :=
    match key (m_data (self s)) with
    | Some c => if isEmpty c then [] else before
    | None => []
    end in
  key (m_data (self s')) = Some k /\
  m_modified (self s') = m_modified (self s) || negb (bool_decide (reference = after)) /\
  (transformKey = false -> after = before).
Proof.
  fields s. destruct dd as [fv fp ci co ms [tk] cr ky kd pc].
  unfold setKey. unfold_methods. cbn -[markAsModified].
  destruct updateTransformSalt; cbn -[markAsModified];
    (destruct ky as [c|]; [destruct (isEmpty c) |]); cbn -[markAsModified];
    (destruct transformKey; cbn -[markAsModified];
     [destruct (transform E k _) as [out|err]; cbn -[markAsModified];
      [destruct out | discriminate] | try destruct tk]);
    cbn -[markAsModified]; destruct updateChangedTime; cbn -[markAsModified];
    intros Hrun;
    match type of Hrun with
    | context [bool_decide ?P] => destruct (bool_decide_reflect P)
    end;
    cbn -[markAsModified] in Hrun; rewrite ?markAsModified_eq in Hrun;
    cbn in Hrun; inversion Hrun; subst; cbn;
    case_bool_decide; cbn; rewrite ?orb_true_r, ?orb_false_r;
    repeat split; try reflexivity; try discriminate; congruence.
Qed.

(** C4, as the code has it.  A successful [setKey] with a present key marks
    the database modified if and only if the transformed key bytes after the
    call differ from the bytes the call took as the old transformed key:
    the transformed key bytes before the call when the key installed before
    was present and non-empty, and no bytes otherwise.  In particular, after
    a [setKey] with a non-empty composite key, a second [setKey] with the
    identical key and [transformKey = false] marks nothing: [modified] is
    after it what it was before it. *)
Theorem setKey_marks_modified (E : Collaborators) (s : Sys) (k : CompositeKey)
    (updateChangedTime updateTransformSalt transformKey : bool) (s' : Sys) :
  setKey E (Some k) updateChangedTime updateTransformSalt transformKey s
    = Some (true, s') ->
  let before := rawKey (transformedDatabaseKey (m_data (self s))) in
  let after := rawKey (transformedDatabaseKey (m_data (self s'))) in
  let reference :=
    match key (m_data (self s)) with
    | Some c => if isEmpty c then [] else before
    | None => []
    end in
  (m_modified (self s') = true <->
     m_modified (self s) = true \/ reference <> after) /\
  (forall (again salt : bool) (s2 : Sys),
     isEmpty k = false ->
     setKey E (Some k) again salt false s' = Some (true, s2) ->
     rawKey (transformedDatabaseKey (m_data (self s2))) = after /\
     m_modified (self s2) = m_modified (self s')).
Proof.
  intros Hrun. destruct (setKey_run _ _ _ _ _ _ _ Hrun) as (Hkey & Hmod & _).
  cbn zeta. split.
  - rewrite Hmod. case_bool_decide; cbn; rewrite ?orb_true_r, ?orb_false_r.
    + split; [auto | intros [H1 | H1]; [exact H1 | contradiction]].
    + split; auto.
  - intros again salt s2 Hne Hrun2.
    destruct (setKey_run _ _ _ _ _ _ _ Hrun2) as (_ & Hmod2 & Hsame).
    rewrite Hkey, Hne in Hmod2. specialize (Hsame eq_refl).
    split; [exact Hsame |].
    rewrite Hmod2, Hsame. rewrite bool_decide_eq_true_2 by reflexivity.
    cbn. apply orb_false_r.
Qed.

Lemma length_randomArray (len : nat) (r : Random) :
  length (fst (randomArray len r)) = len.
Proof. unfold randomArray. cbn. rewrite length_map. apply length_seq. Qed.

Lemma randomizeSeed_parameters (k : Kdf) (r : Random) :
  kdf_uuid (fst (randomizeSeed k r)) = kdf_uuid k /\
  kdf_rounds (fst (randomizeSeed k r)) = kdf_rounds k /\
  length (kdf_seed (fst (randomizeSeed k r))) = length (kdf_seed k).
Proof.
  unfold randomizeSeed, randomArray. cbn.
  rewrite length_map, length_seq. auto.
Qed.

(** C5. After a successful [changeKdf] on a pointer to a KDF [k], be it the
    database's own object or another, the stored transformed key is the
    transform of the current composite key (an empty one if none was set)
    under [k] with its seed freshly randomized, that KDF is the installed
    one, [formatVersion] is the version the codec requires for the database
    with that KDF, and the database is marked modified. *)
Theorem changeKdf_effect (E : Collaborators) (s : Sys) (ptr : KdfPtr) (s' : Sys) :
  changeKdf E ptr s = Some (true, s') ->
  let k := pointee ptr (m_data (self s)) in
  let fresh := fst (randomizeSeed k (random (proc s))) in
  let ck := default CompositeKey_create (key (m_data (self s))) in
  let installed :=
    set_m_data (set_kdf fresh (set_key (Some ck) (m_data (self s)))) (self s) in
  (kdf_uuid fresh = kdf_uuid k /\ kdf_rounds fresh = kdf_rounds k) /\
  transform E ck fresh
    = TransformOk (rawKey (transformedDatabaseKey (m_data (self s')))) /\
  key (m_data (self s')) = Some ck /\
  kdf (m_data (self s')) = fresh /\
  formatVersion (m_data (self s')) = kdbxVersionRequired E installed true false /\
  m_modified (self s') = true.
Proof.
  intros Hrun. cbn zeta.
  split; [split; apply randomizeSeed_parameters |].
  revert Hrun. fields s. destruct dd as [fv fp ci co ms tk cr ky kd pc].
  unfold changeKdf, randomizeSeedAt, setKdf. unfold_methods.
  destruct ptr as [|k]; cbn -[markAsModified];
    (destruct ky as [c|]; cbn -[markAsModified];
     destruct (transform E _ _) as [out|err] eqn:Ht; cbn -[markAsModified];
     try discriminate;
     rewrite markAsModified_eq; cbn; intros Hrun; inversion Hrun; subst; cbn;
     auto).
Qed.

(** ** Opening *)

Lemma length_file_read (n : nat) (f : File) :
  length (file_read n f) <= n /\ length (file_read n f) <= file_size f.
Proof.
  unfold file_read, file_size. destruct (f_fault f); rewrite length_firstn; lia.
Qed.

(** Loading returns, keeps the sentinel, and succeeds exactly when the
    codec reports no error. *)
Lemma open_load_run (E : Collaborators) (path : QString)
    (k : option CompositeKey) (f : File) (s : Sys) :
  exists v s', open_load E path k f s = Some (v, s') /\
    m_fileBlockHash (self s') = m_fileBlockHash (self s) /\
    (fst v = true <->
     rr_error (KeePass2Reader_readDatabase E (f_data f) k (self s)) = None).
Proof.
  fields s. unfold open_load, applyReader, setFilePath, canonicalFilePath.
  unfold_methods. cbn -[markAsModified].
  destruct (KeePass2Reader_readDatabase E (f_data f) k _)
    as [err rd rm rgp rdel rmod].
  cbn -[markAsModified].
  destruct rmod; cbn -[markAsModified]; rewrite ?markAsModified_eq; cbn;
    (destruct err as [e|]; cbn;
     [eexists _, _; split; [reflexivity |]; cbn; split; [reflexivity |];
      split; discriminate |]);
    destruct (String.eqb path (filePath rd)); cbn;
    try destruct mo; cbn; destruct em; cbn;
    eexists _, _; (split; [reflexivity |]); cbn; (split; [reflexivity |]);
    split; reflexivity.
Qed.

(** C6. [open] on an existing readable file: when the first
    [kFileBlockToHashSizeBytes] bytes are peeked in full, [fileBlockHash] is
    their MD5; when the file is shorter than that, the hash is left empty
    and [open] goes on to load the file, with the codec's verdict; when
    fewer bytes are peeked although the file is at least that long, [open]
    returns false with the read error. *)
Theorem open_takes_sentinel (E : Collaborators) (s : Sys) (path : QString)
    (k : option CompositeKey) (f : File) :
  disk (proc s) !! path = Some f ->
  f_readable f = true ->
  let n := kFileBlockToHashSizeBytes E in
  let fileBlockData := file_read n f in
  (length fileBlockData = n ->
     exists v s', open E path k s = Some (v, s') /\
       m_fileBlockHash (self s') = md5 E fileBlockData) /\
  (file_size f < n ->
     exists v s' s1, open E path k s = Some (v, s') /\
       m_fileBlockHash (self s') = [] /\
       open E path k s = open_load E path k f s1 /\
       (fst v = true <->
        rr_error (KeePass2Reader_readDatabase E (f_data f) k (self s1)) = None)) /\
  (length fileBlockData < n -> n <= file_size f ->
     exists s', open E path k s
                = Some ((false, Some "Database file read error."), s')).
Proof.
  intros Hfile Hreadable n fileBlockData.
  assert (Hopen : open E path k s =
    (setEmitModified false ;;
     modDb (set_m_fileBlockHash []) ;;
     if negb (length fileBlockData =? n)%nat then
       if (n <=? file_size f)%nat then
         ret (false, Some "Database file read error.")
       else open_load E path k f
     else modDb (set_m_fileBlockHash (md5 E fileBlockData)) ;;
          open_load E path k f)%method s).
  { unfold open, getProc, gets, bind at 1. rewrite Hfile, Hreadable. reflexivity. }
  rewrite Hopen. clear Hopen Hfile Hreadable.
  assert (Hpre : exists s0, (setEmitModified false ;; modDb (set_m_fileBlockHash []))%method s
                            = Some (tt, s0) /\ m_fileBlockHash (self s0) = []).
  { fields s. unfold_methods. cbn. destruct em; cbn; eexists; split; reflexivity. }
  destruct Hpre as (s0 & Hs0 & Hempty).
  assert (Hseq : forall (m : M Verdict),
            (setEmitModified false ;; modDb (set_m_fileBlockHash []) ;; m)%method s = m s0).
  { intros m. unfold bind in *. destruct (setEmitModified false s) as [[[] x]|];
      [| discriminate]. rewrite Hs0. reflexivity. }
  rewrite Hseq. clear Hseq Hs0.
  split; [| split].
  - intros Hlen. rewrite Hlen, Nat.eqb_refl. cbn [negb].
    destruct (open_load_run E path k f
                (set_self (set_m_fileBlockHash (md5 E fileBlockData) (self s0)) s0))
      as (v & s' & Hrun & Hhash & _).
    exists v, s'. split.
    + unfold modDb, modify, bind. exact Hrun.
    + rewrite Hhash. destruct s0 as [[] ? ?]. reflexivity.
  - intros Hshort.
    destruct (length_file_read n f) as [_ Hle]. fold fileBlockData in Hle.
    destruct (Nat.eqb_spec (length fileBlockData) n) as [Heq | _]; [lia |].
    cbn [negb]. destruct (Nat.leb_spec n (file_size f)) as [Hge | _]; [lia |].
    destruct (open_load_run E path k f s0) as (v & s' & Hrun & Hhash & Hverdict).
    exists v, s', s0. rewrite Hhash. auto.
  - intros Hcut Hlong.
    destruct (Nat.eqb_spec (length fileBlockData) n) as [Heq | _]; [lia |].
    cbn [negb]. destruct (Nat.leb_spec n (file_size f)) as [_ | Hlt]; [| lia].
    exists s0. reflexivity.
Qed.

(** ** Saving: the guards *)

Lemma saveAs_past_guards (E : Collaborators) (s : Sys) (path : QString)
    (action : SaveAction) (backupFilePath : option QString) :
  m_saveMutex (self s) = false ->
  isInitialized (self s) = true ->
  saveAs E path action backupFilePath s =
  (refusal <- externalChangeCheck E path ;;
   match refusal with
   | Some err => ret (false, Some err)
   | None => saveAs_prepare ;; saveAs_write E path action backupFilePath
   end)%method s.
Proof.
  intros Hfree Hinit. unfold saveAs, isSaving, getDb, gets.
  unfold bind at 1. rewrite Hfree. unfold bind at 1. rewrite Hinit. reflexivity.
Qed.

(** A check that does not refuse leaves the state as it found it. *)
Lemma externalChangeCheck_pass (E : Collaborators) (path : QString) (s s' : Sys) :
  externalChangeCheck E path s = Some (None, s') -> s' = s.
Proof.
  unfold externalChangeCheck. unfold_methods. cbn.
  repeat (branch; cbn); intros H; inversion H; reflexivity.
Qed.

(** C2. A [saveAs] that reaches the external-change check (no save in
    progress, database initialized) on the bound path, with a non-empty
    [fileBlockHash] and [ignoreFileChangesUntilSaved] false, and whose file
    exists and opens, re-reads the first [kFileBlockToHashSizeBytes] bytes of
    the file: if they are read in full and their MD5 differs from
    [fileBlockHash], it returns false with the unmerged-changes error and
    posts [databaseFileChanged(true)] through a queued connection, changing
    nothing else; if fewer bytes are read although the file is at least that
    long, it returns false with the read error. *)
Theorem saveAs_external_change (E : Collaborators) (s : Sys) (path : QString)
    (action : SaveAction) (backupFilePath : option QString) (f : File) :
  m_saveMutex (self s) = false ->
  isInitialized (self s) = true ->
  path = filePath (m_data (self s)) ->
  m_fileBlockHash (self s) <> [] ->
  m_ignoreFileChangesUntilSaved (self s) = false ->
  disk (proc s) !! path = Some f ->
  f_readable f = true ->
  let n := kFileBlockToHashSizeBytes E in
  let fileBlockData := file_read n f in
  (length fileBlockData = n -> md5 E fileBlockData <> m_fileBlockHash (self s) ->
     saveAs E path action backupFilePath s =
     Some ((false, Some "Database file has unmerged changes."),
           set_self (set_signals (Posted (databaseFileChanged true)
                                    :: signals (self s)) (self s)) s)) /\
  (length fileBlockData < n -> n <= file_size f ->
     saveAs E path action backupFilePath s =
     Some ((false, Some "Database file read error."), s)).
Proof.
  intros Hfree Hinit Hpath Hhash Hignore Hfile Hreadable n fileBlockData.
  rewrite saveAs_past_guards by assumption.
  fields s. cbn -[lookup] in *. subst mx ig path.
  unfold externalChangeCheck. unfold_methods. cbn -[lookup].
  rewrite String.eqb_refl.
  destruct hash as [|b hash]; [congruence |].
  cbn -[lookup]. rewrite Hfile, Hreadable.
  cbn. fold n. fold fileBlockData. split.
  - intros Hlen Hdiff. rewrite Hlen, Nat.eqb_refl.
    rewrite bool_decide_eq_false_2 by congruence. reflexivity.
  - intros Hcut Hlong.
    destruct (Nat.eqb_spec (length fileBlockData) n) as [Heq | _]; [lia |].
    destruct (Nat.leb_spec n (file_size f)) as [_ | Hlt]; [| lia].
    reflexivity.
Qed.

Lemma saveAs_prepare_run (s : Sys) :
  let len := fst (randomUIntRange 64 512 (random (proc s))) in
  let slug := fst (randomArray (N.to_nat len)
                     (snd (randomUIntRange 64 512 (random (proc s))))) in
  exists s1, saveAs_prepare s = Some (tt, s1) /\
    customData (m_metadata (self s1)) !! RandomSlug = Some (toHex slug) /\
    m_data (self s1) = m_data (self s) /\
    m_rootGroup (self s1) = m_rootGroup (self s) /\
    m_saveMutex (self s1) = m_saveMutex (self s) /\
    m_ignoreFileChangesUntilSaved (self s1) = m_ignoreFileChangesUntilSaved (self s) /\
    fw_path (m_fileWatcher (self s1)) = None /\
    disk (proc s1) = disk (proc s).
Proof.
  fields s. unfold saveAs_prepare, CustomData_set. unfold_methods.
  cbn -[markAsModified lookup insert].
  destruct em; cbn -[markAsModified lookup insert];
    rewrite ?markAsModified_eq; cbn -[lookup insert];
    (eexists; split; [reflexivity |]); cbn -[lookup insert];
    (split; [apply lookup_insert_eq | auto 10]).
Qed.

(** C10. A [saveAs] that reaches the external-change check on the bound
    path, with a non-empty [fileBlockHash] and
    [ignoreFileChangesUntilSaved] false, but whose file is no longer on
    disk: the check refuses nothing, reads nothing and posts nothing, and
    the save goes on to the write phase. *)
Theorem saveAs_missing_file (E : Collaborators) (s : Sys) (path : QString)
    (action : SaveAction) (backupFilePath : option QString) :
  m_saveMutex (self s) = false ->
  isInitialized (self s) = true ->
  path = filePath (m_data (self s)) ->
  m_fileBlockHash (self s) <> [] ->
  m_ignoreFileChangesUntilSaved (self s) = false ->
  disk (proc s) !! path = None ->
  externalChangeCheck E path s = Some (None, s) /\
  exists s1, saveAs_prepare s = Some (tt, s1) /\
    saveAs E path action backupFilePath s
    = saveAs_write E path action backupFilePath s1.
Proof.
  intros Hfree Hinit Hpath Hhash Hignore Hfile.
  assert (Hcheck : externalChangeCheck E path s = Some (None, s)).
  { clear Hfree Hinit. fields s. cbn -[lookup] in *. subst ig path.
    unfold externalChangeCheck. unfold_methods. cbn -[lookup].
    rewrite String.eqb_refl.
    destruct hash as [|b hash]; [congruence |].
    cbn -[lookup]. rewrite Hfile. reflexivity. }
  split; [exact Hcheck |].
  destruct (saveAs_prepare_run s) as (s1 & Hprep & _).
  exists s1. split; [exact Hprep |].
  rewrite saveAs_past_guards by assumption.
  unfold bind. rewrite Hcheck, Hprep. reflexivity.
Qed.

(** ** Saving: the padding *)

Lemma length_toHex (b : QByteArray) : String.length (toHex b) = 2 * length b.
Proof. induction b as [|x rest IH]; cbn [toHex String.length length]; lia. Qed.

Lemma randomUIntRange_value (lo hi : N) (r : Random) :
  fst (randomUIntRange lo hi r) = (lo + entropy r (cursor r) mod (hi - lo + 1))%N.
Proof. reflexivity. Qed.

Lemma saveAs_prepare_random (s s1 : Sys) :
  saveAs_prepare s = Some (tt, s1) ->
  random (proc s1)
  = snd (randomArray (N.to_nat (fst (randomUIntRange 64 512 (random (proc s)))))
           (snd (randomUIntRange 64 512 (random (proc s))))).
Proof.
  fields s. unfold saveAs_prepare, CustomData_set. unfold_methods.
  cbn -[markAsModified lookup insert].
  destruct em; cbn -[markAsModified lookup insert];
    rewrite ?markAsModified_eq; cbn -[lookup insert];
    intros H; inversion H; reflexivity.
Qed.

Lemma randomArray_lookup (len : nat) (r : Random) (i : nat) :
  i < len ->
  fst (randomArray len r) !! i = Some (byteOfN (entropy r (cursor r + i))).
Proof.
  intros Hi. unfold randomArray. cbn [fst].
  rewrite list_lookup_fmap, lookup_seq_lt by exact Hi. reflexivity.
Qed.

Lemma nibbleToAscii_digit (x : byte) :
  Some (nibbleToAscii (Byte.to_N x / 16))
    = String.get (N.to_nat (Byte.to_N x / 16)) "0123456789abcdef" /\
  Some (nibbleToAscii (Byte.to_N x mod 16))
    = String.get (N.to_nat (Byte.to_N x mod 16)) "0123456789abcdef".
Proof. destruct x; split; vm_compute; reflexivity. Qed.

Lemma toHex_digits (b : QByteArray) (i : nat) (x : byte) :
  b !! i = Some x ->
  String.get (2 * i) (toHex b)
    = String.get (N.to_nat (Byte.to_N x / 16)) "0123456789abcdef" /\
  String.get (2 * i + 1) (toHex b)
    = String.get (N.to_nat (Byte.to_N x mod 16)) "0123456789abcdef".
Proof.
  revert i. induction b as [|y rest IH]; intros i Hi; [discriminate |].
  destruct i as [|i].
  - cbn in Hi. inversion Hi; subst y. cbn [toHex Nat.mul Nat.add String.get].
    destruct (nibbleToAscii_digit x) as [Hhi Hlo]. split; assumption.
  - cbn in Hi. destruct (IH i Hi) as [Hhi Hlo].
    replace (2 * S i) with (S (S (2 * i))) by lia.
    replace (S (S (2 * i)) + 1) with (S (S (2 * i + 1))) by lia.
    cbn [toHex String.get]. split; assumption.
Qed.

(** C7. A [saveAs] that reaches the write phase asks the generator for a
    number in the closed interval from 64 to 512 and then for that many
    bytes, and stores, before the write starts, the hexadecimal form of
    exactly those bytes under [KPXC_RANDOM_SLUG].  The bytes are the
    generator's output that follows the word the length was taken from, and
    the generator has moved past them, so that the next save draws others;
    the stored text has two lower-case hexadecimal digits per byte, high
    nibble first; the length is 64 plus the residue modulo 449 of one word
    of the generator, so that each of the 449 lengths is the image of
    exactly one residue. *)
Theorem saveAs_random_slug (E : Collaborators) (s s0 : Sys) (path : QString)
    (action : SaveAction) (backupFilePath : option QString) :
  m_saveMutex (self s) = false ->
  isInitialized (self s) = true ->
  externalChangeCheck E path s = Some (None, s0) ->
  let r := random (proc s) in
  let word := entropy r (cursor r) in
  let len := N.to_nat (fst (randomUIntRange 64 512 r)) in
  let slug := fst (randomArray len (snd (randomUIntRange 64 512 r))) in
  exists s1,
    saveAs_prepare s = Some (tt, s1) /\
    saveAs E path action backupFilePath s
      = saveAs_write E path action backupFilePath s1 /\
    customData (m_metadata (self s1)) !! RandomSlug = Some (toHex slug) /\
    random (proc s1) = snd (randomArray len (snd (randomUIntRange 64 512 r))) /\
    (forall i, i < length slug ->
       slug !! i = Some (byteOfN (entropy r (S (cursor r) + i)))) /\
    cursor (random (proc s1)) = S (cursor r) + length slug /\
    String.length (toHex slug) = 2 * length slug /\
    (forall i x, slug !! i = Some x ->
       String.get (2 * i) (toHex slug)
         = String.get (N.to_nat (Byte.to_N x / 16)) "0123456789abcdef" /\
       String.get (2 * i + 1) (toHex slug)
         = String.get (N.to_nat (Byte.to_N x mod 16)) "0123456789abcdef") /\
    N.of_nat (length slug) = (64 + word mod 449)%N /\
    (64 <= N.of_nat (length slug) <= 512)%N /\
    (forall L, (64 <= L <= 512)%N ->
       (N.of_nat (length slug) = L <-> word mod 449 = L - 64)%N).
Proof.
  intros Hfree Hinit Hcheck r word len slug.
  pose proof (externalChangeCheck_pass _ _ _ _ Hcheck) as ->.
  destruct (saveAs_prepare_run s) as (s1 & Hprep & Hslug & _).
  exists s1. split; [exact Hprep |].
  split. { rewrite saveAs_past_guards by assumption.
           unfold bind. rewrite Hcheck, Hprep. reflexivity. }
  split; [exact Hslug |].
  pose proof (saveAs_prepare_random _ _ Hprep) as Hrandom.
  split; [exact Hrandom |].
  assert (Hlen : length slug = len) by apply length_randomArray.
  split.
  { intros i Hi. subst slug. rewrite Hlen in Hi.
    rewrite randomArray_lookup by exact Hi. reflexivity. }
  split. { rewrite Hrandom, Hlen. reflexivity. }
  split; [apply length_toHex |].
  split; [intros i x; apply toHex_digits |].
  rewrite Hlen. subst len. rewrite N2Nat.id, randomUIntRange_value.
  change (512 - 64 + 1)%N with 449%N. fold r. fold word.
  assert (Hres : (word mod 449 < 449)%N) by (apply N.mod_lt; discriminate).
  set (m := (word mod 449)%N) in *. clearbody m.
  split; [reflexivity |]. split; [lia |]. intros L HL. lia.
Qed.

(** ** Saving: the write and its outcome *)

Lemma saveAs_write_run (E : Collaborators) (s : Sys) (path : QString)
    (action : SaveAction) (backupFilePath : option QString) :
  is_Some (key (m_data (self s))) ->
  is_Some (m_rootGroup (self s)) ->
  let realFilePath :=
    if bool_decide (is_Some (disk (proc s) !! path))
    then canonicalFilePathOf E path else absoluteFilePathOf E path in
  exists r s2 s',
    performSave E realFilePath action backupFilePath
      (set_self (set_m_saveMutex true (self s)) s) = Some (r, s2) /\
    saveAs_write E path action backupFilePath s = Some (r, s') /\
    (fst r = true ->
       filePath (m_data (self s')) = path /\
       m_modified (self s') = false /\
       m_ignoreFileChangesUntilSaved (self s') = false /\
       m_fileWatcher (self s')
         = {| fw_path := Some realFilePath; fw_cadence := (30, 1)%Z;
              fw_paused := false |}) /\
    (fst r = false ->
       m_modified (self s') = true /\
       m_fileWatcher (self s') = m_fileWatcher (self s)).
Proof.
  intros Hkey Hroot realFilePath.
  destruct (performSave_spec E (set_m_saveMutex true (self s)) realFilePath
              action backupFilePath (set_self (set_m_saveMutex true (self s)) s))
    as (r & s2 & Hrun & Hkept).
  { destruct s as [d a p]. split; [reflexivity | destruct d; exact Hkey]. }
  exists r, s2.
  assert (Hstart : saveAs_write E path action backupFilePath s =
    ((if fst r then
        setFilePath path ;;
        markAsClean E ;;
        when (negb (bool_decide (is_Some (disk (proc s) !! realFilePath))))
          (QFile_setPermissions realFilePath ownerReadWrite ;; ret tt) ;;
        modDb (set_m_ignoreFileChangesUntilSaved false) ;;
        fileWatcher_start realFilePath 30 1
      else markAsModified) ;;
     modDb (set_m_saveMutex false) ;; ret r)%method s2).
  { unfold saveAs_write, QFile_exists. unfold modDb, modify, getProc, gets.
    unfold bind at 1. unfold bind at 1. unfold bind at 1. unfold bind at 1.
    unfold bind at 1. unfold ret at 1. unfold ret at 1.
    assert (Hdisk : disk (proc (set_self (set_m_saveMutex true (self s)) s))
                    = disk (proc s)) by (destruct s; reflexivity).
    rewrite !Hdisk.
    assert (Hreal : (if match disk (proc s) !! path with
                        | Some _ => true | None => false end
                     then canonicalFilePathOf E path
                     else absoluteFilePathOf E path) = realFilePath).
    { unfold realFilePath. destruct (disk (proc s) !! path);
        [rewrite bool_decide_eq_true_2 by eauto
        | rewrite bool_decide_eq_false_2 by (intros [? ?]; discriminate)];
        reflexivity. }
    rewrite Hreal. unfold bind at 1. rewrite Hrun.
    destruct (disk (proc s) !! realFilePath);
      [rewrite bool_decide_eq_true_2 by eauto
      | rewrite bool_decide_eq_false_2 by (intros [? ?]; discriminate)];
      reflexivity. }
  enough (exists s',
            ((if fst r then
                setFilePath path ;;
                markAsClean E ;;
                when (negb (bool_decide (is_Some (disk (proc s) !! realFilePath))))
                  (QFile_setPermissions realFilePath ownerReadWrite ;; ret tt) ;;
                modDb (set_m_ignoreFileChangesUntilSaved false) ;;
                fileWatcher_start realFilePath 30 1
              else markAsModified) ;;
             modDb (set_m_saveMutex false) ;; ret r)%method s2 = Some (r, s') /\
            (fst r = true ->
               filePath (m_data (self s')) = path /\
               m_modified (self s') = false /\
               m_ignoreFileChangesUntilSaved (self s') = false /\
               m_fileWatcher (self s')
                 = {| fw_path := Some realFilePath; fw_cadence := (30, 1)%Z;
                      fw_paused := false |}) /\
            (fst r = false ->
               m_modified (self s') = true /\
               m_fileWatcher (self s') = m_fileWatcher (self s)))
    as (s' & Hend & Hpost).
  { exists s'. rewrite Hstart. auto. }
  clear Hstart Hrun. clearbody realFilePath.
  generalize (negb (bool_decide (is_Some (disk (proc s) !! realFilePath)))).
  intros isNewFile.
  destruct Hkept as (Hrootkept & Hwatch & _).
  destruct Hroot as [g Hg].
  destruct s as [d a p]. cbn in Hrootkept, Hwatch, Hg |- *.
  rewrite Hg in Hrootkept. rewrite <- Hwatch. clear Hwatch Hg Hkey.
  destruct s2 as [[md dd rg fw u mo hn em tm mx hash ig ke del cu tl tmp sg] a2 p2].
  cbn in Hrootkept. subst rg.
  unfold setFilePath, QFile_setPermissions, QFile_exists. unfold_methods.
  destruct (fst r); cbn -[markAsModified lookup alter].
  - destruct dd as [fv fp ci co ms tk cr ky kd pc]. cbn -[lookup alter].
    destruct (String.eqb_spec path fp) as [-> | Hne];
      destruct mo; cbn -[lookup alter];
      destruct isNewFile; cbn -[lookup alter];
      (eexists; split; [reflexivity |]); cbn;
      (split; [auto | intros; discriminate]).
  - rewrite markAsModified_eq. cbn.
    eexists; split; [reflexivity |]. cbn.
    split; [intros; discriminate | auto].
Qed.

Lemma isInitialized_parts (d : Database) :
  isInitialized d = true ->
  is_Some (key (m_data d)) /\ is_Some (m_rootGroup d).
Proof.
  unfold isInitialized. destruct (key (m_data d)), (m_rootGroup d);
    try discriminate. eauto.
Qed.

(** C3. A [saveAs] that gets past its guards completes, and its verdict is
    that of [performSave] run under the save mutex on the prepared
    database.  When the write succeeded, the path is rebound to the target,
    the database is clean, [ignoreFileChangesUntilSaved] is false and the
    watcher is started again, on the resolved path; when the write failed,
    the database is marked modified and the watcher, stopped before the
    write, is not started. *)
Theorem saveAs_outcome (E : Collaborators) (s s0 : Sys) (path : QString)
    (action : SaveAction) (backupFilePath : option QString) :
  m_saveMutex (self s) = false ->
  isInitialized (self s) = true ->
  externalChangeCheck E path s = Some (None, s0) ->
  let realFilePath :=
    if bool_decide (is_Some (disk (proc s) !! path))
    then canonicalFilePathOf E path else absoluteFilePathOf E path in
  exists r s1 s2 s',
    saveAs_prepare s = Some (tt, s1) /\
    performSave E realFilePath action backupFilePath
      (set_self (set_m_saveMutex true (self s1)) s1) = Some (r, s2) /\
    saveAs E path action backupFilePath s = Some (r, s') /\
    (fst r = true ->
       filePath (m_data (self s')) = path /\
       m_modified (self s') = false /\
       m_ignoreFileChangesUntilSaved (self s') = false /\
       m_fileWatcher (self s')
         = {| fw_path := Some realFilePath; fw_cadence := (30, 1)%Z;
              fw_paused := false |}) /\
    (fst r = false ->
       m_modified (self s') = true /\
       fw_path (m_fileWatcher (self s')) = None).
Proof.
  intros Hfree Hinit Hcheck realFilePath.
  pose proof (externalChangeCheck_pass _ _ _ _ Hcheck) as ->.
  destruct (isInitialized_parts _ Hinit) as [Hkey Hroot].
  destruct (saveAs_prepare_run s)
    as (s1 & Hprep & _ & Hdata & Hrootkept & _ & _ & Hstopped & Hdisk).
  destruct (saveAs_write_run E s1 path action backupFilePath)
    as (r & s2 & s' & Hrun & Hwrite & Hok & Hfail).
  { rewrite Hdata. exact Hkey. }
  { rewrite Hrootkept. exact Hroot. }
  rewrite Hdisk in Hrun, Hok. fold realFilePath in Hrun, Hok.
  exists r, s1, s2, s'. split; [exact Hprep |]. split; [exact Hrun |].
  split.
  { rewrite saveAs_past_guards by assumption.
    unfold bind. rewrite Hcheck, Hprep. exact Hwrite. }
  split; [exact Hok |].
  intros Hr. destruct (Hfail Hr) as [Hmod Hwatch].
  split; [exact Hmod |]. rewrite Hwatch. exact Hstopped.
Qed.

(** ** Writing: the sanity check on the transformed key *)

(** With a non-empty composite key, the key [writeDatabase] compares the
    new transformed key with holds no bytes: a write whose codec reports no
    error succeeds as soon as the transformed key it leaves is not empty. *)
Lemma writeDatabase_nonempty_key (E : Collaborators) (s s1 : Sys)
    (ck : CompositeKey) :
  key (m_data (self s)) = Some ck ->
  isEmpty ck = false ->
  setEmitModified false s = Some (tt, s1) ->
  let w := KeePass2Writer_writeDatabase E (self s1) (random (proc s1)) in
  wr_error w = None ->
  rawKey (transformedDatabaseKey (wr_data w)) <> [] ->
  exists s', writeDatabase E s = Some (((true, None), wr_output w), s') /\
             m_data (self s') = wr_data w.
Proof.
  fields s. cbn. intros Hkey Hne.
  unfold writeDatabase, applyWriter. unfold_methods.
  cbn -[markAsModified]. rewrite Hkey. cbn -[markAsModified]. rewrite Hne.
  destruct em; cbn -[markAsModified]; intros Hs1; inversion Hs1; subst s1;
    cbn -[markAsModified]; clear Hs1;
    match goal with
    | |- context [KeePass2Writer_writeDatabase E ?d ?r] =>
        destruct (KeePass2Writer_writeDatabase E d r) as [out err wd wm wr]
    end;
    cbn -[markAsModified]; intros -> Hnonempty;
    destruct wm; cbn -[markAsModified]; rewrite ?markAsModified_eq; cbn;
    (destruct (rawKey (transformedDatabaseKey wd)) as [|b t] eqn:Hraw;
     [congruence |]); cbn;
    rewrite bool_decide_eq_false_2 by discriminate;
    eexists; split; reflexivity.
Qed.

(** C1, at a failing input.  On the initialized sample database, whose
    composite key is a password, a codec that writes without error and
    leaves the transformed key as it was makes [writeDatabase], and the
    [saveAs] around it, return success although the transformed key after
    the write equals the transformed key before it. *)
Theorem writeDatabase_accepts_unrotated_key :
  let E := Sample.env Sample.keepingWriter in
  let before := rawKey (transformedDatabaseKey (m_data (self Sample.unchanged))) in
  isInitialized (self Sample.unchanged) = true /\
  before = [x01; x02] /\
  (exists out s',
     writeDatabase E Sample.unchanged = Some (((true, None), out), s') /\
     rawKey (transformedDatabaseKey (m_data (self s'))) = before) /\
  (exists s',
     saveAs E Sample.path Atomic None Sample.unchanged = Some ((true, None), s') /\
     rawKey (transformedDatabaseKey (m_data (self s'))) = before).
Proof.
  cbn zeta. split; [reflexivity |]. split; [reflexivity |]. split.
  - eexists _, _. split; [vm_compute; reflexivity | reflexivity].
  - eexists. split; [vm_compute; reflexivity | reflexivity].
Qed.

(** * The theorems at the sample states *)

Lemma setKey_marks_modified_witness :
  exists s',
    setKey (Sample.env Sample.rotatingWriter) (Some Sample.password)
      true true true Sample.pristine = Some (true, s') /\
    (m_modified (self s') = true <->
     m_modified (self Sample.pristine) = true \/
     [x01; x02] <> rawKey (transformedDatabaseKey (m_data (self s')))).
Proof.
  eexists. split; [vm_compute; reflexivity |].
  refine (proj1 (setKey_marks_modified (Sample.env Sample.rotatingWriter)
                   Sample.pristine Sample.password true true true _ _)).
  vm_compute. reflexivity.
Defined.

(** C4, as stated, fails.  On a new database whose KDF was changed and which
    was then marked clean, the installed key is the empty composite key and
    the transformed key is not empty; a [setKey] with a password and
    [transformKey = false] succeeds and leaves the transformed key bytes as
    they were, yet marks the database modified. *)
Lemma setKey_modified_without_change :
  exists s s',
    Sample.rekeyed = Some s /\
    setKey (Sample.env Sample.rotatingWriter) (Some Sample.password)
      false false false s = Some (true, s') /\
    rawKey (transformedDatabaseKey (m_data (self s')))
      = rawKey (transformedDatabaseKey (m_data (self s))) /\
    m_modified (self s) = false /\
    m_modified (self s') = true.
Proof.
  eexists _, _. split; [vm_compute; reflexivity |].
  split; [vm_compute; reflexivity |].
  split; [reflexivity |]. split; reflexivity.
Qed.

Lemma changeKdf_effect_witness :
  (exists s',
     changeKdf (Sample.env Sample.rotatingWriter) (distinctKdf Sample.argon2)
       Sample.pristine = Some (true, s') /\
     Sample.derive Sample.password
       {| kdf_uuid := 2%N; kdf_rounds := 10; kdf_seed := [x03; x0a; x11] |}
       = TransformOk (rawKey (transformedDatabaseKey (m_data (self s')))) /\
     formatVersion (m_data (self s')) = 0x00040000%Z /\
     m_modified (self s') = true) /\
  (exists s',
     changeKdf (Sample.env Sample.rotatingWriter) installedKdf Sample.pristine
       = Some (true, s') /\
     kdf (m_data (self s'))
       = {| kdf_uuid := 1%N; kdf_rounds := 100000; kdf_seed := [x03; x0a] |} /\
     formatVersion (m_data (self s')) = 0x00030001%Z /\
     m_modified (self s') = true).
Proof.
  split.
  - assert (Hrun : exists s',
               changeKdf (Sample.env Sample.rotatingWriter)
                 (distinctKdf Sample.argon2) Sample.pristine = Some (true, s'))
      by (eexists; vm_compute; reflexivity).
    destruct Hrun as [s' Hrun]. exists s'. split; [exact Hrun |].
    destruct (changeKdf_effect (Sample.env Sample.rotatingWriter) Sample.pristine
                (distinctKdf Sample.argon2) s' Hrun)
      as (_ & Ht & _ & _ & Hv & Hm).
    split; [exact Ht |]. split; [exact Hv | exact Hm].
  - assert (Hrun : exists s',
               changeKdf (Sample.env Sample.rotatingWriter) installedKdf
                 Sample.pristine = Some (true, s'))
      by (eexists; vm_compute; reflexivity).
    destruct Hrun as [s' Hrun]. exists s'. split; [exact Hrun |].
    destruct (changeKdf_effect (Sample.env Sample.rotatingWriter) Sample.pristine
                installedKdf s' Hrun) as (_ & _ & _ & Hk & Hv & Hm).
    split; [exact Hk |]. split; [exact Hv | exact Hm].
Defined.

Lemma open_takes_sentinel_witness :
  (exists v s',
     open (Sample.env Sample.rotatingWriter) Sample.path (Some Sample.password)
       Sample.rewritten = Some (v, s') /\
     m_fileBlockHash (self s') = Sample.digest [x03; xd9; xa2; x9a]) /\
  (exists v s',
     open (Sample.env Sample.rotatingWriter) Sample.path (Some Sample.password)
       Sample.short = Some (v, s') /\
     m_fileBlockHash (self s') = []) /\
  (exists s',
     open (Sample.env Sample.rotatingWriter) Sample.path (Some Sample.password)
       Sample.faulty = Some ((false, Some "Database file read error."), s')).
Proof.
  split; [| split].
  - apply (proj1 (open_takes_sentinel (Sample.env Sample.rotatingWriter)
                    Sample.rewritten Sample.path (Some Sample.password)
                    (Sample.fileOf Sample.payload None) eq_refl eq_refl)).
    reflexivity.
  - destruct (proj1 (proj2 (open_takes_sentinel (Sample.env Sample.rotatingWriter)
                    Sample.short Sample.path (Some Sample.password)
                    (Sample.fileOf [x03; xd9] None) eq_refl eq_refl)))
      as (v & s' & s1 & Hrun & Hhash & _).
    + cbn. lia.
    + exists v, s'. auto.
  - apply (proj2 (proj2 (open_takes_sentinel (Sample.env Sample.rotatingWriter)
                    Sample.faulty Sample.path (Some Sample.password)
                    (Sample.fileOf Sample.payload (Some 2)) eq_refl eq_refl))).
    + cbn. lia.
    + cbn. lia.
Defined.

Lemma saveAs_external_change_witness :
  saveAs (Sample.env Sample.rotatingWriter) Sample.path Atomic None Sample.rewritten
    = Some ((false, Some "Database file has unmerged changes."),
            set_self (set_signals [Posted (databaseFileChanged true)]
                        (self Sample.rewritten)) Sample.rewritten) /\
  saveAs (Sample.env Sample.rotatingWriter) Sample.path Atomic None Sample.faulty
    = Some ((false, Some "Database file read error."), Sample.faulty).
Proof.
  split.
  - apply (proj1 (saveAs_external_change (Sample.env Sample.rotatingWriter)
                    Sample.rewritten Sample.path Atomic None
                    (Sample.fileOf Sample.payload None)
                    eq_refl eq_refl eq_refl ltac:(discriminate) eq_refl eq_refl eq_refl)).
    + reflexivity.
    + discriminate.
  - apply (proj2 (saveAs_external_change (Sample.env Sample.rotatingWriter)
                    Sample.faulty Sample.path Atomic None
                    (Sample.fileOf Sample.payload (Some 2))
                    eq_refl eq_refl eq_refl ltac:(discriminate) eq_refl eq_refl eq_refl)).
    + cbn. lia.
    + cbn. lia.
Defined.

Lemma saveAs_missing_file_witness :
  externalChangeCheck (Sample.env Sample.rotatingWriter) Sample.path Sample.gone
    = Some (None, Sample.gone) /\
  exists s1, saveAs_prepare Sample.gone = Some (tt, s1) /\
    saveAs (Sample.env Sample.rotatingWriter) Sample.path Atomic None Sample.gone
    = saveAs_write (Sample.env Sample.rotatingWriter) Sample.path Atomic None s1.
Proof.
  apply (saveAs_missing_file (Sample.env Sample.rotatingWriter) Sample.gone
           Sample.path Atomic None);
    first [reflexivity | discriminate].
Defined.

Lemma saveAs_random_slug_witness :
  exists s1 hex,
    saveAs_prepare Sample.unchanged = Some (tt, s1) /\
    customData (m_metadata (self s1)) !! RandomSlug = Some hex /\
    String.length hex = 134 /\
    String.get 0 hex = Some "0"%char /\
    String.get 1 hex = Some "a"%char /\
    cursor (random (proc s1)) = 68.
Proof.
  destruct (saveAs_random_slug (Sample.env Sample.rotatingWriter)
              Sample.unchanged Sample.unchanged Sample.path Atomic None
              eq_refl eq_refl eq_refl)
    as (s1 & Hprep & _ & Hslug & _ & Hbytes & Hcursor & Hhex & Hdigits & Hlen & _).
  assert (Hn : length (fst (randomArray
                  (N.to_nat (fst (randomUIntRange 64 512 (random (proc Sample.unchanged)))))
                  (snd (randomUIntRange 64 512 (random (proc Sample.unchanged))))))
               = 67)
    by (apply Nat2N.inj; rewrite Hlen; vm_compute; reflexivity).
  rewrite Hn in Hhex, Hcursor.
  destruct (Hdigits 0 x0a) as [Hhi Hlo].
  { rewrite Hbytes by (rewrite Hn; lia). vm_compute. reflexivity. }
  eexists s1, _. split; [exact Hprep |]. split; [exact Hslug |].
  split; [exact Hhex |]. split; [exact Hhi |]. split; [exact Hlo |].
  exact Hcursor.
Defined.

Lemma saveAs_outcome_witness :
  (exists r s',
     saveAs (Sample.env Sample.rotatingWriter) Sample.path Atomic None
       Sample.unchanged = Some (r, s') /\
     fst r = true /\ m_modified (self s') = false /\
     fw_path (m_fileWatcher (self s')) = Some Sample.path) /\
  (exists r s',
     saveAs (Sample.env Sample.failingWriter) Sample.path Atomic None
       Sample.unchanged = Some (r, s') /\
     fst r = false /\ m_modified (self s') = true /\
     fw_path (m_fileWatcher (self s')) = None).
Proof.
  split.
  - destruct (saveAs_outcome (Sample.env Sample.rotatingWriter)
                Sample.unchanged Sample.unchanged Sample.path Atomic None
                eq_refl eq_refl eq_refl)
      as (r & s1 & s2 & s' & _ & _ & Hsave & Hok & _).
    assert (Hr : fst r = true).
    { assert (Hc : fst <$> (fst <$> saveAs (Sample.env Sample.rotatingWriter)
                              Sample.path Atomic None Sample.unchanged) = Some true)
        by (vm_compute; reflexivity).
      rewrite Hsave in Hc. cbn in Hc. congruence. }
    destruct (Hok Hr) as (_ & Hmod & _ & Hwatch).
    exists r, s'. rewrite Hwatch. auto.
  - destruct (saveAs_outcome (Sample.env Sample.failingWriter)
                Sample.unchanged Sample.unchanged Sample.path Atomic None
                eq_refl eq_refl eq_refl)
      as (r & s1 & s2 & s' & _ & _ & Hsave & _ & Hfail).
    assert (Hr : fst r = false).
    { assert (Hc : fst <$> (fst <$> saveAs (Sample.env Sample.failingWriter)
                              Sample.path Atomic None Sample.unchanged) = Some false)
        by (vm_compute; reflexivity).
      rewrite Hsave in Hc. cbn in Hc. congruence. }
    destruct (Hfail Hr) as (Hmod & Hwatch).
    exists r, s'. auto.
Defined.


(** * Further properties *)

(** ** Deleted objects *)

Lemma containsUuid_app (uuid : QUuid) (l1 l2 : list DeletedObject) :
  containsUuid uuid (l1 ++ l2) = containsUuid uuid l1 || containsUuid uuid l2.
Proof.
  induction l1 as [|o l1 IH]; cbn; [reflexivity |].
  destruct (deleted_uuid o =? uuid)%N; [reflexivity | exact IH].
Qed.

Lemma containsUuid_In (uuid : QUuid) (l : list DeletedObject) :
  containsUuid uuid l = true <-> exists o, In o l /\ deleted_uuid o = uuid.
Proof.
  induction l as [|o l IH]; cbn.
  - split; [discriminate | intros (o & [] & _)].
  - destruct (N.eqb_spec (deleted_uuid o) uuid) as [Heq | Hne].
    + split; [intros _; exists o; auto | reflexivity].
    + rewrite IH. split.
      * intros (o' & Hin & Hu). exists o'. auto.
      * intros (o' & [-> | Hin] & Hu); [contradiction | exists o'; auto].
Qed.

(** X1. [containsDeletedObject] answers true exactly when some deleted object
    has the UUID, whatever its deletion time, and both overloads agree.
    [addDeletedObject(uuid)] appends one object with that UUID and the
    current time and drops nothing: afterwards a UUID is reported deleted
    exactly when it is the added one or was reported before. *)
Theorem addDeletedObject_contains (s : Sys) (uuid other : QUuid) (t : Z) :
  let recorded := containsUuid other (m_deletedObjects (self s)) in
  containsDeletedObject other s = Some (recorded, s) /\
  (recorded = true <->
   exists o, In o (m_deletedObjects (self s)) /\ deleted_uuid o = other) /\
  containsDeletedObject_object {| deleted_uuid := other; deletionTime := t |} s
    = containsDeletedObject other s /\
  exists s',
    addDeletedObject_uuid uuid s = Some (tt, s') /\
    m_deletedObjects (self s')
      = (m_deletedObjects (self s)
         ++ [{| deleted_uuid := uuid; deletionTime := clock (proc s) |}])%list /\
    containsDeletedObject other s'
      = Some (recorded || bool_decide (other = uuid), s').
Proof.
  cbn zeta. split; [reflexivity |]. split; [apply containsUuid_In |].
  split; [reflexivity |].
  destruct s as [d a p]. eexists. split; [reflexivity |].
  split; [destruct d; reflexivity |].
  unfold containsDeletedObject, getDb, gets, bind, ret.
  destruct d; cbn. rewrite containsUuid_app. cbn.
  destruct (N.eqb_spec uuid other) as [-> | Hne].
  - rewrite bool_decide_eq_true_2 by reflexivity. reflexivity.
  - rewrite bool_decide_eq_false_2 by congruence. reflexivity.
Qed.

(** ** Debounced modification signal *)

Lemma markAsModified_twice (s s1 : Sys) :
  markAsModified s = Some (tt, s1) -> markAsModified s1 = Some (tt, s1).
Proof.
  rewrite !markAsModified_eq. intros H. inversion H; subst. clear H.
  fields s. cbn. destruct em, tm; reflexivity.
Qed.

Lemma times_markAsModified (n : nat) (s : Sys) :
  times (S n) markAsModified s = markAsModified s.
Proof.
  revert s. induction n as [|n IH]; intros s.
  - change (times 1 markAsModified) with (markAsModified ;; ret tt)%method.
    unfold bind. rewrite markAsModified_eq. reflexivity.
  - change (times (S (S n)) markAsModified)
      with (markAsModified ;; times (S n) markAsModified)%method.
    unfold bind at 1. destruct (markAsModified s) as [[[] s1]|] eqn:H1.
    + rewrite IH. apply (markAsModified_twice _ _ H1).
    + rewrite markAsModified_eq in H1. discriminate.
Qed.

(** X2. Any burst of one or more [markAsModified] calls leaves the database as
    a single call does; with signalling enabled, the expiry of the timer
    after the burst emits [modified] once (and refreshes the tag list),
    with the database still modified and the timer no longer armed. *)
Theorem markAsModified_debounced (E : Collaborators) (n : nat) (s : Sys) :
  m_emitModified (self s) = true ->
  times (S n) markAsModified s = markAsModified s /\
  exists s1 s',
    times (S n) markAsModified s = Some (tt, s1) /\
    is_Some (m_modifiedTimer (self s1)) /\
    modifiedTimer_timeout E s1 = Some (tt, s') /\
    signals (self s')
      = Emitted tagListUpdated :: Emitted modified :: signals (self s) /\
    m_modified (self s') = true /\
    m_modifiedTimer (self s') = None.
Proof.
  intros Hen. split; [apply times_markAsModified |].
  rewrite times_markAsModified, markAsModified_eq.
  fields s. cbn in Hen. subst em.
  unfold modifiedTimer_timeout, emit_modified. unfold_methods.
  destruct rg, tm; cbn; eexists _, _; (split; [reflexivity |]); cbn;
    (split; [eauto |]); (split; [reflexivity |]); cbn; auto.
Qed.

Lemma markAsModified_debounced_witness :
  exists s1 s',
    times 3 markAsModified Sample.pristine = Some (tt, s1) /\
    modifiedTimer_timeout (Sample.env Sample.rotatingWriter) s1 = Some (tt, s') /\
    signals (self s') = [Emitted tagListUpdated; Emitted modified].
Proof.
  destruct (markAsModified_debounced (Sample.env Sample.rotatingWriter) 2
              Sample.pristine eq_refl)
    as (_ & s1 & s' & H1 & _ & H2 & H3 & _).
  exists s1, s'. auto.
Defined.

(** ** Construction and the registry *)

Lemma createUuid_not_null (r : Random) : fst (createUuid r) <> 0%N.
Proof.
  unfold createUuid, draw. cbn [fst]. rewrite N.add_1_l. apply N.neq_succ_0.
Qed.

(** X3. A new database is registered under a UUID that is not null and is found
    there; registrations under other UUIDs are kept; the database is clean,
    not initialized, unbound, signals modifications, and has a root group
    named "Passwords" with a UUID that is not null. *)
Theorem Database_new_registered (E : Collaborators) (addr : Addr) (p : Process) :
  exists s,
    Database_new E addr p = Some s /\
    m_uuid (self s) <> 0%N /\
    databaseByUuid (m_uuid (self s)) (proc s) = Some addr /\
    (forall u, u <> m_uuid (self s) ->
       databaseByUuid u (proc s) = databaseByUuid u p) /\
    m_modified (self s) = false /\
    m_emitModified (self s) = true /\
    isInitialized (self s) = false /\
    filePath (m_data (self s)) = "" /\
    m_fileBlockHash (self s) = [] /\
    exists g, m_rootGroup (self s) = Some g /\
              g_uuid g <> 0%N /\ g_name g = "Passwords".
Proof.
  unfold Database_new.
  destruct (randomizeSeed (defaultKdf E) (random p)) as [k r1].
  destruct (createUuid r1) as [uuid r2] eqn:Hu.
  assert (Hnz : uuid <> 0%N).
  { pose proof (createUuid_not_null r1) as H. rewrite Hu in H. exact H. }
  unfold setRootGroup, databaseByUuid. unfold_methods.
  cbn -[lookup insert]. eexists. split; [reflexivity |].
  cbn -[lookup insert]. split; [exact Hnz |].
  split; [apply lookup_insert_eq |].
  split; [intros u Hne; apply lookup_insert_ne; congruence |].
  repeat (split; [reflexivity |]).
  eexists. split; [reflexivity |]. cbn. split; [apply createUuid_not_null | reflexivity].
Qed.

Lemma Database_new_registered_witness :
  exists s,
    Database_new (Sample.env Sample.rotatingWriter) 7 (Sample.processWith ∅) = Some s /\
    databaseByUuid (m_uuid (self s)) (proc s) = Some 7 /\
    databaseByUuid 42%N (proc s) = Some 1.
Proof.
  destruct (Database_new_registered (Sample.env Sample.rotatingWriter) 7
              (Sample.processWith ∅))
    as (s & Hnew & _ & Hreg & Hothers & _).
  exists s. split; [exact Hnew |]. split; [exact Hreg |].
  rewrite Hothers; [reflexivity |].
  assert (Hu : m_uuid <$> (self <$> Database_new (Sample.env Sample.rotatingWriter) 7
                                     (Sample.processWith ∅)) = Some 18%N)
    by (vm_compute; reflexivity).
  rewrite Hnew in Hu. cbn in Hu. inversion Hu as [Hu']. rewrite Hu'. discriminate.
Defined.

(** X4. [releaseData], when no save holds the mutex, announces
    [databaseDiscarded] exactly when the database was modified, removes only
    its own registration, and leaves an unbound, uninitialized database with
    a null UUID, a fresh root group and signalling switched off. *)
Theorem releaseData_discards (s : Sys) :
  m_saveMutex (self s) = false ->
  exists s',
    releaseData s = Some (tt, s') /\
    signals (self s')
      = ((if m_emitModified (self s)
          then [Emitted (emitModifiedChanged false)] else [])
         ++ (if m_modified (self s) then [Emitted databaseDiscarded] else [])
         ++ signals (self s))%list /\
    (forall u, u <> m_uuid (self s) ->
       databaseByUuid u (proc s') = databaseByUuid u (proc s)) /\
    m_uuid (self s') = 0%N /\
    isInitialized (self s') = false /\
    filePath (m_data (self s')) = "" /\
    m_emitModified (self s') = false /\
    m_saveMutex (self s') = false /\
    exists g, m_rootGroup (self s') = Some g /\
              g_uuid g <> 0%N /\ g_name g = "Passwords".
Proof.
  fields s. cbn. intros ->.
  unfold releaseData, isSaving, Metadata_clear, setRootGroup, databaseByUuid.
  unfold_methods. cbn.
  destruct mo, em; cbn -[lookup delete];
    (eexists; split; [reflexivity |]); cbn -[lookup delete];
    (split; [reflexivity |]);
    (split; [intros u0 Hne; apply lookup_delete_ne; congruence |]);
    repeat (split; [reflexivity |]);
    (eexists; split; [reflexivity |]); cbn;
    (split; [apply createUuid_not_null | reflexivity]).
Qed.

Lemma releaseData_discards_witness :
  exists s',
    releaseData Sample.unchanged = Some (tt, s') /\
    signals (self s')
      = [Emitted (emitModifiedChanged false); Emitted databaseDiscarded] /\
    databaseByUuid 43%N (proc s') = databaseByUuid 43%N (proc Sample.unchanged).
Proof.
  destruct (releaseData_discards Sample.unchanged eq_refl)
    as (s' & Hrun & Hsig & Hothers & _).
  exists s'. split; [exact Hrun |]. split; [exact Hsig |].
  apply Hothers. discriminate.
Defined.

(** ** Key lifecycle: resets and failures *)

(** X5. [setKey] with no key succeeds, zeroes the key-derived state and marks
    nothing; the database is then not initialized, so that a [saveAs] on it,
    when no save is in progress, is refused unchanged. *)
Theorem setKey_reset (E : Collaborators) (s : Sys)
    (updateChangedTime updateTransformSalt transformKey : bool) :
  exists s',
    setKey E None updateChangedTime updateTransformSalt transformKey s
      = Some (true, s') /\
    key (m_data (self s')) = None /\
    rawKey (transformedDatabaseKey (m_data (self s'))) = [] /\
    rawKey (challengeResponseKey (m_data (self s'))) = [] /\
    rawKey (masterSeed (m_data (self s'))) = [] /\
    kdf (m_data (self s')) = kdf (m_data (self s)) /\
    m_modified (self s') = m_modified (self s) /\
    m_keyError (self s') = "" /\
    isInitialized (self s') = false /\
    (m_saveMutex (self s) = false ->
     forall path action backupFilePath,
       saveAs E path action backupFilePath s'
       = Some ((false, Some "Could not save, database has not been initialized!"),
               s')).
Proof.
  fields s. destruct dd as [fv fp ci co ms tk cr ky kd pc].
  unfold setKey. unfold_methods. cbn.
  eexists. split; [reflexivity |]. cbn.
  repeat (split; [reflexivity |]).
  intros ->. reflexivity.
Qed.

Lemma setKey_reset_witness :
  exists s',
    setKey (Sample.env Sample.rotatingWriter) None true true true Sample.unchanged
      = Some (true, s') /\
    saveAs (Sample.env Sample.rotatingWriter) Sample.path Atomic None s'
      = Some ((false, Some "Could not save, database has not been initialized!"),
              s').
Proof.
  destruct (setKey_reset (Sample.env Sample.rotatingWriter) Sample.unchanged
              true true true)
    as (s' & Hrun & _ & _ & _ & _ & _ & _ & _ & _ & Hsave).
  exists s'. split; [exact Hrun |]. apply Hsave. reflexivity.
Defined.

(** The KDF [setKey] transforms under: the installed one, with a fresh seed
    when the salt is to be updated. *)
Lemma setKey_transform_run (E : Collaborators) (s : Sys) (k : CompositeKey)
    (updateChangedTime updateTransformSalt : bool) (b : bool) (s' : Sys) :
  setKey E (Some k) updateChangedTime updateTransformSalt true s = Some (b, s') ->
  let used :=
    if updateTransformSalt
    then fst (randomizeSeed (kdf (m_data (self s))) (random (proc s)))
    else kdf (m_data (self s)) in
  kdf (m_data (self s')) = used /\
  match transform E k used with
  | TransformFailed err =>
      b = false /\
      m_keyError (self s') = err /\
      key (m_data (self s')) = key (m_data (self s)) /\
      transformedDatabaseKey (m_data (self s'))
        = transformedDatabaseKey (m_data (self s)) /\
      m_metadata (self s') = m_metadata (self s) /\
      m_modified (self s') = m_modified (self s)
  | TransformOk out =>
      b = true /\
      m_keyError (self s') = "" /\
      key (m_data (self s')) = Some k /\
      rawKey (transformedDatabaseKey (m_data (self s')))
        = (if isNil out
           then rawKey (transformedDatabaseKey (m_data (self s)))
           else out) /\
      databaseKeyChanged (m_metadata (self s'))
        = (if updateChangedTime then clock (proc s)
           else databaseKeyChanged (m_metadata (self s)))
  end.
Proof.
  fields s. destruct dd as [fv fp ci co ms [tk] cr ky kd pc].
  unfold setKey. unfold_methods. cbn -[markAsModified].
  destruct updateTransformSalt; cbn -[markAsModified];
    (destruct ky as [c|]; [destruct (isEmpty c) |]); cbn -[markAsModified];
    (destruct (transform E k _) as [out|err]; cbn -[markAsModified];
     [destruct out |
      intros Hrun; inversion Hrun; subst; cbn; auto 10]);
    cbn -[markAsModified]; destruct updateChangedTime; cbn -[markAsModified];
    intros Hrun;
    match type of Hrun with
    | context [bool_decide ?P] => destruct (bool_decide_reflect P)
    end;
    cbn -[markAsModified] in Hrun; rewrite ?markAsModified_eq in Hrun;
    cbn in Hrun; inversion Hrun; subst; cbn; auto 10.
Qed.

(** X6. When the KDF fails, [setKey] returns false with the KDF's message in
    [keyError]; the installed key, the transformed key, the metadata and
    [modified] are as before.  The seed of the KDF has been replaced all the
    same when the salt was to be updated. *)
Theorem setKey_transform_failure (E : Collaborators) (s : Sys)
    (k : CompositeKey) (updateChangedTime updateTransformSalt : bool)
    (err : QString) :
  let used :=
    if updateTransformSalt
    then fst (randomizeSeed (kdf (m_data (self s))) (random (proc s)))
    else kdf (m_data (self s)) in
  transform E k used = TransformFailed err ->
  exists s',
    setKey E (Some k) updateChangedTime updateTransformSalt true s
      = Some (false, s') /\
    m_keyError (self s') = err /\
    key (m_data (self s')) = key (m_data (self s)) /\
    transformedDatabaseKey (m_data (self s'))
      = transformedDatabaseKey (m_data (self s)) /\
    m_metadata (self s') = m_metadata (self s) /\
    m_modified (self s') = m_modified (self s) /\
    kdf (m_data (self s')) = used.
Proof.
  intros used Hfail.
  assert (Hret : exists b s', setKey E (Some k) updateChangedTime
                                updateTransformSalt true s = Some (b, s')).
  { revert Hfail. subst used. fields s.
    destruct dd as [fv fp ci co ms [tk] cr ky kd pc].
    unfold setKey. unfold_methods. cbn -[markAsModified].
    destruct updateTransformSalt; cbn -[markAsModified]; intros ->;
      cbn; eauto. }
  destruct Hret as (b & s' & Hrun).
  destruct (setKey_transform_run _ _ _ _ _ _ _ Hrun) as [Hkdf Hcase].
  fold used in Hkdf, Hcase. rewrite Hfail in Hcase.
  destruct Hcase as (-> & He & Hk & Ht & Hm & Hmod).
  exists s'. auto 10.
Qed.

(** X7. A [setKey] that runs the KDF and succeeds installs the key and, as the
    transformed key, the KDF's output under the installed KDF, except that
    an empty output leaves the previous transformed key in place; the time
    of the key change is the current time exactly when it was asked for. *)
Theorem setKey_transform_success (E : Collaborators) (s : Sys)
    (k : CompositeKey) (updateChangedTime updateTransformSalt : bool)
    (s' : Sys) :
  setKey E (Some k) updateChangedTime updateTransformSalt true s
    = Some (true, s') ->
  exists out,
    transform E k (kdf (m_data (self s'))) = TransformOk out /\
    key (m_data (self s')) = Some k /\
    rawKey (transformedDatabaseKey (m_data (self s')))
      = (if isNil out
         then rawKey (transformedDatabaseKey (m_data (self s)))
         else out) /\
    databaseKeyChanged (m_metadata (self s'))
      = (if updateChangedTime then clock (proc s)
         else databaseKeyChanged (m_metadata (self s))) /\
    (updateTransformSalt = true ->
     length (kdf_seed (kdf (m_data (self s'))))
       = length (kdf_seed (kdf (m_data (self s)))) /\
     kdf_uuid (kdf (m_data (self s'))) = kdf_uuid (kdf (m_data (self s)))) /\
    (updateTransformSalt = false ->
     kdf (m_data (self s')) = kdf (m_data (self s))).
Proof.
  intros Hrun.
  destruct (setKey_transform_run _ _ _ _ _ _ _ Hrun) as [Hkdf Hcase].
  cbn zeta in Hkdf, Hcase. rewrite <- Hkdf in Hcase.
  destruct (transform E k (kdf (m_data (self s')))) as [out|err].
  - destruct Hcase as (_ & _ & Hk & Ht & Hc).
    exists out. split; [reflexivity |]. split; [exact Hk |].
    split; [exact Ht |]. split; [exact Hc |].
    split; intros ->; rewrite Hkdf.
    + destruct (randomizeSeed_parameters (kdf (m_data (self s))) (random (proc s)))
        as (Hu & _ & Hl). auto.
    + reflexivity.
  - destruct Hcase as [Hb _]. discriminate.
Qed.

Lemma setKey_transform_success_witness :
  exists s',
    setKey (Sample.env Sample.rotatingWriter) (Some Sample.password)
      true false true Sample.pristine = Some (true, s') /\
    rawKey (transformedDatabaseKey (m_data (self s')))
      = [x61; x62; x63; x00; x00] /\
    databaseKeyChanged (m_metadata (self s')) = 1700000000%Z.
Proof.
  assert (Hrun : exists s',
             setKey (Sample.env Sample.rotatingWriter) (Some Sample.password)
               true false true Sample.pristine = Some (true, s'))
    by (eexists; vm_compute; reflexivity).
  destruct Hrun as [s' Hrun]. exists s'. split; [exact Hrun |].
  destruct (setKey_transform_success _ _ _ _ _ _ Hrun)
    as (out & Ht & _ & Hraw & Hc & _ & Hsame).
  rewrite (Hsame eq_refl) in Ht. cbn in Ht. inversion Ht; subst out.
  split; [exact Hraw | exact Hc].
Defined.

(** X8. When the KDF fails, [changeKdf] returns false and installs nothing:
    the transformed key, the format version and [modified] are as before,
    and a database without key has been given an empty composite key all
    the same.  The object passed has had its seed randomized in place
    before the attempt: when it is another object than the database's, the
    database's KDF is as before; when it is the database's own KDF, that
    KDF keeps the new seed (its UUID, rounds and seed length are as
    before). *)
Theorem changeKdf_failure (E : Collaborators) (s : Sys) (ptr : KdfPtr)
    (err : QString) :
  let k := pointee ptr (m_data (self s)) in
  let fresh := fst (randomizeSeed k (random (proc s))) in
  let ck := default CompositeKey_create (key (m_data (self s))) in
  transform E ck fresh = TransformFailed err ->
  exists s',
    changeKdf E ptr s = Some (false, s') /\
    kdf (m_data (self s'))
      = match ptr with
        | installedKdf => fresh
        | distinctKdf _ => kdf (m_data (self s))
        end /\
    kdf_uuid (kdf (m_data (self s'))) = kdf_uuid (kdf (m_data (self s))) /\
    kdf_rounds (kdf (m_data (self s'))) = kdf_rounds (kdf (m_data (self s))) /\
    length (kdf_seed (kdf (m_data (self s'))))
      = length (kdf_seed (kdf (m_data (self s)))) /\
    transformedDatabaseKey (m_data (self s'))
      = transformedDatabaseKey (m_data (self s)) /\
    formatVersion (m_data (self s')) = formatVersion (m_data (self s)) /\
    m_modified (self s') = m_modified (self s) /\
    key (m_data (self s')) = Some ck /\
    random (proc s') = snd (randomizeSeed k (random (proc s))).
Proof.
  fields s. destruct dd as [fv fp ci co ms tk cr ky kd pc].
  cbn. unfold changeKdf, randomizeSeedAt, setKdf. unfold_methods.
  destruct ptr as [|k]; cbn -[markAsModified];
    (destruct ky as [c|]; cbn -[markAsModified]; intros ->;
     eexists; (split; [reflexivity |]); cbn;
     try (pose proof (randomizeSeed_parameters kd (random p)) as (Hu & Hr & Hl));
     auto 12).
Qed.

Lemma setKey_transform_failure_witness :
  exists s',
    setKey Fixtures.strained (Some Sample.password) true true true Sample.unchanged
      = Some (false, s') /\
    m_keyError (self s') = "Out of memory" /\
    key (m_data (self s')) = Some Sample.password /\
    m_modified (self s') = true.
Proof.
  destruct (setKey_transform_failure Fixtures.strained Sample.unchanged
              Sample.password true true "Out of memory" eq_refl)
    as (s' & Hrun & Herr & Hkey & _ & _ & Hmod & _).
  exists s'. split; [exact Hrun |]. split; [exact Herr |].
  split; [exact Hkey | exact Hmod].
Defined.

Lemma changeKdf_failure_witness :
  (exists s',
     changeKdf Fixtures.strained (distinctKdf Sample.argon2) Sample.pristine
       = Some (false, s') /\
     kdf (m_data (self s')) = Sample.aesKdf /\
     m_modified (self s') = false) /\
  (exists s',
     changeKdf Fixtures.strained installedKdf Sample.pristine = Some (false, s') /\
     kdf (m_data (self s'))
       = {| kdf_uuid := 1%N; kdf_rounds := 100000; kdf_seed := [x03; x0a] |} /\
     m_modified (self s') = false).
Proof.
  split.
  - destruct (changeKdf_failure Fixtures.strained Sample.pristine
                (distinctKdf Sample.argon2) "Out of memory" eq_refl)
      as (s' & Hrun & Hkdf & _ & _ & _ & _ & _ & Hmod & _).
    exists s'. split; [exact Hrun |]. split; [exact Hkdf | exact Hmod].
  - destruct (changeKdf_failure Fixtures.strained Sample.pristine installedKdf
                "Out of memory" eq_refl)
      as (s' & Hrun & Hkdf & _ & _ & _ & _ & _ & Hmod & _).
    exists s'. split; [exact Hrun |]. split; [exact Hkdf | exact Hmod].
Defined.

(** ** Challenge-response *)

(** X9. [challengeMasterSeed] on a database without key returns false and only
    clears [keyError].  With a key it stores the seed as master seed whatever
    the token answers, returns the token's verdict and keeps the token's
    error; after a successful challenge the challenge-response key is the
    response exactly, empty when there is none, and after a failed one it is
    the previous key.  It changes neither the composite key, the transformed
    key nor [modified]. *)
Theorem challengeMasterSeed_effect
    (challenge : CompositeKey -> QByteArray -> ChallengeResult)
    (s : Sys) (seed : QByteArray) :
  match key (m_data (self s)) with
  | None =>
      challengeMasterSeed challenge seed s
      = Some (false, set_self (set_m_keyError "" (self s)) s)
  | Some ck =>
      let answer := challenge ck seed in
      exists s',
        challengeMasterSeed challenge seed s = Some (ch_ok answer, s') /\
        rawKey (masterSeed (m_data (self s'))) = seed /\
        rawKey (challengeResponseKey (m_data (self s')))
          = (if ch_ok answer then ch_response answer
             else rawKey (challengeResponseKey (m_data (self s)))) /\
        m_keyError (self s') = default "" (ch_error answer) /\
        key (m_data (self s')) = Some ck /\
        transformedDatabaseKey (m_data (self s'))
          = transformedDatabaseKey (m_data (self s)) /\
        m_modified (self s') = m_modified (self s)
  end.
Proof.
  fields s. destruct dd as [fv fp ci co ms tk [cr] ky kd pc].
  unfold challengeMasterSeed. unfold_methods. cbn.
  destruct ky as [ck|]; cbn; [| reflexivity].
  destruct (challenge ck seed) as [ok response err]. cbn.
  destruct err as [e|], ok, response as [|b response]; cbn;
    eexists; (split; [reflexivity |]); cbn; auto 10.
Qed.

(** ** Public UUID *)

Lemma to_N_byteOfN (n : N) : Byte.to_N (byteOfN n) = (n mod 256)%N.
Proof.
  unfold byteOfN. destruct (Byte.of_N (n mod 256)) as [b|] eqn:Hb; cbn.
  - apply Byte.to_of_N. exact Hb.
  - apply Byte.of_N_None_iff in Hb.
    pose proof (N.mod_lt n 256 ltac:(discriminate)). lia.
Qed.

Lemma length_bytesBE (n : nat) (u : N) : length (bytesBE n u) = n.
Proof. induction n as [|n IH]; cbn [bytesBE length]; [reflexivity | now rewrite IH]. Qed.

Lemma fold_bytesBE (n : nat) (u acc : N) :
  fold_left (fun a x => (a * 256 + Byte.to_N x)%N) (bytesBE n u) acc
  = (acc * 256 ^ N.of_nat n + u mod 256 ^ N.of_nat n)%N.
Proof.
  revert acc. induction n as [|n IH]; intros acc.
  - cbn [bytesBE fold_left]. change (N.of_nat 0) with 0%N.
    rewrite N.pow_0_r, N.mod_1_r. lia.
  - cbn [bytesBE fold_left]. rewrite IH, to_N_byteOfN.
    rewrite Nat2N.inj_succ, N.pow_succ_r'.
    rewrite (N.mul_comm 256 (256 ^ N.of_nat n)).
    rewrite (N.Div0.mod_mul_r u (256 ^ N.of_nat n) 256). lia.
Qed.

(** The sixteen bytes of a UUID give the UUID back. *)
Lemma fromRfc4122_toRfc4122 (u : QUuid) :
  (u < 2 ^ 128)%N -> fromRfc4122 (toRfc4122 u) = u.
Proof.
  intros Hu. unfold fromRfc4122, toRfc4122, fromBytesBE.
  rewrite length_bytesBE, Nat.eqb_refl, fold_bytesBE.
  change (256 ^ N.of_nat 16)%N with (2 ^ 128)%N.
  rewrite N.mod_small by exact Hu. lia.
Qed.

Lemma createUuid_range (r : Random) : (fst (createUuid r) < 2 ^ 128)%N.
Proof.
  unfold createUuid, draw. cbn [fst].
  pose proof (N.mod_lt (entropy r (cursor r)) (2 ^ 128 - 1)) as H.
  assert (Hpos : (2 ^ 128 - 1 <> 0)%N) by (vm_compute; discriminate).
  specialize (H Hpos).
  set (m := (entropy r (cursor r) mod (2 ^ 128 - 1))%N) in *. clearbody m.
  assert (H128 : (2 ^ 128 - 1 + 1 = 2 ^ 128)%N) by (vm_compute; reflexivity).
  set (c := (2 ^ 128 - 1)%N) in *. set (d := (2 ^ 128)%N) in *.
  clearbody c d. lia.
Qed.

#[local] Arguments fromRfc4122 : simpl never.
#[local] Arguments toRfc4122 : simpl never.

(** X10. [publicUuid] is stable: a second call returns the UUID of the first and
    changes nothing.  Below format version 4 the call changes nothing at
    all and the UUID is derived from the path alone.  From version 4 on, a
    database without [KPXC_PUBLIC_UUID] in its public custom data gets a
    fresh UUID that is not null, stored as its sixteen bytes, is returned
    that very UUID and is marked modified; a database that has the key is
    returned the stored UUID and is not touched. *)
Theorem publicUuid_stable (FILE_VERSION_4 : Z)
    (sha256 : QByteArray -> QByteArray) (toUtf8 : QString -> QByteArray)
    (s : Sys) :
  exists u s1,
    publicUuid FILE_VERSION_4 sha256 toUtf8 s = Some (u, s1) /\
    publicUuid FILE_VERSION_4 sha256 toUtf8 s1 = Some (u, s1) /\
    ((formatVersion (m_data (self s)) < FILE_VERSION_4)%Z ->
       s1 = s /\
       u = fromRfc4122 (firstn 16 (sha256 (toUtf8 (filePath (m_data (self s))))))) /\
    ((FILE_VERSION_4 <= formatVersion (m_data (self s)))%Z ->
       match publicCustomData (m_data (self s)) !! KPXC_PUBLIC_UUID with
       | Some stored => s1 = s /\ u = fromRfc4122 stored
       | None =>
           u = fst (createUuid (random (proc s))) /\
           u <> 0%N /\
           publicCustomData (m_data (self s1)) !! KPXC_PUBLIC_UUID
             = Some (toRfc4122 u) /\
           m_modified (self s1) = true
       end).
Proof.
  fields s. destruct dd as [fv fp ci co ms tk cr ky kd pc].
  unfold publicUuid, KPXC_PUBLIC_UUID. unfold_methods.
  cbn -[lookup insert markAsModified].
  destruct (Z.ltb_spec fv FILE_VERSION_4) as [Hlt | Hge];
    cbn -[lookup insert markAsModified].
  - eexists _, _. split; [reflexivity |]. cbn -[lookup insert markAsModified].
    destruct (Z.ltb_spec fv FILE_VERSION_4) as [_ | Hge]; [| lia].
    split; [reflexivity |]. split; [auto | lia].
  - destruct (pc !! "KPXC_PUBLIC_UUID") as [stored|] eqn:Hpc;
      cbn -[lookup insert markAsModified].
    + eexists _, _. split; [reflexivity |].
      cbn -[lookup insert markAsModified].
      destruct (Z.ltb_spec fv FILE_VERSION_4) as [Hlt | _]; [lia |].
      cbn [self m_data publicCustomData]. rewrite Hpc.
      cbn -[lookup insert markAsModified].
      cbn [self m_data publicCustomData]. rewrite Hpc.
      split; [reflexivity |]. split; [lia | auto].
    + rewrite markAsModified_eq. cbn -[lookup insert].
      cbn [self m_data publicCustomData].
      rewrite lookup_insert_eq. eexists _, _. split; [reflexivity |].
      unfold_methods. cbn -[lookup insert].
      destruct (Z.ltb_spec fv FILE_VERSION_4) as [Hlt | _]; [lia |].
      cbn [self m_data publicCustomData]. rewrite lookup_insert_eq.
      cbn -[lookup insert]. cbn [self m_data publicCustomData].
      rewrite lookup_insert_eq.
      split; [reflexivity |]. split; [lia |]. intros _.
      rewrite fromRfc4122_toRfc4122 by apply createUuid_range.
      split; [reflexivity |]. split; [apply createUuid_not_null |].
      split; reflexivity.
Qed.

Lemma publicUuid_stable_witness :
  exists u s1,
    publicUuid Fixtures.FILE_VERSION_4 Fixtures.hash32 Fixtures.latin1
      Sample.pristine = Some (u, s1) /\
    publicUuid Fixtures.FILE_VERSION_4 Fixtures.hash32 Fixtures.latin1 s1
      = Some (u, s1) /\
    u <> 0%N /\
    m_modified (self s1) = true.
Proof.
  destruct (publicUuid_stable Fixtures.FILE_VERSION_4 Fixtures.hash32
              Fixtures.latin1 Sample.pristine)
    as (u & s1 & Hfirst & Hagain & _ & Hv4).
  assert (Hver : (Fixtures.FILE_VERSION_4
                  <= formatVersion (m_data (self Sample.pristine)))%Z)
    by (vm_compute; discriminate).
  specialize (Hv4 Hver).
  assert (Hpc : publicCustomData (m_data (self Sample.pristine)) !! KPXC_PUBLIC_UUID
                = None) by (vm_compute; reflexivity).
  rewrite Hpc in Hv4. destruct Hv4 as (_ & Hnz & _ & Hmod).
  exists u, s1. auto.
Defined.

(** ** Saving: refusals *)

(** X11. The guards of [save] and [saveAs] refuse without touching anything: a
    [save] on an unbound database, a [saveAs] while a save is in progress,
    and a [saveAs] on a database that is not initialized each return false
    with their own message and the state they found. *)
Theorem save_refusals (E : Collaborators) (s : Sys) (path : QString)
    (action : SaveAction) (backupFilePath : option QString) :
  (filePath (m_data (self s)) = "" ->
   save E action backupFilePath s
   = Some ((false, Some "Could not save, database does not point to a valid file."),
           s)) /\
  (filePath (m_data (self s)) <> "" ->
   save E action backupFilePath s
   = saveAs E (filePath (m_data (self s))) action backupFilePath s) /\
  (m_saveMutex (self s) = true ->
   saveAs E path action backupFilePath s
   = Some ((false, Some "Database save is already in progress."), s)) /\
  (m_saveMutex (self s) = false -> isInitialized (self s) = false ->
   saveAs E path action backupFilePath s
   = Some ((false, Some "Could not save, database has not been initialized!"),
           s)).
Proof.
  unfold save, saveAs, isSaving, getData, getDb, gets.
  split; [| split; [| split]].
  - intros H. unfold bind. rewrite H. reflexivity.
  - intros H. unfold bind at 1.
    destruct (String.eqb_spec (filePath (m_data (self s))) "") as [Heq | _];
      [contradiction | reflexivity].
  - intros H. unfold bind. rewrite H. reflexivity.
  - intros H1 H2. unfold bind. rewrite H1, H2. reflexivity.
Qed.

Lemma externalChangeCheck_skips (E : Collaborators) (path : QString) (s : Sys) :
  m_ignoreFileChangesUntilSaved (self s) = true \/
  m_fileBlockHash (self s) = [] \/
  path <> filePath (m_data (self s)) ->
  externalChangeCheck E path s = Some (None, s).
Proof.
  fields s. destruct dd as [fv fp ci co ms tk cr ky kd pc].
  unfold externalChangeCheck. unfold_methods. cbn -[lookup].
  intros [H | [H | H]]; cbn in H.
  - subst ig. reflexivity.
  - subst hash. destruct ig; reflexivity.
  - destruct (String.eqb_spec path fp) as [Heq | _]; [contradiction |].
    rewrite andb_false_r. reflexivity.
Qed.

(** X12. The external-change check is read-only apart from the signal it posts,
    and it refuses only a save to the bound path of a database that has a
    sentinel, is not told to ignore file changes, and whose file exists.  In
    particular it lets every save pass when [ignoreFileChangesUntilSaved] is
    set, when there is no sentinel, and when the target is another path. *)
Theorem externalChangeCheck_refuses_only (E : Collaborators) (path : QString)
    (s : Sys) :
  (forall err s', externalChangeCheck E path s = Some (Some err, s') ->
     m_ignoreFileChangesUntilSaved (self s) = false /\
     m_fileBlockHash (self s) <> [] /\
     path = filePath (m_data (self s)) /\
     is_Some (disk (proc s) !! path) /\
     proc s' = proc s /\
     m_data (self s') = m_data (self s) /\
     m_fileBlockHash (self s') = m_fileBlockHash (self s) /\
     m_modified (self s') = m_modified (self s)) /\
  (m_ignoreFileChangesUntilSaved (self s) = true \/
   m_fileBlockHash (self s) = [] \/
   path <> filePath (m_data (self s)) ->
   externalChangeCheck E path s = Some (None, s)).
Proof.
  split; [| apply externalChangeCheck_skips].
  fields s. destruct dd as [fv fp ci co ms tk cr ky kd pc].
  unfold externalChangeCheck. unfold_methods. cbn -[lookup].
  intros err s'. destruct ig; cbn -[lookup]; [discriminate |].
    destruct hash as [|b hash]; cbn -[lookup]; [discriminate |].
    destruct (String.eqb_spec path fp) as [-> | Hne];
      cbn -[lookup]; [| discriminate].
    destruct (disk p !! fp) as [f|] eqn:Hf; cbn -[lookup]; [| discriminate].
    repeat (branch; cbn -[lookup]); intros H; inversion H; subst;
      cbn -[lookup];
      (split; [reflexivity |]); (split; [discriminate |]);
      (split; [reflexivity |]); (split; [eauto |]); auto 10.
Qed.


Lemma save_refusals_witness :
  saveAs (Sample.env Sample.rotatingWriter) Sample.path Atomic None Fixtures.busy
  = Some ((false, Some "Database save is already in progress."), Fixtures.busy).
Proof.
  destruct (save_refusals (Sample.env Sample.rotatingWriter) Fixtures.busy
              Sample.path Atomic None) as (_ & _ & Hbusy & _).
  apply Hbusy. reflexivity.
Defined.

Lemma externalChangeCheck_refuses_only_witness :
  (exists err s',
     externalChangeCheck (Sample.env Sample.rotatingWriter) Sample.path
       Sample.rewritten = Some (Some err, s') /\
     proc s' = proc Sample.rewritten /\
     m_modified (self s') = true) /\
  externalChangeCheck (Sample.env Sample.rotatingWriter) "/tmp/b.kdbx"
    Sample.rewritten = Some (None, Sample.rewritten).
Proof.
  destruct (externalChangeCheck_refuses_only (Sample.env Sample.rotatingWriter)
              Sample.path Sample.rewritten) as [Honly _].
  destruct (externalChangeCheck_refuses_only (Sample.env Sample.rotatingWriter)
              "/tmp/b.kdbx" Sample.rewritten) as [_ Hskip].
  split.
  - assert (Hrun : exists err s',
               externalChangeCheck (Sample.env Sample.rotatingWriter) Sample.path
                 Sample.rewritten = Some (Some err, s'))
      by (eexists; eexists; vm_compute; reflexivity).
    destruct Hrun as (err & s' & Hrun).
    destruct (Honly err s' Hrun) as (_ & _ & _ & _ & Hproc & _ & _ & Hmod).
    exists err, s'. split; [exact Hrun |]. split; [exact Hproc | exact Hmod].
  - apply Hskip. right. right. discriminate.
Defined.

(** ** Saving: what the write does to the file and to the sentinel *)

Lemma writeDatabase_frame (E : Collaborators) (s : Sys)
    (w : Verdict * QByteArray) (s' : Sys) :
  writeDatabase E s = Some (w, s') ->
  m_fileBlockHash (self s') = m_fileBlockHash (self s) /\
  disk (proc s') = disk (proc s) /\
  io (proc s') = io (proc s) /\
  (fst (fst w) = true -> snd (fst w) = None).
Proof.
  fields s. unfold writeDatabase, applyWriter. unfold_methods.
  cbn -[markAsModified].
  destruct (key dd) as [ck|]; [| discriminate]. cbn -[markAsModified].
  destruct em; cbn -[markAsModified];
    match goal with
    | |- context [KeePass2Writer_writeDatabase E ?d ?r] =>
        destruct (KeePass2Writer_writeDatabase E d r) as [out err wd wm wr]
    end;
    cbn -[markAsModified];
    destruct wm; cbn -[markAsModified]; rewrite ?markAsModified_eq; cbn;
    destruct err as [e|]; cbn;
    try (destruct (isNil _ || bool_decide _); cbn);
    intros H; inversion H; subst; cbn; repeat split; auto; discriminate.
Qed.

Ltac through_write E :=
  match goal with
  | |- context [writeDatabase E ?st] =>
      let Hw := fresh "Hw" in
      destruct (writeDatabase E st) as [[[[ok e] out] s2]|] eqn:Hw;
      [| discriminate];
      let Hh := fresh "Hh" in
      let Hd := fresh "Hd" in
      let Hi := fresh "Hi" in
      let He := fresh "He" in
      destruct (writeDatabase_frame _ _ _ _ Hw) as (Hh & Hd & Hi & He);
      clear Hw;
      destruct s2 as [[md2 dd2 rg2 fw2 u2 mo2 hn2 em2 tm2 mx2 hash2 ig2 ke2
                         del2 cu2 tl2 tmp2 sg2] a2 [reg2 dk2 rnd2 clk2 io2]];
      cbn in Hh, Hd, Hi, He; subst hash2 dk2 io2
  end.

Ltac branch_inner :=
  match goal with
  | |- context [if ?b then _ else _] =>
      lazymatch b with
      | context [if _ then _ else _] => fail
      | context [match _ with Some _ => _ | None => _ end] => fail
      | _ => destruct b eqn:?
      end
  | |- context [match ?x with Some _ => _ | None => _ end] =>
      lazymatch x with
      | context [if _ then _ else _] => fail
      | context [match _ with Some _ => _ | None => _ end] => fail
      | _ => destruct x eqn:?
      end
  end.

(** The backup that precedes the write touches neither the object nor what
    the system answers, and nothing at all when no backup is asked for. *)
Lemma performSave_backup (path : QString) (backupFilePath : option QString)
    (s : Sys) :
  exists s1,
    (match backupFilePath with
     | Some b => backupDatabase path b ;; ret tt
     | None => ret tt
     end)%method s = Some (tt, s1) /\
    self s1 = self s /\ io (proc s1) = io (proc s) /\
    random (proc s1) = random (proc s) /\
    (backupFilePath = None -> s1 = s).
Proof.
  destruct s as [d a [reg dk rnd clk o]].
  destruct backupFilePath as [b|]; [| eexists; repeat split; reflexivity].
  unfold backupDatabase, QFile_copy, QFile_setPermissions, QFile_remove,
    QFile_permissions, QFile_exists.
  unfold_methods. cbn -[lookup insert delete alter].
  repeat (branch_inner; cbn -[lookup insert delete alter]);
    eexists; (split; [reflexivity |]); cbn; repeat split; discriminate.
Qed.

Ltac performSave_cases E :=
  cbn -[writeDatabase lookup insert delete alter];
  repeat first
    [ through_write E
    | progress cbn -[writeDatabase lookup insert delete alter]
    | branch_inner ].

(** A successful [performSave] leaves at the target a file whose first
    bytes the sentinel is taken from.  Without a backup, the file has the
    permissions of the file it replaces; where there was none, it has the
    permissions of a new file, except that the temporary-file strategy
    leaves it with none. *)
Lemma performSave_written (E : Collaborators) (path : QString)
    (action : SaveAction) (backupFilePath : option QString)
    (s : Sys) (r : Verdict) (s' : Sys) :
  performSave E path action backupFilePath s = Some (r, s') ->
  fst r = true ->
  snd r = None /\
  exists f, disk (proc s') !! path = Some f /\
    f_fault f = io_readFault (io (proc s)) /\
    m_fileBlockHash (self s')
      = md5 E (firstn (kFileBlockToHashSizeBytes E) (f_data f)) /\
    (backupFilePath = None ->
     f_permissions f
     = match disk (proc s) !! path with
       | Some old => f_permissions old
       | None =>
           match action with
           | TempFile => 0%N
           | _ => io_newFilePermissions (io (proc s))
           end
       end).
Proof.
  unfold performSave. unfold bind at 1.
  destruct (performSave_backup path backupFilePath s)
    as (s1 & -> & _ & Hio & _ & Hnone).
  assert (Hdisk : backupFilePath = None -> disk (proc s1) = disk (proc s))
    by (intros Hb; rewrite (Hnone Hb); reflexivity).
  rewrite <- Hio. clear Hio Hnone.
  generalize dependent (disk (proc s)). intros dk0 Hdisk.
  destruct s1 as [d a [reg dk rnd clk [ow ho cm rn bd cp np es tn rf]]].
  destruct d as [md dd rg fw u mo hn em tm mx hash ig ke del cu tl tmp sg].
  cbn in Hdisk.
  unfold restoreDatabase, QFile_copy, QFile_setPermissions, QFile_remove,
    QFile_permissions, QFile_exists, storeFile, hashingResult.
  unfold_methods.
  destruct action; performSave_cases E;
    intros H; inversion H; subst; cbn -[lookup insert delete alter];
    intros Hr; try discriminate Hr.
  all: split; [auto |].
  all: eexists; split;
         [first [apply lookup_insert_eq
                | rewrite lookup_alter_eq, lookup_insert_eq; reflexivity]
         | cbn -[lookup insert delete alter]].
  all: split; [reflexivity |]; split; [reflexivity |].
  all: intros Hb; pose proof (Hdisk Hb) as Hdk; subst dk0.
  all: repeat match goal with
         | H : <[_:=_]> _ !! _ = _ |- _ => rewrite lookup_insert_eq in H
         end.
  all: try congruence.
  all: simplify_eq; cbn; congruence.
Qed.

(** X13. A successful [performSave] stores no error and has left at the target
    the file the sentinel is taken from: the sentinel is the MD5 of the
    first [kFileBlockToHashSizeBytes] bytes of that file.  Whether later
    reads of the file are cut short is the system's answer.  Without a
    backup, the file has the permissions of the file it replaces; where
    there was none, it has the permissions of a new file, except that the
    temporary-file strategy leaves it without any permission, so that it
    does not open for reading.  A failed [performSave] leaves the sentinel
    as it was, and, with the atomic strategy and no backup, the disk as
    well. *)
Theorem performSave_sentinel (E : Collaborators) (path : QString)
    (action : SaveAction) (backupFilePath : option QString)
    (s : Sys) (r : Verdict) (s' : Sys) :
  performSave E path action backupFilePath s = Some (r, s') ->
  (fst r = true ->
     snd r = None /\
     exists f, disk (proc s') !! path = Some f /\
       f_fault f = io_readFault (io (proc s)) /\
       m_fileBlockHash (self s')
         = md5 E (firstn (kFileBlockToHashSizeBytes E) (f_data f)) /\
       (backupFilePath = None ->
        f_permissions f
        = match disk (proc s) !! path with
          | Some old => f_permissions old
          | None =>
              match action with
              | TempFile => 0%N
              | _ => io_newFilePermissions (io (proc s))
              end
          end) /\
       (backupFilePath = None -> action = TempFile ->
        disk (proc s) !! path = None -> f_readable f = false)) /\
  (fst r = false ->
     m_fileBlockHash (self s') = m_fileBlockHash (self s) /\
     (action = Atomic -> backupFilePath = None ->
      disk (proc s') = disk (proc s))).
Proof.
  intros Hrun. split.
  { intros Hr.
    destruct (performSave_written E _ _ _ _ _ _ Hrun Hr)
      as (He & f & Hf & Hfault & Hhash & Hperms).
    split; [exact He |]. exists f. repeat (split; [assumption |]).
    intros Hb -> Hnew. specialize (Hperms Hb). rewrite Hnew in Hperms.
    unfold f_readable. rewrite Hperms. reflexivity. }
  revert Hrun. unfold performSave. unfold bind at 1.
  destruct (performSave_backup path backupFilePath s)
    as (s1 & -> & Hself & Hio & _ & Hnone).
  assert (Hdisk : action = Atomic -> backupFilePath = None ->
                  disk (proc s1) = disk (proc s))
    by (intros _ Hb; rewrite (Hnone Hb); reflexivity).
  rewrite <- Hself. clear Hself Hio Hnone.
  generalize dependent (disk (proc s)). intros dk0 Hdisk.
  destruct s1 as [d a [reg dk rnd clk [ow ho cm rn bd cp np es tn rf]]].
  destruct d as [md dd rg fw u mo hn em tm mx hash ig ke del cu tl tmp sg].
  cbn in Hdisk.
  unfold restoreDatabase, QFile_copy, QFile_setPermissions, QFile_remove,
    QFile_permissions, QFile_exists, storeFile, hashingResult.
  unfold_methods.
  destruct action; performSave_cases E;
    intros H; inversion H; subst; cbn -[lookup insert delete alter];
    intros Hr; try discriminate Hr.
  all: split; [reflexivity |].
  all: intros Ha Hb; first [discriminate Ha | exact (Hdisk Ha Hb)].
Qed.

Lemma performSave_sentinel_witness :
  (exists s' f,
     performSave (Sample.env Sample.rotatingWriter) Sample.path Atomic None
       Sample.unchanged = Some ((true, None), s') /\
     disk (proc s') !! Sample.path = Some f /\
     m_fileBlockHash (self s') = Sample.digest (firstn 4 (f_data f)) /\
     f_readable f = true) /\
  (exists s' f,
     performSave (Sample.env Sample.rotatingWriter) Sample.path TempFile None
       Sample.gone = Some ((true, None), s') /\
     disk (proc s') !! Sample.path = Some f /\
     m_fileBlockHash (self s') = Sample.digest (firstn 4 (f_data f)) /\
     f_readable f = false).
Proof.
  split.
  - assert (Hrun : exists s',
               performSave (Sample.env Sample.rotatingWriter) Sample.path Atomic
                 None Sample.unchanged = Some ((true, None), s'))
      by (eexists; vm_compute; reflexivity).
    destruct Hrun as (s' & Hrun).
    destruct (performSave_sentinel _ _ _ _ _ _ _ Hrun) as [Hok _].
    destruct (Hok eq_refl) as (_ & f & Hf & _ & Hhash & Hperms & _).
    exists s', f. split; [exact Hrun |]. split; [exact Hf |].
    split; [exact Hhash |].
    unfold f_readable. rewrite (Hperms eq_refl). vm_compute. reflexivity.
  - assert (Hrun : exists s',
               performSave (Sample.env Sample.rotatingWriter) Sample.path TempFile
                 None Sample.gone = Some ((true, None), s'))
      by (eexists; vm_compute; reflexivity).
    destruct Hrun as (s' & Hrun).
    destruct (performSave_sentinel _ _ _ _ _ _ _ Hrun) as [Hok _].
    destruct (Hok eq_refl) as (_ & f & Hf & _ & Hhash & _ & Hblind).
    exists s', f. split; [exact Hrun |]. split; [exact Hf |].
    split; [exact Hhash |]. apply Hblind; reflexivity.
Defined.

(** ** Saving: after the save *)

Lemma saveAs_write_result (E : Collaborators) (path : QString)
    (action : SaveAction) (backupFilePath : option QString)
    (s : Sys) (r : Verdict) (s' : Sys) :
  saveAs_write E path action backupFilePath s = Some (r, s') ->
  let realFilePath :=
    if match disk (proc s) !! path with Some _ => true | None => false end
    then canonicalFilePathOf E path else absoluteFilePathOf E path in
  m_saveMutex (self s') = false /\
  (fst r = true ->
     filePath (m_data (self s')) = path /\
     m_ignoreFileChangesUntilSaved (self s') = false /\
     exists f, disk (proc s') !! realFilePath = Some f /\
       f_fault f = io_readFault (io (proc s)) /\
       m_fileBlockHash (self s')
         = md5 E (firstn (kFileBlockToHashSizeBytes E) (f_data f)) /\
       (disk (proc s) !! realFilePath = None ->
        f_permissions f = ownerReadWrite) /\
       (backupFilePath = None ->
        forall old, disk (proc s) !! realFilePath = Some old ->
                    f_permissions f = f_permissions old)).
Proof.
  unfold saveAs_write, QFile_exists, setFilePath, QFile_setPermissions.
  unfold_methods.
  destruct s as [d a [reg dk rnd clk o]].
  destruct d as [md dd rg fw u mo hn em tm mx hash ig ke del cu tl tmp sg].
  cbn -[performSave lookup alter markAsModified].
  set (realFilePath :=
         if match dk !! path with Some _ => true | None => false end
         then canonicalFilePathOf E path else absoluteFilePathOf E path).
  destruct (performSave E realFilePath action backupFilePath _)
    as [[[ok e] s2]|] eqn:Hp; [| discriminate].
  pose proof (performSave_written _ _ _ _ _ _ _ Hp) as Hok. clear Hp.
  destruct s2 as [[md2 dd2 rg2 fw2 u2 mo2 hn2 em2 tm2 mx2 hash2 ig2 ke2
                     del2 cu2 tl2 tmp2 sg2] a2 [reg2 dk2 rnd2 clk2 o2]].
  cbn -[lookup alter markAsModified] in Hok |- *.
  destruct ok; cbn -[lookup alter markAsModified].
  - destruct (Hok eq_refl) as (_ & f & Hf & Hfault & Hhash & Hperms). clear Hok.
    destruct dd2 as [fv fp ci co ms tk cr ky kd pc].
    cbn -[lookup alter markAsModified].
    destruct (String.eqb path fp) eqn:Hpath; cbn -[lookup alter];
      [apply String.eqb_eq in Hpath; subst fp |];
      destruct mo2; cbn -[lookup alter];
      try (destruct rg2; cbn -[lookup alter]; [| discriminate]);
      destruct (dk !! realFilePath) as [old0|] eqn:Hold; cbn -[lookup alter];
      intros H; inversion H; subst; cbn -[lookup alter];
      (split; [reflexivity |]); intros _;
      (split; [reflexivity |]); (split; [reflexivity |]);
      first [ exists f; rewrite Hf;
              (split; [reflexivity |]); (split; [exact Hfault |]);
              (split; [first [exact Hhash | reflexivity] |]); (split; [discriminate |]);
              intros Hb old Heq; inversion Heq; subst old; exact (Hperms Hb)
            | exists (withPermissions ownerReadWrite f);
              rewrite lookup_alter_eq, Hf;
              (split; [reflexivity |]); (split; [exact Hfault |]);
              (split; [first [exact Hhash | reflexivity] |]); (split; [reflexivity |]);
              intros Hb old Heq; discriminate Heq ].
  - rewrite markAsModified_eq. cbn.
    intros H; inversion H; subst; cbn. split; [reflexivity | discriminate].
Qed.

Lemma saveAs_prepare_proc (s s1 : Sys) :
  saveAs_prepare s = Some (tt, s1) ->
  disk (proc s1) = disk (proc s) /\ io (proc s1) = io (proc s).
Proof.
  fields s. unfold saveAs_prepare, CustomData_set. unfold_methods.
  cbn -[markAsModified lookup insert].
  destruct em; cbn -[markAsModified lookup insert];
    rewrite ?markAsModified_eq; cbn -[lookup insert];
    intros H; inversion H; split; reflexivity.
Qed.

(** X14. After a successful [saveAs] to a path that is its own canonical and
    absolute form, on a system where reads of the written file are not cut
    short, the database is bound to the path and the sentinel is the MD5 of
    the first [kFileBlockToHashSizeBytes] bytes of the file there.  A target
    that did not exist before has been given [ReadUser | WriteUser]; without
    a backup, a target that existed keeps its permissions.  The
    external-change check of the next save to that path never finds
    unmerged changes or a read error: it refuses nothing, unless the file
    does not open for reading (a target that existed and that the user may
    not read), in which case it refuses with the unable-to-open message. *)
Theorem saveAs_then_next_check (E : Collaborators) (path : QString)
    (action : SaveAction) (backupFilePath : option QString)
    (s : Sys) (r : Verdict) (s' : Sys) :
  canonicalFilePathOf E path = path ->
  absoluteFilePathOf E path = path ->
  io_readFault (io (proc s)) = None ->
  saveAs E path action backupFilePath s = Some (r, s') ->
  fst r = true ->
  filePath (m_data (self s')) = path /\
  exists f,
    disk (proc s') !! path = Some f /\
    m_fileBlockHash (self s')
      = md5 E (firstn (kFileBlockToHashSizeBytes E) (f_data f)) /\
    (disk (proc s) !! path = None -> f_permissions f = ownerReadWrite) /\
    (backupFilePath = None ->
     forall old, disk (proc s) !! path = Some old ->
                 f_permissions f = f_permissions old) /\
    externalChangeCheck E path s'
      = Some ((if f_readable f || isNil (m_fileBlockHash (self s')) then None
               else Some ("Unable to open file " ++ path ++ ".")), s') /\
    (disk (proc s) !! path = None ->
     externalChangeCheck E path s' = Some (None, s')).
Proof.
  intros Hcanon Habs Hnofault Hrun Hr.
  assert (Hw : exists s1, saveAs_write E path action backupFilePath s1
                          = Some (r, s') /\
                          disk (proc s1) = disk (proc s) /\
                          io (proc s1) = io (proc s)).
  { revert Hrun. unfold saveAs, isSaving, getDb, gets. unfold bind.
    destruct (m_saveMutex (self s));
      [intros H; inversion H; subst; discriminate |].
    destruct (negb (isInitialized (self s)));
      [intros H; inversion H; subst; discriminate |].
    destruct (externalChangeCheck E path s) as [[[err|] s0]|] eqn:Hc;
      [intros H; inversion H; subst; discriminate | | discriminate].
    pose proof (externalChangeCheck_pass _ _ _ _ Hc) as ->.
    destruct (saveAs_prepare s) as [[[] s1]|] eqn:Hprep; [| discriminate].
    intros H. exists s1. split; [exact H |].
    apply (saveAs_prepare_proc _ _ Hprep). }
  destruct Hw as (s1 & Hw & Hdisk & Hio).
  destruct (saveAs_write_result _ _ _ _ _ _ _ Hw) as [_ Hok].
  destruct (Hok Hr) as (Hpath & Hign & f & Hf & Hfault & Hhash & Hnew & Hold).
  clear Hok Hw Hrun.
  assert (Hreal : (if match disk (proc s1) !! path with
                      | Some _ => true | None => false end
                   then canonicalFilePathOf E path
                   else absoluteFilePathOf E path) = path)
    by (rewrite Hcanon, Habs; destruct (match _ with Some _ => _ | None => _ end);
        reflexivity).
  rewrite Hreal in Hf, Hnew, Hold. clear Hreal.
  rewrite Hdisk in Hnew, Hold. rewrite Hio, Hnofault in Hfault.
  split; [exact Hpath |]. exists f.
  split; [exact Hf |]. split; [exact Hhash |].
  split; [exact Hnew |]. split; [exact Hold |].
  assert (Hcheck : externalChangeCheck E path s'
                   = Some ((if f_readable f || isNil (m_fileBlockHash (self s'))
                            then None
                            else Some ("Unable to open file " ++ path ++ ".")),
                           s')).
  { destruct s' as [[md dd rg fw u mo hn em tm mx hash ig ke del cu tl tmp sg] a p].
    destruct dd as [fv fp ci co ms tk cr ky kd pc].
    cbn -[lookup f_readable] in *. subst fp ig hash.
    unfold externalChangeCheck. unfold_methods. cbn -[lookup f_readable].
    rewrite String.eqb_refl.
    destruct (md5 E _) as [|b h] eqn:Hmd5;
      [rewrite orb_true_r; reflexivity |].
    cbn -[lookup f_readable]. rewrite Hf. rewrite orb_false_r.
    destruct (f_readable f); cbn -[lookup]; [| reflexivity].
    unfold file_read, file_size. rewrite Hfault.
    destruct (Nat.eqb_spec
                (length (firstn (kFileBlockToHashSizeBytes E) (f_data f)))
                (kFileBlockToHashSizeBytes E)) as [Hlen | Hlen].
    - rewrite Hmd5. rewrite bool_decide_eq_true_2 by reflexivity. reflexivity.
    - rewrite length_firstn in Hlen.
      destruct (Nat.leb_spec (kFileBlockToHashSizeBytes E) (length (f_data f)));
        [lia | reflexivity]. }
  split; [exact Hcheck |].
  intros Hnone. rewrite Hcheck.
  unfold f_readable. rewrite (Hnew Hnone). reflexivity.
Qed.

Lemma releaseData_returns (s : Sys) :
  m_saveMutex (self s) = false -> exists s2, releaseData s = Some (tt, s2).
Proof.
  fields s. cbn. intros ->.
  unfold releaseData, isSaving, Metadata_clear, setRootGroup.
  unfold_methods. cbn.
  destruct mo, em; cbn -[lookup delete]; eexists; reflexivity.
Qed.

(** X15. A [saveAs] that returns never leaves the save mutex held when it found
    it free, so that [releaseData] completes after it. *)
Theorem saveAs_releases_mutex (E : Collaborators) (path : QString)
    (action : SaveAction) (backupFilePath : option QString)
    (s : Sys) (r : Verdict) (s' : Sys) :
  m_saveMutex (self s) = false ->
  saveAs E path action backupFilePath s = Some (r, s') ->
  m_saveMutex (self s') = false /\
  exists s2, releaseData s' = Some (tt, s2).
Proof.
  intros Hfree Hrun.
  assert (Hm : m_saveMutex (self s') = false).
  { revert Hrun. unfold saveAs, isSaving, getDb, gets. unfold bind.
    rewrite Hfree.
    destruct (negb (isInitialized (self s)));
      [intros H; inversion H; subst; exact Hfree |].
    destruct (externalChangeCheck E path s) as [[[err|] s0]|] eqn:Hc;
      [| | discriminate].
    - intros H. inversion H; subst. clear H. revert Hc.
      fields s. cbn in Hfree. subst mx.
      unfold externalChangeCheck. unfold_methods. cbn -[lookup].
      repeat (branch; cbn -[lookup]); intros H; inversion H; reflexivity.
    - destruct (saveAs_prepare s0) as [[[] s1]|]; [| discriminate].
      intros H. apply (saveAs_write_result _ _ _ _ _ _ _ H). }
  split; [exact Hm |].
  exact (releaseData_returns s' Hm).
Qed.

(** X16. Once [setIgnoreFileChangesUntilSaved(true)] is called, the watcher is
    paused (if the flag was not set before) and the external-change check
    of a save lets every file pass, whatever is on disk; a save that then
    succeeds clears the flag. *)
Theorem saveAs_ignoring_file_changes (E : Collaborators) (path : QString)
    (action : SaveAction) (backupFilePath : option QString) (s : Sys) :
  exists s1,
    setIgnoreFileChangesUntilSaved true s = Some (tt, s1) /\
    m_ignoreFileChangesUntilSaved (self s1) = true /\
    (m_ignoreFileChangesUntilSaved (self s) = false ->
     fw_paused (m_fileWatcher (self s1)) = true) /\
    externalChangeCheck E path s1 = Some (None, s1) /\
    (forall r s', saveAs E path action backupFilePath s1 = Some (r, s') ->
       fst r = true -> m_ignoreFileChangesUntilSaved (self s') = false).
Proof.
  assert (H1 : exists s1,
             setIgnoreFileChangesUntilSaved true s = Some (tt, s1) /\
             m_ignoreFileChangesUntilSaved (self s1) = true /\
             (m_ignoreFileChangesUntilSaved (self s) = false ->
              fw_paused (m_fileWatcher (self s1)) = true)).
  { fields s. unfold setIgnoreFileChangesUntilSaved, fileWatcher_pause, setPaused.
    unfold_methods. cbn.
    destruct ig; cbn; eexists; (split; [reflexivity |]); cbn;
      (split; [reflexivity |]); [discriminate | reflexivity]. }
  destruct H1 as (s1 & Hset & Hflag & Hpause).
  exists s1. split; [exact Hset |]. split; [exact Hflag |].
  split; [exact Hpause |].
  split.
  { apply (externalChangeCheck_skips E path s1). auto. }
  intros r s' Hrun Hr. revert Hrun.
  unfold saveAs, isSaving, getDb, gets. unfold bind.
  destruct (m_saveMutex (self s1));
    [intros H; inversion H; subst; discriminate |].
  destruct (negb (isInitialized (self s1)));
    [intros H; inversion H; subst; discriminate |].
  destruct (externalChangeCheck E path s1) as [[[err|] s0]|];
    [intros H; inversion H; subst; discriminate | | discriminate].
  destruct (saveAs_prepare s0) as [[[] s2]|]; [| discriminate].
  intros H. destruct (saveAs_write_result _ _ _ _ _ _ _ H) as [_ Hok].
  apply (Hok Hr).
Qed.

Lemma saveAs_then_next_check_witness :
  (exists s',
     saveAs (Sample.env Sample.rotatingWriter) Sample.path TempFile None
       Sample.gone = Some ((true, None), s') /\
     externalChangeCheck (Sample.env Sample.rotatingWriter) Sample.path s'
       = Some (None, s')) /\
  (exists s',
     saveAs (Sample.env Sample.rotatingWriter) Sample.path DirectWrite None
       Fixtures.writeOnly = Some ((true, None), s') /\
     externalChangeCheck (Sample.env Sample.rotatingWriter) Sample.path s'
       = Some (Some "Unable to open file /tmp/a.kdbx.", s')).
Proof.
  split.
  - assert (Hrun : exists s',
               saveAs (Sample.env Sample.rotatingWriter) Sample.path TempFile None
                 Sample.gone = Some ((true, None), s'))
      by (eexists; vm_compute; reflexivity).
    destruct Hrun as (s' & Hrun).
    exists s'. split; [exact Hrun |].
    destruct (saveAs_then_next_check (Sample.env Sample.rotatingWriter)
                Sample.path TempFile None Sample.gone (true, None) s'
                eq_refl eq_refl eq_refl Hrun eq_refl)
      as (_ & f & _ & _ & _ & _ & _ & Hpass).
    apply Hpass. reflexivity.
  - assert (Hrun : exists s',
               saveAs (Sample.env Sample.rotatingWriter) Sample.path DirectWrite
                 None Fixtures.writeOnly = Some ((true, None), s'))
      by (eexists; vm_compute; reflexivity).
    destruct Hrun as (s' & Hrun).
    exists s'. split; [exact Hrun |].
    destruct (saveAs_then_next_check (Sample.env Sample.rotatingWriter)
                Sample.path DirectWrite None Fixtures.writeOnly (true, None) s'
                eq_refl eq_refl eq_refl Hrun eq_refl)
      as (_ & f & Hf & Hhash & _ & Hold & Hcheck & _).
    rewrite Hcheck.
    assert (Hperms : f_permissions f = WriteUser).
    { apply (Hold eq_refl
               {| f_data := Sample.payload; f_fault := None;
                  f_permissions := WriteUser |}).
      vm_compute. reflexivity. }
    unfold f_readable. rewrite Hperms, Hhash. reflexivity.
Defined.

Lemma saveAs_releases_mutex_witness :
  exists e s' s2,
    saveAs (Sample.env Sample.failingWriter) Sample.path DirectWrite None
      Sample.unchanged = Some ((false, e), s') /\
    m_saveMutex (self s') = false /\
    releaseData s' = Some (tt, s2).
Proof.
  assert (Hrun : exists e s',
             saveAs (Sample.env Sample.failingWriter) Sample.path DirectWrite None
               Sample.unchanged = Some ((false, e), s'))
    by (eexists; eexists; vm_compute; reflexivity).
  destruct Hrun as (e & s' & Hrun).
  destruct (saveAs_releases_mutex (Sample.env Sample.failingWriter) Sample.path
              DirectWrite None Sample.unchanged (false, e) s' eq_refl Hrun)
    as (Hfree & s2 & Hrel).
  exists e, s', s2. split; [exact Hrun |]. split; [exact Hfree | exact Hrel].
Defined.

Lemma saveAs_ignoring_file_changes_witness :
  exists s1 s',
    setIgnoreFileChangesUntilSaved true Sample.rewritten = Some (tt, s1) /\
    fw_paused (m_fileWatcher (self s1)) = true /\
    saveAs (Sample.env Sample.rotatingWriter) Sample.path Atomic None s1
      = Some ((true, None), s') /\
    m_ignoreFileChangesUntilSaved (self s') = false.
Proof.
  destruct (saveAs_ignoring_file_changes (Sample.env Sample.rotatingWriter)
              Sample.path Atomic None Sample.rewritten)
    as (s1 & Hset & _ & Hpause & _ & Hclear).
  assert (Hrun : exists s',
             (match setIgnoreFileChangesUntilSaved true Sample.rewritten with
              | Some (_, s1) =>
                  saveAs (Sample.env Sample.rotatingWriter) Sample.path Atomic
                    None s1
              | None => None
              end) = Some ((true, None), s'))
    by (eexists; vm_compute; reflexivity).
  destruct Hrun as (s' & Hrun). rewrite Hset in Hrun.
  exists s1, s'. split; [exact Hset |]. split; [exact (Hpause eq_refl) |].
  split; [exact Hrun |]. exact (Hclear _ _ Hrun eq_refl).
Defined.

(** ** Opening: the outcome *)

Lemma externalChangeCheck_same_file (E : Collaborators) (path : QString)
    (s : Sys) (f : File) :
  filePath (m_data (self s)) = path ->
  disk (proc s) !! path = Some f ->
  f_readable f = true ->
  m_fileBlockHash (self s) = [] \/
  (length (file_read (kFileBlockToHashSizeBytes E) f) = kFileBlockToHashSizeBytes E /\
   m_fileBlockHash (self s) = md5 E (file_read (kFileBlockToHashSizeBytes E) f)) ->
  externalChangeCheck E path s = Some (None, s).
Proof.
  fields s. destruct dd as [fv fp ci co ms tk cr ky kd pc].
  cbn -[lookup]. intros -> Hf Hr Hhash.
  unfold externalChangeCheck. unfold_methods. cbn -[lookup].
  rewrite String.eqb_refl.
  destruct ig; [reflexivity |].
  destruct hash as [|b h]; [reflexivity |].
  cbn -[lookup]. rewrite Hf, Hr. cbn -[lookup].
  destruct Hhash as [Hnil | [Hlen Hmd5]]; [discriminate |].
  rewrite Hlen, Nat.eqb_refl, <- Hmd5.
  rewrite bool_decide_eq_true_2 by reflexivity. reflexivity.
Qed.

(** X17. [open] never writes to the disk.  When it succeeds it stores no error,
    the database is bound to the path, clean, with signalling enabled and
    the watcher started on the canonical path at a cadence of 30 and 1;
    [databaseOpened] has been emitted, the common usernames and the tag list
    are those of the root group, and the external-change check of a save to
    that path refuses nothing.  When it fails, either nothing has changed
    (the file is missing or cannot be opened) or signalling has been left
    disabled. *)
Theorem open_outcome (E : Collaborators) (path : QString)
    (k : option CompositeKey) (s : Sys) (v : Verdict) (s' : Sys) :
  open E path k s = Some (v, s') ->
  disk (proc s') = disk (proc s) /\
  (fst v = true ->
     snd v = None /\
     filePath (m_data (self s')) = path /\
     m_modified (self s') = false /\
     m_hasNonDataChange (self s') = false /\
     m_emitModified (self s') = true /\
     m_fileWatcher (self s')
       = {| fw_path := Some (canonicalFilePathOf E path);
            fw_cadence := (30, 1)%Z; fw_paused := false |} /\
     In (Emitted databaseOpened) (signals (self s')) /\
     (exists root, m_rootGroup (self s') = Some root /\
        m_commonUsernames (self s') = usernamesRecursive E root 10 /\
        m_tagList (self s') = tagsRecursive E root) /\
     externalChangeCheck E path s' = Some (None, s')) /\
  (fst v = false -> s' = s \/ m_emitModified (self s') = false).
Proof.
  intros Hrun.
  assert (Hfacts :
    disk (proc s') = disk (proc s) /\
    (fst v = true ->
       snd v = None /\
       filePath (m_data (self s')) = path /\
       m_modified (self s') = false /\
       m_hasNonDataChange (self s') = false /\
       m_emitModified (self s') = true /\
       m_fileWatcher (self s')
         = {| fw_path := Some (canonicalFilePathOf E path);
              fw_cadence := (30, 1)%Z; fw_paused := false |} /\
       In (Emitted databaseOpened) (signals (self s')) /\
       (exists root, m_rootGroup (self s') = Some root /\
          m_commonUsernames (self s') = usernamesRecursive E root 10 /\
          m_tagList (self s') = tagsRecursive E root) /\
       exists f, disk (proc s) !! path = Some f /\ f_readable f = true /\
         (m_fileBlockHash (self s') = [] \/
          (length (file_read (kFileBlockToHashSizeBytes E) f)
             = kFileBlockToHashSizeBytes E /\
           m_fileBlockHash (self s')
             = md5 E (file_read (kFileBlockToHashSizeBytes E) f)))) /\
    (fst v = false -> s' = s \/ m_emitModified (self s') = false)).
  { revert Hrun. fields s.
    unfold open, open_load, applyReader, setFilePath, canonicalFilePath.
    unfold_methods. cbn -[lookup markAsModified].
    destruct (disk p !! path) as [f|] eqn:Hf; cbn -[lookup markAsModified];
      [| intros H; inversion H; subst; cbn;
         split; [reflexivity | split; [discriminate | auto]]].
    destruct (f_readable f) eqn:Hr; cbn -[lookup markAsModified];
      [| intros H; inversion H; subst; cbn;
         split; [reflexivity | split; [discriminate | auto]]].
    destruct em; cbn -[lookup markAsModified];
      (destruct (Nat.eqb_spec (length (file_read (kFileBlockToHashSizeBytes E) f))
                   (kFileBlockToHashSizeBytes E)) as [Hlen | Hlen];
       cbn -[lookup markAsModified];
       [| destruct (kFileBlockToHashSizeBytes E <=? file_size f)%nat;
          cbn -[lookup markAsModified];
          [intros H; inversion H; subst; cbn;
           split; [reflexivity | split; [discriminate | auto]] |]]);
      match goal with
      | |- context [KeePass2Reader_readDatabase E ?b ?kk ?d] =>
          destruct (KeePass2Reader_readDatabase E b kk d)
            as [err [fv fp ci co ms tk cr ky kd pc] rm rgp rdel rmod]
      end;
      cbn -[lookup markAsModified];
      destruct rmod; cbn -[lookup markAsModified];
      rewrite ?markAsModified_eq; cbn -[lookup];
      (destruct err as [e|]; cbn -[lookup];
       [intros H; inversion H; subst; cbn;
        split; [reflexivity | split; [discriminate | auto]] |]);
      destruct (String.eqb_spec path fp) as [-> | Hne]; cbn -[lookup];
      try (destruct mo; cbn -[lookup]);
      intros H; inversion H; subst; cbn -[lookup];
      (split; [reflexivity |]); (split; [| discriminate]); intros _;
      repeat match goal with |- _ /\ _ => split end;
      first [ reflexivity
            | solve [cbn; auto 10]
            | solve [eexists; repeat split; reflexivity]
            | exists f; split; [reflexivity |]; split; [exact Hr |];
              first [left; reflexivity | right; split; [exact Hlen | reflexivity]] ]. }
  destruct Hfacts as (Hdisk & Hok & Hfail).
  split; [exact Hdisk |]. split; [| exact Hfail].
  intros Hv. destruct (Hok Hv)
    as (H1 & H2 & H3 & H4 & H5 & H6 & H7 & H8 & f & Hf & Hr & Hhash).
  repeat (split; [assumption |]).
  apply (externalChangeCheck_same_file E path s' f); auto.
  rewrite Hdisk. exact Hf.
Qed.

Lemma open_outcome_witness :
  exists s',
    open (Sample.env Sample.rotatingWriter) Sample.path (Some Sample.password)
      Sample.rewritten = Some ((true, None), s') /\
    disk (proc s') = disk (proc Sample.rewritten) /\
    m_modified (self s') = false /\
    externalChangeCheck (Sample.env Sample.rotatingWriter) Sample.path s'
      = Some (None, s').
Proof.
  assert (Hrun : exists s',
             open (Sample.env Sample.rotatingWriter) Sample.path
               (Some Sample.password) Sample.rewritten = Some ((true, None), s'))
    by (eexists; vm_compute; reflexivity).
  destruct Hrun as (s' & Hrun).
  destruct (open_outcome _ _ _ _ _ _ Hrun) as (Hdisk & Hok & _).
  destruct (Hok eq_refl) as (_ & _ & Hmod & _ & _ & _ & _ & _ & Hcheck).
  exists s'. split; [exact Hrun |]. split; [exact Hdisk |].
  split; [exact Hmod | exact Hcheck].
Defined.

(** ** Saving through a temporary file when the rename fails *)



(** ** Saving: a codec that fails *)

(** [setEmitModified] reads and writes the object alone. *)
Lemma setEmitModified_run (value : bool) (s : Sys) :
  exists d',
    forall s0, self s0 = self s ->
               setEmitModified value s0 = Some (tt, set_self d' s0).
Proof.
  exists (match setEmitModified value s with
          | Some (_, s1) => self s1
          | None => self s
          end).
  intros [d0 a0 p0] Hd. cbn in Hd. subst d0.
  fields s. unfold_methods. cbn.
  destruct em, value; reflexivity.
Qed.

Lemma writeDatabase_codec_error (E : Collaborators) (e : QString) (s : Sys)
    (d1 : Database) (w : Verdict * QByteArray) (s' : Sys) :
  setEmitModified false s = Some (tt, set_self d1 s) ->
  wr_error (KeePass2Writer_writeDatabase E d1 (random (proc s))) = Some e ->
  writeDatabase E s = Some (w, s') ->
  fst w = (false, Some e).
Proof.
  fields s. unfold writeDatabase, applyWriter. unfold_methods.
  cbn -[markAsModified].
  intros Hmute Herr.
  destruct (key dd) as [ck|]; [| discriminate]. cbn -[markAsModified].
  destruct em; cbn -[markAsModified] in Hmute |- *;
    inversion Hmute; subst d1; clear Hmute;
    match goal with
    | |- context [KeePass2Writer_writeDatabase E ?d ?r] =>
        destruct (KeePass2Writer_writeDatabase E d r) as [out err wd wm wr]
    end;
    cbn -[markAsModified] in Herr |- *; subst err;
    destruct wm; cbn -[markAsModified]; rewrite ?markAsModified_eq; cbn;
    intros H; inversion H; subst; reflexivity.
Qed.

(** Whatever the strategy and the backup, a [performSave] whose file and
    hashing stream open returns the error the codec reports for the
    database as the write finds it. *)
Lemma performSave_codec_error (E : Collaborators) (e : QString)
    (path : QString) (action : SaveAction) (backupFilePath : option QString)
    (s s1 : Sys) (r : Verdict) (s' : Sys) :
  io_openWrite (io (proc s)) = true ->
  io_hashingOpen (io (proc s)) = true ->
  setEmitModified false s = Some (tt, s1) ->
  wr_error (KeePass2Writer_writeDatabase E (self s1) (random (proc s1))) = Some e ->
  performSave E path action backupFilePath s = Some (r, s') ->
  r = (false, Some e).
Proof.
  intros Hopen Hhash Hmute Herr.
  destruct (setEmitModified_run false s) as [d1 Hall].
  assert (Hs1 : s1 = set_self d1 s)
    by (rewrite (Hall s eq_refl) in Hmute; inversion Hmute; reflexivity).
  subst s1. clear Hmute.
  unfold performSave. unfold bind at 1.
  destruct (performSave_backup path backupFilePath s)
    as (sb & -> & Hself & Hio & Hrandom & _).
  rewrite <- Hio in Hopen, Hhash.
  assert (Hcall : forall dk',
            setEmitModified false (set_proc (set_disk dk' (proc sb)) sb)
            = Some (tt, set_self d1 (set_proc (set_disk dk' (proc sb)) sb)))
    by (intros dk'; apply Hall; destruct sb; exact Hself).
  assert (Herr' : wr_error (KeePass2Writer_writeDatabase E d1 (random (proc sb)))
                  = Some e)
    by (rewrite Hrandom; destruct s as [? ? ?]; exact Herr).
  clear Hall Herr Hself Hio Hrandom.
  destruct sb as [d a [reg dk rnd clk [ow ho cm rn bd cp np es tn rf]]].
  cbn in Hopen, Hhash, Herr', Hcall. subst ow ho.
  unfold storeFile. unfold_methods.
  destruct action; cbn -[writeDatabase lookup insert delete alter];
    match goal with
    | |- context [writeDatabase E {| self := d; this := a; proc := ?p |}] =>
        destruct (writeDatabase E {| self := d; this := a; proc := p |})
          as [[w s2]|] eqn:Hw; [| discriminate];
        rewrite (surjective_pairing w),
          (writeDatabase_codec_error E e _ d1 _ _ (Hcall (disk p)) Herr' Hw)
    end;
    cbn -[lookup insert delete alter];
    intros H; inversion H; reflexivity.
Qed.

(** X19. The codec's error reaches the caller verbatim.  Let a [saveAs] get
    past its guards and the external-change check, and let the file and
    the hashing stream open.  If the codec reports an error for the
    database as the write finds it (with the padding added, the save mutex
    held and signalling switched off) and the generator as it is then, the
    [saveAs] returns false with exactly that error, under every strategy
    and with or without backup, and leaves the database marked modified,
    the watcher stopped and the save mutex free. *)
Theorem saveAs_codec_error (E : Collaborators) (e : QString) (path : QString)
    (action : SaveAction) (backupFilePath : option QString)
    (s s0 s1 s2 : Sys) :
  m_saveMutex (self s) = false ->
  isInitialized (self s) = true ->
  externalChangeCheck E path s = Some (None, s0) ->
  io_openWrite (io (proc s)) = true ->
  io_hashingOpen (io (proc s)) = true ->
  saveAs_prepare s = Some (tt, s1) ->
  setEmitModified false (set_self (set_m_saveMutex true (self s1)) s1)
    = Some (tt, s2) ->
  wr_error (KeePass2Writer_writeDatabase E (self s2) (random (proc s2))) = Some e ->
  exists s',
    saveAs E path action backupFilePath s = Some ((false, Some e), s') /\
    m_modified (self s') = true /\
    fw_path (m_fileWatcher (self s')) = None /\
    m_saveMutex (self s') = false.
Proof.
  intros Hfree Hinit Hcheck Hopen Hhash Hprep Hmute Herr.
  pose proof (externalChangeCheck_pass _ _ _ _ Hcheck) as ->.
  destruct (isInitialized_parts _ Hinit) as [Hkey Hroot].
  destruct (saveAs_prepare_run s)
    as (s1' & Hprep' & _ & Hdata & Hrootkept & _ & _ & Hstopped & _).
  rewrite Hprep in Hprep'. inversion Hprep'; subst s1'. clear Hprep'.
  destruct (saveAs_prepare_proc _ _ Hprep) as [_ Hio].
  destruct (saveAs_write_run E s1 path action backupFilePath)
    as (r & sp & s' & Hrun & Hwrite & _ & Hfail).
  { rewrite Hdata. exact Hkey. }
  { rewrite Hrootkept. exact Hroot. }
  assert (Hr : r = (false, Some e)).
  { apply (performSave_codec_error E e _ _ _ _ s2 _ _) in Hrun;
      [exact Hrun | | | |].
    - destruct s1 as [d1 a1 p1]. cbn in Hio |- *. rewrite Hio. exact Hopen.
    - destruct s1 as [d1 a1 p1]. cbn in Hio |- *. rewrite Hio. exact Hhash.
    - exact Hmute.
    - exact Herr. }
  subst r. exists s'. split.
  { rewrite saveAs_past_guards by assumption.
    unfold bind. rewrite Hcheck, Hprep. exact Hwrite. }
  destruct (Hfail eq_refl) as [Hmod Hwatch].
  split; [exact Hmod |]. split; [rewrite Hwatch; exact Hstopped |].
  apply (saveAs_write_result _ _ _ _ _ _ _ Hwrite).
Qed.

(** ** From construction to the first save *)

Lemma setKey_keeps_shell (E : Collaborators) (s : Sys) (k : option CompositeKey)
    (updateChangedTime updateTransformSalt transformKey : bool)
    (b : bool) (s' : Sys) :
  setKey E k updateChangedTime updateTransformSalt transformKey s = Some (b, s') ->
  m_rootGroup (self s') = m_rootGroup (self s) /\
  filePath (m_data (self s')) = filePath (m_data (self s)) /\
  m_saveMutex (self s') = m_saveMutex (self s) /\
  m_fileBlockHash (self s') = m_fileBlockHash (self s).
Proof.
  fields s. destruct dd as [fv fp ci co ms [tk] cr ky kd pc].
  unfold setKey. unfold_methods. cbn -[markAsModified].
  destruct k as [k|]; cbn -[markAsModified];
    [| intros H; inversion H; subst; cbn; auto].
  destruct updateTransformSalt; cbn -[markAsModified];
    (destruct ky as [c|]; [destruct (isEmpty c) |]); cbn -[markAsModified];
    (destruct transformKey; cbn -[markAsModified];
     [destruct (transform E k _) as [out|err]; cbn -[markAsModified];
      [destruct out | intros H; inversion H; subst; cbn; auto]
     | try destruct tk]);
    cbn -[markAsModified]; destruct updateChangedTime; cbn -[markAsModified];
    intros Hrun;
    match type of Hrun with
    | context [bool_decide ?P] => destruct (bool_decide_reflect P)
    end;
    cbn -[markAsModified] in Hrun; rewrite ?markAsModified_eq in Hrun;
    cbn in Hrun; inversion Hrun; subst; cbn; auto.
Qed.

(** X20. A new database given a non-empty key by a successful [setKey] is
    initialized but still unbound: [save] refuses it for want of a file,
    leaving it as it is, while [saveAs] no longer refuses it as
    uninitialized. *)
Theorem new_database_first_key (E : Collaborators) (addr : Addr) (p : Process)
    (k : CompositeKey) (updateChangedTime updateTransformSalt transformKey : bool)
    (s s' : Sys) :
  Database_new E addr p = Some s ->
  isEmpty k = false ->
  setKey E (Some k) updateChangedTime updateTransformSalt transformKey s
    = Some (true, s') ->
  isInitialized (self s') = true /\
  m_fileBlockHash (self s') = [] /\
  (forall action backupFilePath,
     save E action backupFilePath s'
     = Some ((false, Some "Could not save, database does not point to a valid file."),
             s')) /\
  (forall path action backupFilePath,
     saveAs E path action backupFilePath s'
     = (saveAs_prepare ;; saveAs_write E path action backupFilePath)%method s').
Proof.
  intros Hnew Hne Hset.
  assert (Hshell : filePath (m_data (self s)) = "" /\
                   m_fileBlockHash (self s) = [] /\
                   is_Some (m_rootGroup (self s)) /\
                   m_saveMutex (self s) = false).
  { revert Hnew. unfold Database_new.
    destruct (randomizeSeed (defaultKdf E) (random p)) as [kd r1].
    destruct (createUuid r1) as [uuid r2].
    unfold setRootGroup. unfold_methods. cbn -[lookup insert].
    intros H. inversion H. cbn. eauto. }
  destruct Hshell as (Hpath & Hhash & [g Hroot] & Hmutex).
  destruct (setKey_keeps_shell _ _ _ _ _ _ _ _ Hset) as (Hr & Hp & Hm & Hh).
  destruct (setKey_run _ _ _ _ _ _ _ Hset) as (Hkey & _).
  assert (Hinit : isInitialized (self s') = true).
  { unfold isInitialized. rewrite Hkey, Hr, Hroot, Hne. reflexivity. }
  split; [exact Hinit |]. split; [congruence |].
  split.
  - intros action backupFilePath.
    unfold save, getData, getDb, gets. unfold bind.
    rewrite Hp, Hpath. reflexivity.
  - intros path action backupFilePath.
    rewrite saveAs_past_guards by congruence.
    assert (Hcheck : externalChangeCheck E path s' = Some (None, s')).
    { apply (externalChangeCheck_skips E path s').
      right. left. congruence. }
    unfold bind at 1. rewrite Hcheck. reflexivity.
Qed.

Lemma saveAs_codec_error_witness :
  (exists s',
     saveAs (Sample.env Fixtures.pickyWriter) Sample.path DirectWrite None
       Fixtures.exotic = Some ((false, Some "Invalid cipher"), s') /\
     m_modified (self s') = true) /\
  (exists s',
     saveAs (Sample.env Fixtures.pickyWriter) Sample.path DirectWrite None
       Sample.pristine = Some ((true, None), s')).
Proof.
  split.
  - assert (Hsteps : exists s1 s2,
               saveAs_prepare Fixtures.exotic = Some (tt, s1) /\
               setEmitModified false
                 (set_self (set_m_saveMutex true (self s1)) s1) = Some (tt, s2) /\
               cipher (m_data (self s2)) = 7%N).
    { eexists. eexists. split; [vm_compute; reflexivity |].
      split; vm_compute; reflexivity. }
    destruct Hsteps as (s1 & s2 & Hprep & Hmute & Hcipher).
    destruct (saveAs_codec_error (Sample.env Fixtures.pickyWriter)
                "Invalid cipher" Sample.path DirectWrite None
                Fixtures.exotic Fixtures.exotic s1 s2)
      as (s' & Hrun & Hmod & _).
    + reflexivity.
    + reflexivity.
    + vm_compute. reflexivity.
    + reflexivity.
    + reflexivity.
    + exact Hprep.
    + exact Hmute.
    + cbn [Sample.env KeePass2Writer_writeDatabase]. unfold Fixtures.pickyWriter.
      rewrite Hcipher. reflexivity.
    + exists s'. split; [exact Hrun | exact Hmod].
  - eexists. vm_compute. reflexivity.
Defined.

Lemma new_database_first_key_witness :
  exists s s',
    Database_new (Sample.env Sample.rotatingWriter) 7 (Sample.processWith ∅)
      = Some s /\
    setKey (Sample.env Sample.rotatingWriter) (Some Sample.password) true true true s
      = Some (true, s') /\
    isInitialized (self s') = true /\
    save (Sample.env Sample.rotatingWriter) Atomic None s'
      = Some ((false, Some "Could not save, database does not point to a valid file."),
              s').
Proof.
  assert (Hrun : exists s s',
             Database_new (Sample.env Sample.rotatingWriter) 7 (Sample.processWith ∅)
               = Some s /\
             setKey (Sample.env Sample.rotatingWriter) (Some Sample.password)
               true true true s = Some (true, s'))
    by (eexists; eexists; split; vm_compute; reflexivity).
  destruct Hrun as (s & s' & Hnew & Hset).
  destruct (new_database_first_key (Sample.env Sample.rotatingWriter) 7
              (Sample.processWith ∅) Sample.password true true true s s'
              Hnew eq_refl Hset) as (Hinit & _ & Hsave & _).
  exists s, s'. split; [exact Hnew |]. split; [exact Hset |].
  split; [exact Hinit | exact (Hsave Atomic None)].
Defined.
